(** * Natal-chart engine of plugin-mysticism: a shallow embedding

    The Python module [elizaos_plugin_mysticism/engines/astrology.py] is
    embedded function by function.  Conventions of the embedding:

    - Python [int] is [Z]; Python [float] is an exact rational [Q].  The
      arithmetic of the source ([+], [-], [*], [/], [%], [//], [abs],
      [round], [int]) is embedded with its mathematical meaning; the
      rounding of binary64 arithmetic is outside the model.  A rational
      is a finite number: NaN and the infinities are not values of the
      model, and every statement about "any" float is about any finite
      one.  Where NaN changes the control flow (the comparisons of
      [_house_for_longitude]) a second embedding with NaN is given.
    - The transcendental functions of Python's [math] module are not code
      of this repository; every definition that uses them takes them from a
      [MathLib] record.
    - The aspect table [data/astrology/aspects.json] is read at run time;
      the loaded list is a parameter of [calculate_aspects].
    - Exceptions are values of [exn]; a function that may raise returns
      [result A = exn + A].
    - [dict] is [gmap], [set] is [gset], [list] is [list]. *)

From Stdlib Require Import QArith Qround Qabs ZArith Lia Lqa List Sorted Permutation.
From stdpp Require Import gmap strings.
Import ListNotations.

Local Open Scope string_scope.
Local Open Scope Z_scope.
Local Open Scope Q_scope.

(** ** Python numerics on exact rationals *)

Module Py.

(** Comparisons as booleans, as the source branches on them. *)
Definition leb (x y : Q) : bool := Qle_bool x y.
Definition ltb (x y : Q) : bool := negb (Qle_bool y x).
Definition eqb (x y : Q) : bool := Qeq_bool x y.

(** [x // m] on floats: the floor of the quotient, still a float. *)
Definition floordiv (x m : Q) : Q := inject_Z (Qfloor (x / m)).

(** [x % m] on floats, for a positive modulus: the result has the sign of
    the modulus. *)
Definition mod_ (x m : Q) : Q := x - m * floordiv x m.

(** [int(x)]: truncation toward zero. *)
Definition int (x : Q) : Z := Z.quot (Qnum x) (Zpos (Qden x)).

(** [round(x)] with one argument: nearest integer, ties to the even one. *)
Definition round (x : Q) : Z :=
  let f := Qfloor x in
  let r := x - inject_Z f in
  if ltb r (1 # 2) then f
  else if ltb (1 # 2) r then (f + 1)%Z
  else if Z.even f then f else (f + 1)%Z.

(** [abs(x)]. *)
Definition abs (x : Q) : Q := Qabs x.

(** [round(x * 100) / 100], the two-decimal rounding of the display fields. *)
Definition round2 (x : Q) : Q := inject_Z (round (x * 100)) / 100.

End Py.

(** ** Exceptions and the error monad *)

Inductive exn : Type :=
| ValueError (msg : string)
| KeyError (key : string)
| IndexError
| ZeroDivisionError.

Definition result (A : Type) : Type := (exn + A)%type.

Definition ret {A} (a : A) : result A := inr a.
Definition raise {A} (e : exn) : result A := inl e.
Definition bind {A B} (m : result A) (k : A -> result B) : result B :=
  match m with
  | inl e => inl e
  | inr a => k a
  end.

Declare Scope result_scope.
Delimit Scope result_scope with result.
Notation "'do' x <- m ; k" := (bind m (fun x => k))
  (at level 10, x name, m at level 100, k at level 200,
   format "'[v' 'do'  x  <-  m ; '/' k ']'") : result_scope.
Local Open Scope result_scope.

Definition is_ok {A} (r : result A) : bool :=
  match r with inr _ => true | inl _ => false end.

(** [l[i]] on a Python list: negative indices count from the end, an index
    out of range raises [IndexError]. *)
Definition getitem {A} (l : list A) (i : Z) : result A :=
  let n := Z.of_nat (length l) in
  let j := if (i <? 0)%Z then (i + n)%Z else i in
  if (j <? 0)%Z then raise IndexError
  else match nth_error l (Z.to_nat j) with
       | Some a => ret a
       | None => raise IndexError
       end.

(** [x / y] on floats: a zero divisor raises. *)
Definition fdiv (x y : Q) : result Q :=
  if Py.eqb y 0 then raise ZeroDivisionError else ret (x / y).

(** ** The [math] module, taken as a parameter *)

Record MathLib : Type := {
  m_pi : Q;
  m_sin : Q -> Q;
  m_cos : Q -> Q;
  m_tan : Q -> Q;
  m_atan2 : Q -> Q -> Q;
  m_sqrt : Q -> Q
}.

(** [math.sqrt]: a negative argument raises [ValueError]. *)
Definition math_sqrt (ml : MathLib) (x : Q) : result Q :=
  if Py.ltb x 0 then raise (ValueError "math domain error")
  else ret (m_sqrt ml x).

(** ** types.py *)

Record FeedbackEntry : Type := {
  element : string;
  userText : string;
  timestamp : Q
}.

Record BirthData : Type := {
  year : Z;
  month : Z;
  day : option Z;
  hour : option Z;
  minute : option Z;
  latitude : option Q;
  longitude : option Q;
  timezone : option Q
}.

Record PlanetPosition : Type := {
  planet : string;
  p_sign : string;
  p_degrees : Q;
  p_totalDegrees : Q;
  house : Z;
  retrograde : bool
}.

Record SignPosition : Type := {
  sign : string;
  degrees : Q;
  totalDegrees : Q
}.

Record ChartAspect : Type := {
  planet1 : string;
  planet2 : string;
  aspectName : string;
  aspectSymbol : string;
  exactDegrees : Q;
  actualDegrees : Q;
  orb : Q;
  nature : string
}.

Record NatalChart : Type := {
  sun : PlanetPosition;
  moon : PlanetPosition;
  mercury : PlanetPosition;
  venus : PlanetPosition;
  mars : PlanetPosition;
  jupiter : PlanetPosition;
  saturn : PlanetPosition;
  uranus : PlanetPosition;
  neptune : PlanetPosition;
  pluto : PlanetPosition;
  ascendant : SignPosition;
  midheaven : SignPosition;
  aspects : list ChartAspect;
  houseCusps : list Q
}.

Record AstrologyReadingState : Type := {
  birthData : BirthData;
  chart : NatalChart;
  revealedPlanets : list string;
  revealedHouses : list string;
  userFeedback : list FeedbackEntry
}.

(** One record of the aspect table ([name], [symbol], [degrees], [orb],
    [nature] in aspects.json). *)
Record AspectDef : Type := {
  d_name : string;
  d_symbol : string;
  d_degrees : Q;
  d_orb : Q;
  d_nature : string
}.

(** ** engines/astrology.py *)

Section Astrology.

Variable ml : MathLib.

Local Abbreviation pi := (m_pi ml).
Local Abbreviation sin := (m_sin ml).
Local Abbreviation cos := (m_cos ml).
Local Abbreviation tan := (m_tan ml).
Local Abbreviation atan2 := (m_atan2 ml).

Definition DEG2RAD : Q := pi / 180.
Definition RAD2DEG : Q := 180 / pi.
Definition J2000 : Q := 2451545.

Definition SIGN_ORDER : list string :=
  [ "aries"; "taurus"; "gemini"; "cancer"; "leo"; "virgo";
    "libra"; "scorpio"; "sagittarius"; "capricorn"; "aquarius"; "pisces" ].

Definition degrees_to_sign (total_degrees : Q) : result SignPosition :=
  let deg := Py.mod_ total_degrees 360 in
  let deg := if Py.ltb deg 0 then deg + 360 else deg in
  let sign_index := Py.int (Py.floordiv deg 30) in
  let within_sign := deg - inject_Z sign_index * 30 in
  do s <- getitem SIGN_ORDER sign_index;
  ret {| sign := s; degrees := within_sign; totalDegrees := deg |}.

Record OrbitalElements : Type := {
  L0 : Q; L1 : Q;
  a : Q; e0 : Q; e1 : Q;
  I0 : Q; I1 : Q;
  W0 : Q; W1 : Q;
  w0 : Q; w1 : Q
}.

Definition ORBITAL_ELEMENTS : gmap string OrbitalElements :=
  list_to_map
  [ ("mercury",
     {| L0 := 252.25032350; L1 := 149472.67411175;
        a := 0.38709927; e0 := 0.20563593; e1 := 0.00001906;
        I0 := 7.00497902; I1 := -0.00594749;
        W0 := 48.33076593; W1 := -0.12534081;
        w0 := 77.45779628; w1 := 0.16047689 |});
    ("venus",
     {| L0 := 181.97909950; L1 := 58517.81538729;
        a := 0.72333566; e0 := 0.00677672; e1 := -0.00004107;
        I0 := 3.39467605; I1 := -0.00078890;
        W0 := 76.67984255; W1 := -0.27769418;
        w0 := 131.60246718; w1 := 0.00268329 |});
    ("earth",
     {| L0 := 100.46457166; L1 := 35999.37244981;
        a := 1.00000261; e0 := 0.01671123; e1 := -0.00004392;
        I0 := 0.00001531; I1 := -0.01294668;
        W0 := 0; W1 := 0;
        w0 := 102.93768193; w1 := 0.32327364 |});
    ("mars",
     {| L0 := 355.44656299; L1 := 19140.30268499;
        a := 1.52371034; e0 := 0.09339410; e1 := 0.00007882;
        I0 := 1.84969142; I1 := -0.00813131;
        W0 := 49.55953891; W1 := -0.29257343;
        w0 := 336.05637041; w1 := 0.44441088 |});
    ("jupiter",
     {| L0 := 34.39644051; L1 := 3034.74612775;
        a := 5.20288700; e0 := 0.04838624; e1 := -0.00013253;
        I0 := 1.30439695; I1 := -0.00183714;
        W0 := 100.47390909; W1 := 0.20469106;
        w0 := 14.72847983; w1 := 0.21252668 |});
    ("saturn",
     {| L0 := 49.95424423; L1 := 1222.49362201;
        a := 9.53667594; e0 := 0.05386179; e1 := -0.00050991;
        I0 := 2.48599187; I1 := 0.00193609;
        W0 := 113.66242448; W1 := -0.28867794;
        w0 := 92.59887831; w1 := -0.41897216 |});
    ("uranus",
     {| L0 := 313.23810451; L1 := 428.48202785;
        a := 19.18916464; e0 := 0.04725744; e1 := -0.00004397;
        I0 := 0.77263783; I1 := -0.00242939;
        W0 := 74.01692503; W1 := 0.04240589;
        w0 := 170.95427630; w1 := 0.40805281 |});
    ("neptune",
     {| L0 := 304.87997031; L1 := 218.45945325;
        a := 30.06992276; e0 := 0.00859048; e1 := 0.00005105;
        I0 := 1.77004347; I1 := 0.00035372;
        W0 := 131.78422574; W1 := -0.01299630;
        w0 := 44.96476227; w1 := -0.32241464 |});
    ("pluto",
     {| L0 := 238.92903833; L1 := 145.20780515;
        a := 39.48211675; e0 := 0.24882730; e1 := 0.00005170;
        I0 := 17.14001206; I1 := 0.00004818;
        W0 := 110.30393684; W1 := -0.01183482;
        w0 := 224.06891629; w1 := -0.04062942 |}) ].

(** [hour] is typed [int] in the source but receives [hour - timezone],
    a float, from [calculate_natal_chart]. *)
Definition to_julian_day (year month day : Z) (hour : Q) (minute : Z) : Q :=
  let y := year in
  let m := month in
  let '(y, m) := if (m <=? 2)%Z then ((y - 1)%Z, (m + 12)%Z) else (y, m) in
  let A := (y / 100)%Z in
  let B := (2 - A + A / 4)%Z in
  let day_fraction := (hour + inject_Z minute / 60) / 24 in
  inject_Z (Py.int (365.25 * inject_Z (y + 4716))
            + Py.int (30.6001 * inject_Z (m + 1))
            + day)
  + day_fraction
  + inject_Z B
  - 1524.5.

Definition julian_centuries (jd : Q) : Q := (jd - J2000) / 36525.

Definition _norm_deg (deg : Q) : Q :=
  if Py.leb 0 deg then Py.mod_ deg 360
  else Py.mod_ (Py.mod_ deg 360 + 360) 360.

(** The body of [for _ in range(50)], with its [break]. *)
Fixpoint solve_kepler_loop (n : nat) (M e E : Q) : result Q :=
  match n with
  | O => ret E
  | S n' =>
      do dE <- fdiv (E - e * sin E - M) (1 - e * cos E);
      let E := E - dE in
      if Py.ltb (Py.abs dE) 1e-12 then ret E
      else solve_kepler_loop n' M e E
  end.

Definition solve_kepler (M e : Q) : result Q :=
  solve_kepler_loop 50 M e M.

Definition heliocentric_longitude (planet_id : string) (jd : Q) : result Q :=
  match ORBITAL_ELEMENTS !! planet_id with
  | None => raise (ValueError ("No orbital elements for: " +:+ planet_id))
  | Some el =>
      let T := julian_centuries jd in
      let L := _norm_deg (L0 el + L1 el * T) in
      let e := e0 el + e1 el * T in
      let w := _norm_deg (w0 el + w1 el * T) in
      let W := _norm_deg (W0 el + W1 el * T) in
      let I := I0 el + I1 el * T in
      let M := _norm_deg (L - w) in
      let M_rad := M * DEG2RAD in
      do E <- solve_kepler M_rad e;
      do r <- math_sqrt ml (1 - e * e);
      do sin_v <- fdiv (r * sin E) (1 - e * cos E);
      do cos_v <- fdiv (cos E - e) (1 - e * cos E);
      let v := atan2 sin_v cos_v * RAD2DEG in
      let l_helio := _norm_deg (v + w - W) in
      let I_rad := I * DEG2RAD in
      let l_helio_rad := l_helio * DEG2RAD in
      let ecl_lon :=
        _norm_deg (atan2 (sin l_helio_rad * cos I_rad) (cos l_helio_rad)
                   * RAD2DEG + W) in
      ret ecl_lon
  end.

(** [ORBITAL_ELEMENTS[key]]: a missing key raises [KeyError]. *)
Definition elements_of (key : string) : result OrbitalElements :=
  match ORBITAL_ELEMENTS !! key with
  | Some el => ret el
  | None => raise (KeyError key)
  end.

Definition geocentric_longitude (planet_id : string) (jd : Q) : result Q :=
  if String.eqb planet_id "earth"
  then raise (ValueError "Cannot compute geocentric longitude of Earth")
  else
    let T := julian_centuries jd in
    do earth_el <- elements_of "earth";
    let earth_L := _norm_deg (L0 earth_el + L1 earth_el * T) in
    let earth_e := e0 earth_el + e1 earth_el * T in
    let earth_w := _norm_deg (w0 earth_el + w1 earth_el * T) in
    let earth_M := _norm_deg (earth_L - earth_w) * DEG2RAD in
    do earth_ecc <- solve_kepler earth_M earth_e;
    do earth_r <- math_sqrt ml (1 - earth_e * earth_e);
    let earth_V :=
      atan2 (earth_r * sin earth_ecc) (cos earth_ecc - earth_e) * RAD2DEG in
    let earth_helio_lon := _norm_deg (earth_V + earth_w) in
    let earth_R := a earth_el * (1 - earth_e * cos earth_ecc) in
    do p_el <- elements_of planet_id;
    let p_L := _norm_deg (L0 p_el + L1 p_el * T) in
    let p_e := e0 p_el + e1 p_el * T in
    let p_w := _norm_deg (w0 p_el + w1 p_el * T) in
    let p_M := _norm_deg (p_L - p_w) * DEG2RAD in
    do p_ecc <- solve_kepler p_M p_e;
    do p_r <- math_sqrt ml (1 - p_e * p_e);
    let p_V := atan2 (p_r * sin p_ecc) (cos p_ecc - p_e) * RAD2DEG in
    let p_helio_lon := _norm_deg (p_V + p_w) in
    let p_R := a p_el * (1 - p_e * cos p_ecc) in
    let p_helio_rad := p_helio_lon * DEG2RAD in
    let earth_helio_rad := earth_helio_lon * DEG2RAD in
    let x := p_R * cos p_helio_rad - earth_R * cos earth_helio_rad in
    let y := p_R * sin p_helio_rad - earth_R * sin earth_helio_rad in
    ret (_norm_deg (atan2 y x * RAD2DEG)).

Definition sun_longitude (jd : Q) : Q :=
  let T := julian_centuries jd in
  let L0 := _norm_deg (280.46646 + 36000.76983 * T + 0.0003032 * T * T) in
  let M := _norm_deg (357.52911 + 35999.05029 * T - 0.0001537 * T * T) in
  let M_rad := M * DEG2RAD in
  let C :=
    (1.914602 - 0.004817 * T - 0.000014 * T * T) * sin M_rad
    + (0.019993 - 0.000101 * T) * sin (2 * M_rad)
    + 0.000289 * sin (3 * M_rad) in
  let sun_true_lon := _norm_deg (L0 + C) in
  let omega := 125.04 - 1934.136 * T in
  let apparent := sun_true_lon - 0.00569 - 0.00478 * sin (omega * DEG2RAD) in
  _norm_deg apparent.

Definition moon_longitude (jd : Q) : Q :=
  let T := julian_centuries jd in
  let Lp := _norm_deg
    (218.3164477
     + 481267.88123421 * T
     - 0.0015786 * T * T
     + T * T * T / 538841
     - T * T * T * T / 65194000) in
  let D := _norm_deg
    (297.8501921
     + 445267.1114034 * T
     - 0.0018819 * T * T
     + T * T * T / 545868
     - T * T * T * T / 113065000) in
  let M := _norm_deg
    (357.5291092
     + 35999.0502909 * T
     - 0.0001536 * T * T
     + T * T * T / 24490000) in
  let Mp := _norm_deg
    (134.9633964
     + 477198.8675055 * T
     + 0.0087414 * T * T
     + T * T * T / 69699
     - T * T * T * T / 14712000) in
  let F := _norm_deg
    (93.2720950
     + 483202.0175233 * T
     - 0.0036539 * T * T
     - T * T * T / 3526000
     + T * T * T * T / 863310000) in
  let D_rad := D * DEG2RAD in
  let M_rad := M * DEG2RAD in
  let Mp_rad := Mp * DEG2RAD in
  let F_rad := F * DEG2RAD in
  let sum_L := 0 in
  let sum_L := sum_L + 6288774 * sin Mp_rad in
  let sum_L := sum_L + 1274027 * sin (2 * D_rad - Mp_rad) in
  let sum_L := sum_L + 658314 * sin (2 * D_rad) in
  let sum_L := sum_L + 213618 * sin (2 * Mp_rad) in
  let sum_L := sum_L + -185116 * sin M_rad in
  let sum_L := sum_L + -114332 * sin (2 * F_rad) in
  let sum_L := sum_L + 58793 * sin (2 * D_rad - 2 * Mp_rad) in
  let sum_L := sum_L + 57066 * sin (2 * D_rad - M_rad - Mp_rad) in
  let sum_L := sum_L + 53322 * sin (2 * D_rad + Mp_rad) in
  let sum_L := sum_L + 45758 * sin (2 * D_rad - M_rad) in
  let sum_L := sum_L + -40923 * sin (M_rad - Mp_rad) in
  let sum_L := sum_L + -34720 * sin D_rad in
  let sum_L := sum_L + -30383 * sin (M_rad + Mp_rad) in
  let sum_L := sum_L + 15327 * sin (2 * D_rad - 2 * F_rad) in
  let sum_L := sum_L + -12528 * sin (Mp_rad + 2 * F_rad) in
  let sum_L := sum_L + 10980 * sin (Mp_rad - 2 * F_rad) in
  let sum_L := sum_L + 10675 * sin (4 * D_rad - Mp_rad) in
  let sum_L := sum_L + 10034 * sin (3 * Mp_rad) in
  let sum_L := sum_L + 8548 * sin (4 * D_rad - 2 * Mp_rad) in
  let sum_L := sum_L + -7888 * sin (2 * D_rad + M_rad - Mp_rad) in
  let sum_L := sum_L + -6766 * sin (2 * D_rad + M_rad) in
  let sum_L := sum_L + -5163 * sin (D_rad - Mp_rad) in
  let sum_L := sum_L + 4987 * sin (D_rad + M_rad) in
  let sum_L := sum_L + 4036 * sin (2 * D_rad - M_rad + Mp_rad) in
  let moon_lon := _norm_deg (Lp + sum_L / 1000000) in
  moon_lon.

Definition _is_retrograde (planet_id : string) (jd : Q) : result bool :=
  if String.eqb planet_id "sun" || String.eqb planet_id "moon" then ret false
  else
    do lon_before <- geocentric_longitude planet_id (jd - 1);
    do lon_after <- geocentric_longitude planet_id (jd + 1);
    let diff := lon_after - lon_before in
    let diff := if Py.ltb 180 diff then diff - 360 else diff in
    let diff := if Py.ltb diff (-180) then diff + 360 else diff in
    ret (Py.ltb diff 0).

Definition _obliquity (jd : Q) : Q :=
  let T := julian_centuries jd in
  23.4392911
  - 0.0130042 * T
  - 1.64e-7 * T * T
  + 5.036e-7 * T * T * T.

Definition _local_sidereal_time (jd lon_deg : Q) : Q :=
  let T := julian_centuries jd in
  let gmst := _norm_deg
    (280.46061837
     + 360.98564736629 * (jd - J2000)
     + 0.000387933 * T * T
     - T * T * T / 38710000) in
  _norm_deg (gmst + lon_deg).

Definition compute_ascendant (lst_deg lat_deg obl_deg : Q) : Q :=
  let lst_rad := lst_deg * DEG2RAD in
  let lat_rad := lat_deg * DEG2RAD in
  let obl_rad := obl_deg * DEG2RAD in
  let y := - cos lst_rad in
  let x := sin obl_rad * tan lat_rad + cos obl_rad * sin lst_rad in
  let asc := atan2 y x * RAD2DEG in
  _norm_deg asc.

Definition compute_midheaven (lst_deg obl_deg : Q) : Q :=
  let lst_rad := lst_deg * DEG2RAD in
  let obl_rad := obl_deg * DEG2RAD in
  let mc := atan2 (sin lst_rad) (cos lst_rad * cos obl_rad) * RAD2DEG in
  _norm_deg mc.

(** [range(n)] as integers. *)
Definition range (n : nat) : list Z := map Z.of_nat (seq 0 n).

Definition _equal_house_cusps (asc_deg : Q) : list Q :=
  map (fun i => _norm_deg (asc_deg + inject_Z i * 30)) (range 12).

(** The test of one iteration of the loop of [_house_for_longitude]. *)
Definition cusp_pair_matches (longitude cusp next_cusp : Q) : bool :=
  if Py.ltb cusp next_cusp
  then Py.leb cusp longitude && Py.ltb longitude next_cusp
  else Py.leb cusp longitude || Py.ltb longitude next_cusp.

(** The [for i in range(12)] loop: [Some (i + 1)] is the [return] inside
    the loop, [None] is falling out of it. *)
Fixpoint _house_scan (idx : list Z) (longitude : Q) (cusps : list Q)
  : result (option Z) :=
  match idx with
  | [] => ret None
  | i :: idx' =>
      do cusp <- getitem cusps i;
      do next_cusp <- getitem cusps ((i + 1) mod 12)%Z;
      if cusp_pair_matches longitude cusp next_cusp
      then ret (Some (i + 1)%Z)
      else _house_scan idx' longitude cusps
  end.

Definition _house_for_longitude (longitude : Q) (cusps : list Q) : result Z :=
  do r <- _house_scan (range 12) longitude cusps;
  match r with
  | Some h => ret h
  | None => ret 1%Z  (* fallback *)
  end.

(** One entry of [_SUN_SIGN_DATES]. *)
Record SunSignBoundary : Type := {
  b_sign : string;
  startMonth : Z;
  startDay : Z
}.

Definition _SUN_SIGN_DATES : list SunSignBoundary :=
  [ {| b_sign := "capricorn";   startMonth := 1;  startDay := 1 |};
    {| b_sign := "aquarius";    startMonth := 1;  startDay := 20 |};
    {| b_sign := "pisces";      startMonth := 2;  startDay := 19 |};
    {| b_sign := "aries";       startMonth := 3;  startDay := 21 |};
    {| b_sign := "taurus";      startMonth := 4;  startDay := 20 |};
    {| b_sign := "gemini";      startMonth := 5;  startDay := 21 |};
    {| b_sign := "cancer";      startMonth := 6;  startDay := 21 |};
    {| b_sign := "leo";         startMonth := 7;  startDay := 23 |};
    {| b_sign := "virgo";       startMonth := 8;  startDay := 23 |};
    {| b_sign := "libra";       startMonth := 9;  startDay := 23 |};
    {| b_sign := "scorpio";     startMonth := 10; startDay := 23 |};
    {| b_sign := "sagittarius"; startMonth := 11; startDay := 22 |};
    {| b_sign := "capricorn";   startMonth := 12; startDay := 22 |} ].

(** The loop [for boundary in ...] of [calculate_sun_sign]: [Some] is the
    [return] inside the loop, [None] is falling out of it.  (The
    [assert isinstance] of the source holds for every entry of the
    table, whose months and days are integers.) *)
Fixpoint sun_sign_scan (boundaries : list SunSignBoundary) (month day : Z)
  : option string :=
  match boundaries with
  | [] => None
  | boundary :: rest =>
      let start_month := startMonth boundary in
      let start_day := startDay boundary in
      if (month >? start_month)%Z
         || ((month =? start_month)%Z && (day >=? start_day)%Z)
      then Some (b_sign boundary)
      else sun_sign_scan rest month day
  end.

Definition calculate_sun_sign (month day : Z) : string :=
  match sun_sign_scan (rev _SUN_SIGN_DATES) month day with
  | Some s => s
  | None => "capricorn"
  end.

(** The table returned by [_load_aspect_definitions()]. *)
Variable definitions : list AspectDef.

(** [separation] of a pair, folded to at most 180. *)
Definition separation_of (p1 p2 : PlanetPosition) : Q :=
  let separation := Py.abs (p_totalDegrees p1 - p_totalDegrees p2) in
  if Py.ltb 180 separation then 360 - separation else separation.

(** The innermost loop, [for defn in definitions], for one pair. *)
Definition aspects_of_pair (p1 p2 : PlanetPosition) : list ChartAspect :=
  let separation := separation_of p1 p2 in
  flat_map
    (fun defn =>
       let orb_distance := Py.abs (separation - d_degrees defn) in
       if Py.leb orb_distance (d_orb defn)
       then [ {| planet1 := planet p1;
                 planet2 := planet p2;
                 aspectName := d_name defn;
                 aspectSymbol := d_symbol defn;
                 exactDegrees := d_degrees defn;
                 actualDegrees := separation;
                 orb := Py.round2 orb_distance;
                 nature := d_nature defn |} ]
       else [])
    definitions.

(** The two outer loops: [positions[i]] against every [positions[j]],
    [j > i], in that order. *)
Fixpoint aspects_discovered (positions : list PlanetPosition)
  : list ChartAspect :=
  match positions with
  | [] => []
  | p1 :: rest =>
      flat_map (aspects_of_pair p1) rest ++ aspects_discovered rest
  end.

(** [aspects.sort(key=lambda a: a.orb)]: Python's sort is stable and
    compares keys with [<] only; insertion of each element before the
    first one whose key is not smaller is that sort. *)
Fixpoint insert_by_orb (x : ChartAspect) (l : list ChartAspect)
  : list ChartAspect :=
  match l with
  | [] => [x]
  | y :: l' =>
      if Py.ltb (orb y) (orb x) then y :: insert_by_orb x l' else x :: l
  end.

Definition sort_by_orb (l : list ChartAspect) : list ChartAspect :=
  fold_right insert_by_orb [] l.

Definition calculate_aspects (positions : list PlanetPosition)
  : list ChartAspect :=
  sort_by_orb (aspects_discovered positions).

Definition _build_position (planet_name : string) (longitude : Q)
    (house_cusps : list Q) (retrograde : bool) : result PlanetPosition :=
  do sign_pos <- degrees_to_sign longitude;
  do h <- _house_for_longitude longitude house_cusps;
  ret {| planet := planet_name;
         p_sign := sign sign_pos;
         p_degrees := Py.round2 (degrees sign_pos);
         p_totalDegrees := Py.round2 (totalDegrees sign_pos);
         house := h;
         retrograde := retrograde |}.

Definition calculate_natal_chart (birth_data : BirthData) : result NatalChart :=
  let day := match day birth_data with Some d => d | None => 1%Z end in
  let hour := match hour birth_data with Some h => h | None => 12%Z end in
  let minute := match minute birth_data with Some m => m | None => 0%Z end in
  let latitude := match latitude birth_data with Some x => x | None => 0 end in
  let longitude_geo :=
    match longitude birth_data with Some x => x | None => 0 end in
  let timezone := match timezone birth_data with Some x => x | None => 0 end in
  let ut_hour := inject_Z hour - timezone in
  let ut_minute := minute in
  let jd :=
    to_julian_day (year birth_data) (month birth_data) day ut_hour ut_minute in
  let obl := _obliquity jd in
  let lst := _local_sidereal_time jd longitude_geo in
  let asc_deg := compute_ascendant lst latitude obl in
  let mc_deg := compute_midheaven lst obl in
  let cusps := _equal_house_cusps asc_deg in
  let sun_lon := sun_longitude jd in
  let moon_lon := moon_longitude jd in
  do mercury_lon <- geocentric_longitude "mercury" jd;
  do venus_lon <- geocentric_longitude "venus" jd;
  do mars_lon <- geocentric_longitude "mars" jd;
  do jupiter_lon <- geocentric_longitude "jupiter" jd;
  do saturn_lon <- geocentric_longitude "saturn" jd;
  do uranus_lon <- geocentric_longitude "uranus" jd;
  do neptune_lon <- geocentric_longitude "neptune" jd;
  do pluto_lon <- geocentric_longitude "pluto" jd;
  do sun <- _build_position "sun" sun_lon cusps false;
  do moon <- _build_position "moon" moon_lon cusps false;
  do r <- _is_retrograde "mercury" jd;
  do mercury <- _build_position "mercury" mercury_lon cusps r;
  do r <- _is_retrograde "venus" jd;
  do venus <- _build_position "venus" venus_lon cusps r;
  do r <- _is_retrograde "mars" jd;
  do mars <- _build_position "mars" mars_lon cusps r;
  do r <- _is_retrograde "jupiter" jd;
  do jupiter <- _build_position "jupiter" jupiter_lon cusps r;
  do r <- _is_retrograde "saturn" jd;
  do saturn <- _build_position "saturn" saturn_lon cusps r;
  do r <- _is_retrograde "uranus" jd;
  do uranus <- _build_position "uranus" uranus_lon cusps r;
  do r <- _is_retrograde "neptune" jd;
  do neptune <- _build_position "neptune" neptune_lon cusps r;
  do r <- _is_retrograde "pluto" jd;
  do pluto <- _build_position "pluto" pluto_lon cusps r;
  do ascendant <- degrees_to_sign asc_deg;
  do midheaven <- degrees_to_sign mc_deg;
  let all_positions :=
    [sun; moon; mercury; venus; mars; jupiter; saturn; uranus; neptune; pluto] in
  let aspects := calculate_aspects all_positions in
  ret {| sun := sun;
         moon := moon;
         mercury := mercury;
         venus := venus;
         mars := mars;
         jupiter := jupiter;
         saturn := saturn;
         uranus := uranus;
         neptune := neptune;
         pluto := pluto;
         ascendant := ascendant;
         midheaven := midheaven;
         aspects := aspects;
         houseCusps := cusps |}.

Definition DEFAULT_REVEAL_ORDER : list string :=
  [ "sun"; "moon"; "ascendant"; "mercury"; "venus"; "mars";
    "jupiter"; "saturn"; "uranus"; "neptune"; "pluto" ].

End Astrology.

(** What [getattr(chart, name, None)] can yield on a [NatalChart]: one of
    its dataclass fields.  (Attributes that are not fields of the
    dataclass are not modelled.) *)
Inductive ChartAttr : Type :=
| PlanetAttr (p : PlanetPosition)
| SignAttr (s : SignPosition)
| AspectsAttr (l : list ChartAspect)
| CuspsAttr (l : list Q).

Definition getattr_chart (chart : NatalChart) (name : string)
  : option ChartAttr :=
  if String.eqb name "sun" then Some (PlanetAttr (sun chart))
  else if String.eqb name "moon" then Some (PlanetAttr (moon chart))
  else if String.eqb name "mercury" then Some (PlanetAttr (mercury chart))
  else if String.eqb name "venus" then Some (PlanetAttr (venus chart))
  else if String.eqb name "mars" then Some (PlanetAttr (mars chart))
  else if String.eqb name "jupiter" then Some (PlanetAttr (jupiter chart))
  else if String.eqb name "saturn" then Some (PlanetAttr (saturn chart))
  else if String.eqb name "uranus" then Some (PlanetAttr (uranus chart))
  else if String.eqb name "neptune" then Some (PlanetAttr (neptune chart))
  else if String.eqb name "pluto" then Some (PlanetAttr (pluto chart))
  else if String.eqb name "ascendant" then Some (SignAttr (ascendant chart))
  else if String.eqb name "midheaven" then Some (SignAttr (midheaven chart))
  else if String.eqb name "aspects" then Some (AspectsAttr (aspects chart))
  else if String.eqb name "houseCusps" then Some (CuspsAttr (houseCusps chart))
  else None.

(** The dict [{"planet": ..., "position": ...}] of [get_next_reveal]. *)
Record Reveal : Type := {
  r_planet : string;
  r_position : option ChartAttr
}.

(** The dict of [get_synthesis]: its "planets" entry maps a planet name
    to [{"sign", "degrees", "house"}], its "aspects" entry lists
    [{"planet1", "planet2", "aspectName", "orb"}].  A [gmap] keeps what a
    lookup in the Python dict returns; the order in which the dict
    iterates is not kept. *)
Record PlanetSummary : Type := {
  ps_sign : string;
  ps_degrees : Q;
  ps_house : Z
}.

Record AspectSummary : Type := {
  as_planet1 : string;
  as_planet2 : string;
  as_aspectName : string;
  as_orb : Q
}.

Record Synthesis : Type := {
  sunSign : string;
  moonSign : string;
  s_ascendant : string;
  s_planets : gmap string PlanetSummary;
  s_aspects : list AspectSummary
}.

Module AstrologyEngine.

Section Engine.

Variable ml : MathLib.
Variable definitions : list AspectDef.

Definition start_reading (birth_data : BirthData)
  : result AstrologyReadingState :=
  do chart <- calculate_natal_chart ml definitions birth_data;
  ret {| birthData := birth_data;
         chart := chart;
         revealedPlanets := [];
         revealedHouses := [];
         userFeedback := [] |}.

Definition _get_chart_position (planet_id : string) (chart : NatalChart)
  : option ChartAttr :=
  if String.eqb planet_id "ascendant" then
    Some (PlanetAttr
            {| planet := "ascendant";
               p_sign := sign (ascendant chart);
               p_degrees := degrees (ascendant chart);
               p_totalDegrees := totalDegrees (ascendant chart);
               house := 1;
               retrograde := false |})
  else if String.eqb planet_id "midheaven" then
    Some (PlanetAttr
            {| planet := "midheaven";
               p_sign := sign (midheaven chart);
               p_degrees := degrees (midheaven chart);
               p_totalDegrees := totalDegrees (midheaven chart);
               house := 10;
               retrograde := false |})
  else getattr_chart chart planet_id.

(** The loop [for planet_id in DEFAULT_REVEAL_ORDER] of
    [get_next_reveal]. *)
Fixpoint first_unrevealed (order : list string) (revealed : gset string)
    (chart : NatalChart) : option Reveal :=
  match order with
  | [] => None
  | planet_id :: order' =>
      if bool_decide (planet_id ∉ revealed) then
        let position := _get_chart_position planet_id chart in
        Some {| r_planet := planet_id; r_position := position |}
      else first_unrevealed order' revealed chart
  end.

Definition get_next_reveal (state : AstrologyReadingState) : option Reveal :=
  let revealed : gset string := list_to_set (revealedPlanets state) in
  first_unrevealed DEFAULT_REVEAL_ORDER revealed (chart state).

Definition record_feedback (state : AstrologyReadingState)
    (planet_id : string) (feedback : FeedbackEntry) : AstrologyReadingState :=
  {| birthData := birthData state;
     chart := chart state;
     revealedPlanets := revealedPlanets state ++ [planet_id];
     revealedHouses := revealedHouses state;
     userFeedback := userFeedback state ++ [feedback] |}.

(** A dict comprehension stores its items in order, a later item
    replacing an earlier one of the same key. *)
Definition get_synthesis (state : AstrologyReadingState) : Synthesis :=
  let chart := chart state in
  {| sunSign := p_sign (sun chart);
     moonSign := p_sign (moon chart);
     s_ascendant := sign (ascendant chart);
     s_planets :=
       fold_left
         (fun d p =>
            <[ planet p := {| ps_sign := p_sign p;
                              ps_degrees := p_degrees p;
                              ps_house := house p |} ]> d)
         [ sun chart; moon chart; mercury chart; venus chart; mars chart;
           jupiter chart; saturn chart; uranus chart; neptune chart;
           pluto chart ]
         ∅;
     s_aspects :=
       map (fun a => {| as_planet1 := planet1 a;
                        as_planet2 := planet2 a;
                        as_aspectName := aspectName a;
                        as_orb := orb a |})
           (aspects chart) |}.

Definition get_sun_sign (month day : Z) : string :=
  calculate_sun_sign month day.

Definition is_complete (state : AstrologyReadingState) : bool :=
  (length DEFAULT_REVEAL_ORDER <=? length (revealedPlanets state))%nat.

Definition compute_chart (birth_data : BirthData) : result NatalChart :=
  calculate_natal_chart ml definitions birth_data.

End Engine.

End AstrologyEngine.

(** ** Definitions used to state the properties *)

(** The Julian Day [calculate_natal_chart] computes from the birth data,
    defaults applied. *)
Definition birth_julian_day (birth_data : BirthData) : Q :=
  let day := match day birth_data with Some d => d | None => 1%Z end in
  let hour := match hour birth_data with Some h => h | None => 12%Z end in
  let minute := match minute birth_data with Some m => m | None => 0%Z end in
  let timezone := match timezone birth_data with Some x => x | None => 0 end in
  to_julian_day (year birth_data) (month birth_data) day
    (inject_Z hour - timezone) minute.

(** The ascendant longitude [calculate_natal_chart] computes. *)
Definition birth_ascendant (ml : MathLib) (birth_data : BirthData) : Q :=
  let jd := birth_julian_day birth_data in
  let latitude := match latitude birth_data with Some x => x | None => 0 end in
  let longitude_geo :=
    match longitude birth_data with Some x => x | None => 0 end in
  compute_ascendant ml (_local_sidereal_time jd longitude_geo) latitude
    (_obliquity jd).

(** Dates within a thousand Julian centuries of J2000.0 (a day of margin
    for the retrograde test): every eccentricity of the table stays
    inside (-1, 1) there. *)
Definition date_in_range (jd : Q) : Prop :=
  -36500000 <= jd - J2000 /\ jd - J2000 <= 36500000.

(** The eccentricity of an orbit at [T] lies strictly between -1 and 1. *)
Definition ecc_ok (el : OrbitalElements) (T : Q) : Prop :=
  -1 < e0 el + e1 el * T /\ e0 el + e1 el * T < 1.

(** The planets the chart asks for, and the one it observes from. *)
Definition chart_bodies : list string :=
  ["earth"; "mercury"; "venus"; "mars"; "jupiter"; "saturn"; "uranus";
   "neptune"; "pluto"].

(** A [math] module whose cosine stays in [[-1, 1]]. *)
Definition cos_bounded (ml : MathLib) : Prop :=
  forall x, -1 <= m_cos ml x /\ m_cos ml x <= 1.

(** The birth data with every optional field absent, and with the
    documented defaults supplied. *)
Definition birth_absent (y m : Z) : BirthData :=
  {| year := y; month := m; day := None; hour := None; minute := None;
     latitude := None; longitude := None; timezone := None |}.

Definition birth_defaults (y m : Z) : BirthData :=
  {| year := y; month := m; day := Some 1%Z; hour := Some 12%Z;
     minute := Some 0%Z; latitude := Some 0; longitude := Some 0;
     timezone := Some 0 |}.

(** The birth data of the repository's tests: 25 March 1990, noon, New
    York. *)
Definition sample_birth : BirthData :=
  {| year := 1990; month := 3; day := Some 25%Z; hour := Some 12%Z;
     minute := Some 0%Z; latitude := Some 40.7128;
     longitude := Some (-74.0060); timezone := Some (-5) |}.

(** 20 March 2000, 07:28 UT, seven minutes before the equinox. *)
Definition birth_equinox_2000 : BirthData :=
  {| year := 2000; month := 3; day := Some 20%Z; hour := Some 7%Z;
     minute := Some 28%Z; latitude := None; longitude := None;
     timezone := None |}.

(** The Julian Day in January 1955 at which Earth's mean anomaly is a
    whole number of turns: [L - w = 360 k] with [k = -45]. *)
Definition jd_perihelion_1955 : Q :=
  2451545 - 36525 * (1619752688973 # 3599904917617).

(** The ten planet positions of a chart, in the order of
    [all_positions]. *)
Definition planets_of (c : NatalChart) : list PlanetPosition :=
  [sun c; moon c; mercury c; venus c; mars c; jupiter c; saturn c;
   uranus c; neptune c; pluto c].

(** Where the longitude of each of the ten planets comes from, in the
    order of [planets_of]. *)
Definition planet_sources (ml : MathLib) (jd : Q) : list (string * result Q) :=
  [ ("sun", ret (sun_longitude ml jd));
    ("moon", ret (moon_longitude ml jd));
    ("mercury", geocentric_longitude ml "mercury" jd);
    ("venus", geocentric_longitude ml "venus" jd);
    ("mars", geocentric_longitude ml "mars" jd);
    ("jupiter", geocentric_longitude ml "jupiter" jd);
    ("saturn", geocentric_longitude ml "saturn" jd);
    ("uranus", geocentric_longitude ml "uranus" jd);
    ("neptune", geocentric_longitude ml "neptune" jd);
    ("pluto", geocentric_longitude ml "pluto" jd) ].

(** A position built by [_build_position] for a source of
    [planet_sources]. *)
Definition built_from (cusps : list Q) (src : string * result Q)
    (p : PlanetPosition) : Prop :=
  exists lon r,
    snd src = ret lon /\ _build_position (fst src) lon cusps r = ret p.

(** The SignPosition invariant read on the stored fields of a planet
    position. *)
Definition sign_invariant (p : PlanetPosition) : Prop :=
  0 <= p_totalDegrees p /\ p_totalDegrees p < 360 /\
  0 <= p_degrees p /\ p_degrees p < 30 /\
  getitem SIGN_ORDER (Qfloor (p_totalDegrees p / 30)) = ret (p_sign p) /\
  p_degrees p ==
    p_totalDegrees p - 30 * inject_Z (Qfloor (p_totalDegrees p / 30)) /\
  (1 <= house p <= 12)%Z.

(** [cusps[i]], read without the bounds check. *)
Definition cusp_at (cusps : list Q) (i : Z) : Q := nth (Z.to_nat i) cusps 0.

(** Whether the pair starting at cusp [i] matches a longitude. *)
Definition pair_matches_at (longitude : Q) (cusps : list Q) (i : Z) : bool :=
  cusp_pair_matches longitude (cusp_at cusps i)
    (cusp_at cusps ((i + 1) mod 12)%Z).

(** [y] if it is below 360, else [y - 360]. *)
Definition wrap360 (y : Q) : Q := if Py.ltb y 360 then y else y - 360.

(** The angular distance from the first cusp to a longitude, counted
    forward. *)
Definition from_cusp (c0 longitude : Q) : Q :=
  if Py.leb c0 longitude then longitude - c0 else longitude - c0 + 360.

(** How many whole houses of 30 degrees lie between the first cusp and
    a longitude. *)
Definition house_index (c0 longitude : Q) : Z :=
  Qfloor (from_cusp c0 longitude / 30).

(** *** The orbital pipeline as the specification words it

    Steps 1 to 3 of the per-planet pipeline, the radius
    [R = a (1 - e cos E)], and the in-plane longitude given by
    [lon_of v w W]. *)

Record Heliocentric : Type := { h_lon : Q; h_R : Q }.

Section Pipeline.

Variable ml : MathLib.
Variable lon_of : Q -> Q -> Q -> Q.

Definition orbit_position (el : OrbitalElements) (T : Q)
  : result Heliocentric :=
  let L := _norm_deg (L0 el + L1 el * T) in
  let e := e0 el + e1 el * T in
  let w := _norm_deg (w0 el + w1 el * T) in
  let W := _norm_deg (W0 el + W1 el * T) in
  let M := _norm_deg (L - w) * DEG2RAD ml in
  do E <- solve_kepler ml M e;
  do r <- math_sqrt ml (1 - e * e);
  let v := m_atan2 ml (r * m_sin ml E) (m_cos ml E - e) * RAD2DEG ml in
  ret {| h_lon := lon_of v w W; h_R := a el * (1 - e * m_cos ml E) |}.

Definition cartesian_x (h : Heliocentric) : Q :=
  h_R h * m_cos ml (h_lon h * DEG2RAD ml).
Definition cartesian_y (h : Heliocentric) : Q :=
  h_R h * m_sin ml (h_lon h * DEG2RAD ml).

Definition geocentric_from (planet_id : string) (jd : Q) : result Q :=
  let T := julian_centuries jd in
  do earth_el <- elements_of "earth";
  do earth <- orbit_position earth_el T;
  do p_el <- elements_of planet_id;
  do p <- orbit_position p_el T;
  ret (_norm_deg
         (m_atan2 ml (cartesian_y p - cartesian_y earth)
                     (cartesian_x p - cartesian_x earth)
          * RAD2DEG ml)).

End Pipeline.

(** Step 4 as the specification states it, [norm(v + w - W)]. *)
Definition in_plane_longitude (v w W : Q) : Q := _norm_deg (v + w - W).

(** The longitude the planar projection uses, [norm(v + w)]. *)
Definition true_longitude (v w W : Q) : Q := _norm_deg (v + w).

Definition geocentric_longitude_spec (ml : MathLib) :=
  geocentric_from ml in_plane_longitude.

Definition geocentric_longitude_planar (ml : MathLib) :=
  geocentric_from ml true_longitude.

(** A returned longitude lies strictly between two bounds. *)
Definition in_window (r : result Q) (lo hi : Q) : bool :=
  match r with
  | inr x => Py.ltb lo x && Py.ltb x hi
  | inl _ => false
  end.

(** Equality of results up to the equality of rationals. *)
Definition result_Qeq (r1 r2 : result Q) : Prop :=
  match r1, r2 with
  | inr x, inr y => x == y
  | inl e1, inl e2 => e1 = e2
  | _, _ => False
  end.

(** *** Aspects, enumerated as the specification words them

    Every unordered pair of positions (by index, [i < j]) with every
    definition (by index [k]), in the order pair first, definition
    second. *)

Definition combinations (n m : nat) : list (nat * nat * nat) :=
  flat_map
    (fun i =>
       flat_map
         (fun j => map (fun k => (i, j, k)) (seq 0 m))
         (seq (Datatypes.S i) (n - Datatypes.S i)))
    (seq 0 n).

Section AspectSpec.

Variable definitions : list AspectDef.
Variable positions : list PlanetPosition.

Definition nobody : PlanetPosition :=
  {| planet := ""; p_sign := ""; p_degrees := 0; p_totalDegrees := 0;
     house := 0; retrograde := false |}.

Definition nothing : AspectDef :=
  {| d_name := ""; d_symbol := ""; d_degrees := 0; d_orb := 0;
     d_nature := "" |}.

Definition separation_at (i j : nat) : Q :=
  let s := Qabs (p_totalDegrees (nth i positions nobody)
                 - p_totalDegrees (nth j positions nobody)) in
  if Py.ltb 180 s then 360 - s else s.

Definition orb_distance_at (c : nat * nat * nat) : Q :=
  let '(i, j, k) := c in
  Qabs (separation_at i j - d_degrees (nth k definitions nothing)).

Definition within_orb (c : nat * nat * nat) : bool :=
  let '(i, j, k) := c in
  Py.leb (orb_distance_at c) (d_orb (nth k definitions nothing)).

Definition aspect_at (c : nat * nat * nat) : ChartAspect :=
  let '(i, j, k) := c in
  let d := nth k definitions nothing in
  {| planet1 := planet (nth i positions nobody);
     planet2 := planet (nth j positions nobody);
     aspectName := d_name d;
     aspectSymbol := d_symbol d;
     exactDegrees := d_degrees d;
     actualDegrees := separation_at i j;
     orb := Py.round2 (orb_distance_at c);
     nature := d_nature d |}.

Definition matching_combinations : list (nat * nat * nat) :=
  List.filter within_orb
    (combinations (length positions) (length definitions)).

End AspectSpec.

(** The order of the sorted aspect list. *)
Definition orb_le (x y : ChartAspect) : Prop := orb x <= orb y.

(** The aspects of one orb value, in the order of the list. *)
Definition with_orb (q : Q) (l : list ChartAspect) : list ChartAspect :=
  List.filter (fun x => Py.eqb (orb x) q) l.

(** *** The reveal cycle *)

Section Cycle.

Variable feedback_for : string -> FeedbackEntry.

(** One turn of the cycle: [get_next_reveal], then [record_feedback] for
    the planet it returned. *)
Definition reveal_step (state : AstrologyReadingState)
  : option AstrologyReadingState :=
  match AstrologyEngine.get_next_reveal state with
  | None => None
  | Some r =>
      Some (AstrologyEngine.record_feedback state (r_planet r)
              (feedback_for (r_planet r)))
  end.

(** [n] turns in a row. *)
Fixpoint reveal_steps (n : nat) (state : AstrologyReadingState)
  : option AstrologyReadingState :=
  match n with
  | O => Some state
  | Datatypes.S n' =>
      match reveal_step state with
      | None => None
      | Some state' => reveal_steps n' state'
      end
  end.

(** The loop a caller runs until [get_next_reveal] returns none; the
    result is the number of turns taken and the last state, or [None]
    when the fuel runs out first. *)
Fixpoint reveal_cycle (fuel count : nat) (state : AstrologyReadingState)
  : option (nat * AstrologyReadingState) :=
  match fuel with
  | O => None
  | Datatypes.S fuel' =>
      match reveal_step state with
      | None => Some (count, state)
      | Some state' => reveal_cycle fuel' (Datatypes.S count) state'
      end
  end.

End Cycle.

(** A sequence of [record_feedback] calls. *)
Definition feed (state : AstrologyReadingState)
    (calls : list (string * FeedbackEntry)) : AstrologyReadingState :=
  fold_left
    (fun s c => AstrologyEngine.record_feedback s (fst c) (snd c))
    calls state.

Definition no_feedback : FeedbackEntry :=
  {| element := ""; userText := ""; timestamp := 0 |}.

(** *** The Gregorian calendar, to state what [to_julian_day] counts *)

Definition is_leap_year (y : Z) : bool :=
  (y mod 4 =? 0)%Z && (negb (y mod 100 =? 0)%Z || (y mod 400 =? 0)%Z).

Definition days_in_month (y m : Z) : Z :=
  if (m =? 2)%Z then (if is_leap_year y then 29%Z else 28%Z)
  else if (m =? 4)%Z || (m =? 6)%Z || (m =? 9)%Z || (m =? 11)%Z then 30%Z
  else 31%Z.

(** The day after [(y, m, d)]. *)
Definition next_day (y m d : Z) : Z * Z * Z :=
  if (d <? days_in_month y m)%Z then (y, m, (d + 1)%Z)
  else if (m <? 12)%Z then (y, (m + 1)%Z, 1%Z)
  else ((y + 1)%Z, 1%Z, 1%Z).

(** The whole-day part of [to_julian_day]: the two [int(...)] terms, the
    day and the century correction [B]. *)
Definition julian_day_number (year month day : Z) : Z :=
  let '(y, m) :=
    if (month <=? 2)%Z then ((year - 1)%Z, (month + 12)%Z)
    else (year, month) in
  (Py.int (365.25 * inject_Z (y + 4716))
   + Py.int (30.6001 * inject_Z (m + 1))
   + day + (2 - y / 100 + y / 100 / 4))%Z.

(** The midheaven longitude [calculate_natal_chart] computes. *)
Definition birth_midheaven (ml : MathLib) (birth_data : BirthData) : Q :=
  let jd := birth_julian_day birth_data in
  let longitude_geo :=
    match longitude birth_data with Some x => x | None => 0 end in
  compute_midheaven ml (_local_sidereal_time jd longitude_geo) (_obliquity jd).

(** The entry of the "planets" dict of [get_synthesis] for a position. *)
Definition summary_of (p : PlanetPosition) : PlanetSummary :=
  {| ps_sign := p_sign p; ps_degrees := p_degrees p; ps_house := house p |}.

(** The ten names of [planets_of]. *)
Definition planet_names : list string :=
  ["sun"; "moon"; "mercury"; "venus"; "mars"; "jupiter"; "saturn";
   "uranus"; "neptune"; "pluto"].

(** Birth data no calendar or globe has: month 13, day 40, hour 99,
    minute -5, latitude 1000, longitude -1000, timezone 100. *)
Definition birth_unchecked : BirthData :=
  {| year := 2000; month := 13; day := Some 40%Z; hour := Some 99%Z;
     minute := Some (-5)%Z; latitude := Some 1000;
     longitude := Some (-1000); timezone := Some 100 |}.

(** Birth data whose integer fields and timezone are at most a million
    in magnitude, whatever calendar sense they make: no conversion of
    an integer to a float overflows in [to_julian_day], and binary64
    has no large terms to cancel. *)
Definition fields_bounded (birth_data : BirthData) : Prop :=
  let bounded (z : Z) := (-1000000 <= z <= 1000000)%Z in
  bounded (year birth_data) /\ bounded (month birth_data) /\
  bounded (match day birth_data with Some d => d | None => 1%Z end) /\
  bounded (match hour birth_data with Some h => h | None => 12%Z end) /\
  bounded (match minute birth_data with Some m => m | None => 0%Z end) /\
  -1000000 <= match timezone birth_data with Some x => x | None => 0 end /\
  match timezone birth_data with Some x => x | None => 0 end <= 1000000.

(** *** Newton's iteration for Kepler's equation, to state what
    [solve_kepler] returns *)

(** The step [dE] computed from an iterate [E], and the next iterate. *)
Definition newton_delta (ml : MathLib) (M e E : Q) : Q :=
  (E - e * m_sin ml E - M) / (1 - e * m_cos ml E).

Definition newton_step (ml : MathLib) (M e E : Q) : Q :=
  E - newton_delta ml M e E.

(** The [n]-th iterate from the first guess [E0]. *)
Definition newton_iterate (ml : MathLib) (M e : Q) (n : nat) (E0 : Q) : Q :=
  Nat.iter n (newton_step ml M e) E0.

(** Whether the step taken from an iterate is below the tolerance. *)
Definition small_step (ml : MathLib) (M e E : Q) : bool :=
  Py.ltb (Py.abs (newton_delta ml M e E)) 1e-12.

(** The identifiers of the reveal order that a state has not revealed
    yet, in that order. *)
Definition missing (state : AstrologyReadingState) : list string :=
  List.filter
    (fun id =>
       bool_decide (id ∉ (list_to_set (revealedPlanets state) : gset string)))
    DEFAULT_REVEAL_ORDER.

(** *** Floats with NaN, for the comparisons of [_house_for_longitude]

    A Python float that is a number or NaN; every comparison with NaN
    is false. *)
Inductive pyfloat : Type :=
| Num (q : Q)
| NaN.

Definition is_nan (x : pyfloat) : bool :=
  match x with NaN => true | Num _ => false end.

Definition number_of (x : pyfloat) : Q :=
  match x with Num q => q | NaN => 0 end.

Definition float_le (x y : pyfloat) : bool :=
  match x, y with
  | Num a, Num b => Py.leb a b
  | _, _ => false
  end.

Definition float_lt (x y : pyfloat) : bool :=
  match x, y with
  | Num a, Num b => Py.ltb a b
  | _, _ => false
  end.

(** The test of one iteration of the loop, [next_cusp > cusp] first. *)
Definition cusp_pair_matches_nan (longitude cusp next_cusp : pyfloat) : bool :=
  if float_lt cusp next_cusp
  then float_le cusp longitude && float_lt longitude next_cusp
  else float_le cusp longitude || float_lt longitude next_cusp.

Fixpoint _house_scan_nan (idx : list Z) (longitude : pyfloat)
    (cusps : list pyfloat) : result (option Z) :=
  match idx with
  | [] => ret None
  | i :: idx' =>
      do cusp <- getitem cusps i;
      do next_cusp <- getitem cusps ((i + 1) mod 12)%Z;
      if cusp_pair_matches_nan longitude cusp next_cusp
      then ret (Some (i + 1)%Z)
      else _house_scan_nan idx' longitude cusps
  end.

Definition _house_for_longitude_nan (longitude : pyfloat)
    (cusps : list pyfloat) : result Z :=
  do r <- _house_scan_nan (range 12) longitude cusps;
  match r with
  | Some h => ret h
  | None => ret 1%Z  (* fallback *)
  end.

(** ** A reference instance of the [math] module

    Fixed-point evaluation with twenty-four decimals of the functions of
    [MathLib] (Taylor series after range reduction), used to run the
    embedding on concrete inputs.  [m_pi] is the binary64 value of
    [math.pi]. *)

Module RefMath.

Local Open Scope Z_scope.

Definition S : Z := 1000000000000000000000000.
Definition to_fx (x : Q) : Z := (Qnum x * S) / Zpos (Qden x).
Definition of_fx (z : Z) : Q := Qmake z (Z.to_pos S).
Definition mulfx (a b : Z) : Z := (a * b) / S.
Definition divfx (a b : Z) : Z := (a * S) / b.
Definition PI_fx : Z := 3141592653589793238462643.
Definition sqrt_fx (z : Z) : Z := Z.sqrt (z * S).

(** Alternating series [sum term_k] with
    [term_(k+2) = - term_k * x^2 / ((k+1)(k+2))]. *)
Fixpoint alt_series (n : nat) (k : Z) (term x2 acc : Z) : Z :=
  match n with
  | O => acc
  | Datatypes.S n' =>
      let term' := - (mulfx term x2) / ((k + 1) * (k + 2)) in
      alt_series n' (k + 2) term' x2 (acc + term')
  end.

(** Reduction to [[-pi, pi)], then to [[-pi/2, pi/2]] by
    [sin (pi - r) = sin r]. *)
Definition reduce (x : Z) : Z :=
  let r := x - ((x + PI_fx) / (2 * PI_fx)) * (2 * PI_fx) in
  if 2 * r >? PI_fx then PI_fx - r
  else if 2 * r <? - PI_fx then - PI_fx - r
  else r.

(** Sine and cosine never leave [[-1, 1]]. *)
Definition clamp (z : Z) : Z := Z.max (- S) (Z.min S z).

Definition sin_fx (x : Z) : Z :=
  let r := reduce x in clamp (alt_series 15 1 r (mulfx r r) r).
Definition cos_fx (x : Z) : Z := sin_fx (x + PI_fx / 2).
Definition tan_fx (x : Z) : Z := divfx (sin_fx x) (cos_fx x).

Fixpoint atan_series (n : nat) (k : Z) (pow x2 acc : Z) : Z :=
  match n with
  | O => acc
  | Datatypes.S n' =>
      let pow' := - (mulfx pow x2) in
      atan_series n' (k + 2) pow' x2 (acc + pow' / (k + 2))
  end.

(** [atan t = 2 atan (t / (1 + sqrt (1 + t^2)))]. *)
Definition halve (t : Z) : Z := divfx t (S + sqrt_fx (S + mulfx t t)).

(** Arc tangent on [[0, 1]]. *)
Definition atan_unit (t : Z) : Z :=
  let u := halve (halve (halve t)) in
  8 * atan_series 13 1 u (mulfx u u) u.

Definition atan2_fx (y x : Z) : Z :=
  let ay := Z.abs y in
  let ax := Z.abs x in
  if (ay =? 0) && (ax =? 0) then 0
  else
    let a := if ay <=? ax then atan_unit (divfx ay ax)
             else PI_fx / 2 - atan_unit (divfx ax ay) in
    let a := if x <? 0 then PI_fx - a else a in
    if y <? 0 then - a else a.

Definition lib : MathLib :=
  {| m_pi := 884279719003555 # 281474976710656;
     m_sin := fun x => of_fx (sin_fx (to_fx x));
     m_cos := fun x => of_fx (cos_fx (to_fx x));
     m_tan := fun x => of_fx (tan_fx (to_fx x));
     m_atan2 := fun y x => of_fx (atan2_fx (to_fx y) (to_fx x));
     m_sqrt := fun x => of_fx (sqrt_fx (to_fx x)) |}.

End RefMath.

(** *** Running the Newton iteration on the reference instance

    On exact rationals [solve_kepler_loop] multiplies the denominators
    at every step, so that fifty iterations cannot be run as they are.
    [kepler_run] is the same loop on [RefMath.lib] with every fraction
    kept small: the fixed-point argument [to_fx E] of the sine and the
    cosine is found from the leading bits of [E] and checked by two
    multiplications, and the next iterate [E - (E - X) / D] is computed
    as [E * (1 - 1 / D) + X / D] from reduced [X = e sin E + M] and
    [D = 1 - e cos E].  It returns the same number as the loop. *)

(** Whether [z] is [RefMath.to_fx E], the integer part of [E * 10^24]. *)
Definition fx_check (E : Q) (z : Z) : bool :=
  ((z * Zpos (Qden E) <=? Qnum E * RefMath.S)
   && (Qnum E * RefMath.S <? (z + 1) * Zpos (Qden E)))%Z.

(** That integer part, from the 160 leading bits of the denominator. *)
Definition fx_guess (E : Q) : Z :=
  let k := (Z.log2 (Zpos (Qden E)) - 160)%Z in
  ((Z.shiftr (Qnum E) k * RefMath.S) / Z.shiftr (Zpos (Qden E)) k)%Z.

Definition fx_fast (E : Q) : option Z :=
  let z := fx_guess E in
  if fx_check E z then Some z
  else if fx_check E (z - 1) then Some (z - 1)%Z
  else if fx_check E (z + 1) then Some (z + 1)%Z
  else None.

Fixpoint kepler_run (n : nat) (M e E : Q) : option Q :=
  match n with
  | O => Some E
  | S n' =>
      match fx_fast E with
      | None => None
      | Some z =>
          let X := Qred (e * RefMath.of_fx (RefMath.sin_fx z) + M) in
          let D := Qred (1 - e * RefMath.of_fx (RefMath.cos_fx z)) in
          if Py.eqb D 0 then None
          else
            let dE := (E - X) / D in
            let E' := E * Qred (1 - / D) + Qred (X / D) in
            if Py.ltb (Py.abs dE) 1e-12 then Some E'
            else kepler_run n' M e E'
      end
  end.

(** The residual [E - e sin E - M] of Kepler's equation at the value
    returned after at most fifty iterations. *)
Definition kepler_run_residual (M e : Q) : option Q :=
  match kepler_run 50 M e M with
  | Some F =>
      match fx_fast F with
      | Some z => Some (F - e * RefMath.of_fx (RefMath.sin_fx z) - M)
      | None => None
      end
  | None => None
  end.

(** Whether that value solves the equation to 1e-9, and whether it
    misses it by 1 or more. *)
Definition kepler_run_solves (M e : Q) : bool :=
  match kepler_run_residual M e with
  | Some r => Py.ltb (Py.abs r) 1e-9
  | None => false
  end.


(** An aspect table in the format of aspects.json (the five major
    aspects), used to run [calculate_aspects] on concrete inputs. *)
Definition sample_definitions : list AspectDef :=
  [ {| d_name := "conjunction"; d_symbol := "☌"; d_degrees := 0;
       d_orb := 8; d_nature := "neutral" |};
    {| d_name := "sextile"; d_symbol := "⚹"; d_degrees := 60;
       d_orb := 6; d_nature := "harmonious" |};
    {| d_name := "square"; d_symbol := "□"; d_degrees := 90;
       d_orb := 8; d_nature := "challenging" |};
    {| d_name := "trine"; d_symbol := "△"; d_degrees := 120;
       d_orb := 8; d_nature := "harmonious" |};
    {| d_name := "opposition"; d_symbol := "☍"; d_degrees := 180;
       d_orb := 8; d_nature := "challenging" |} ].

(** * Properties *)

(** ** Comparisons and rounding *)

Lemma leb_true (x y : Q) : Py.leb x y = true <-> x <= y.
Proof. unfold Py.leb. apply Qle_bool_iff. Qed.

Lemma leb_false (x y : Q) : Py.leb x y = false <-> y < x.
Proof.
  unfold Py.leb. split; intros H.
  - apply Qnot_le_lt. intros H'. apply Qle_bool_iff in H'. congruence.
  - destruct (Qle_bool x y) eqn:E; [|reflexivity].
    apply Qle_bool_iff in E. lra.
Qed.

Lemma ltb_true (x y : Q) : Py.ltb x y = true <-> x < y.
Proof.
  unfold Py.ltb. rewrite negb_true_iff. apply (leb_false y x).
Qed.

Lemma ltb_false (x y : Q) : Py.ltb x y = false <-> y <= x.
Proof.
  unfold Py.ltb. rewrite negb_false_iff. apply (leb_true y x).
Qed.

Lemma eqb_true (x y : Q) : Py.eqb x y = true <-> x == y.
Proof. unfold Py.eqb. apply Qeq_bool_iff. Qed.

Lemma eqb_false (x y : Q) : Py.eqb x y = false <-> ~ x == y.
Proof.
  unfold Py.eqb. split; intros H.
  - intros H'. apply Qeq_bool_iff in H'. congruence.
  - destruct (Qeq_bool x y) eqn:E; [|reflexivity].
    apply Qeq_bool_iff in E. contradiction.
Qed.

(** Case analysis on every comparison of the goal, each turned into the
    order fact it decides. *)
Ltac cmp_cases :=
  repeat match goal with
  | |- context [Py.ltb ?x ?y] =>
      let E := fresh "E" in
      destruct (Py.ltb x y) eqn:E;
      [apply ltb_true in E | apply ltb_false in E]
  | |- context [Py.leb ?x ?y] =>
      let E := fresh "E" in
      destruct (Py.leb x y) eqn:E;
      [apply leb_true in E | apply leb_false in E]
  end.

Lemma floor_spec (x : Q) :
  inject_Z (Qfloor x) <= x /\ x < inject_Z (Qfloor x) + 1.
Proof.
  split; [apply Qfloor_le|].
  pose proof (Qlt_floor x) as H. rewrite inject_Z_plus in H. exact H.
Qed.

Lemma floor_unique (x : Q) (n : Z) :
  inject_Z n <= x -> x < inject_Z n + 1 -> Qfloor x = n.
Proof.
  intros H1 H2. destruct (floor_spec x) as [F1 F2].
  assert (A : (n < Qfloor x + 1)%Z).
  { rewrite Zlt_Qlt, inject_Z_plus. change (inject_Z 1) with 1. lra. }
  assert (B : (Qfloor x < n + 1)%Z).
  { rewrite Zlt_Qlt, inject_Z_plus. change (inject_Z 1) with 1. lra. }
  lia.
Qed.

(** [x % 360] lies in [[0, 360)] and differs from [x] by a multiple of
    360. *)
Lemma mod360_spec (x : Q) :
  0 <= Py.mod_ x 360 /\ Py.mod_ x 360 < 360 /\
  Py.mod_ x 360 == x - 360 * inject_Z (Qfloor (x / 360)).
Proof.
  unfold Py.mod_, Py.floordiv.
  destruct (floor_spec (x / 360)) as [F1 F2].
  change (x / 360) with (x * (1 # 360)) in *.
  repeat split; lra.
Qed.

Lemma mod360_id (x : Q) : 0 <= x -> x < 360 -> Py.mod_ x 360 == x.
Proof.
  intros H0 H1. unfold Py.mod_, Py.floordiv.
  assert (F : Qfloor (x / 360) = 0%Z).
  { apply floor_unique; change (x / 360) with (x * (1 # 360));
      change (inject_Z 0) with 0; lra. }
  rewrite F. change (inject_Z 0) with 0. lra.
Qed.

Lemma norm_deg_range (x : Q) : 0 <= _norm_deg x /\ _norm_deg x < 360.
Proof.
  unfold _norm_deg. destruct (Py.leb 0 x).
  - destruct (mod360_spec x) as (A & B & _). split; assumption.
  - destruct (mod360_spec (Py.mod_ x 360 + 360)) as (A & B & _).
    split; assumption.
Qed.

(** [_norm_deg x] is [x] moved by a whole number of turns. *)
Lemma norm_deg_turns (x : Q) :
  exists n : Z, _norm_deg x == x - 360 * inject_Z n.
Proof.
  unfold _norm_deg. destruct (Py.leb 0 x).
  - exists (Qfloor (x / 360)). apply mod360_spec.
  - destruct (mod360_spec x) as (_ & _ & A).
    destruct (mod360_spec (Py.mod_ x 360 + 360)) as (_ & _ & B).
    exists (Qfloor (x / 360) + Qfloor ((Py.mod_ x 360 + 360) / 360) + -1)%Z.
    rewrite !inject_Z_plus. change (inject_Z (-1)) with (-1). lra.
Qed.

Lemma norm_deg_id (x : Q) : 0 <= x -> x < 360 -> _norm_deg x == x.
Proof.
  intros H0 H1. unfold _norm_deg.
  destruct (Py.leb 0 x) eqn:E.
  - apply mod360_id; assumption.
  - apply leb_false in E. lra.
Qed.

(** An integer strictly between -1 and 2 is 0 or 1. *)
Lemma turns_01 (d : Z) :
  -1 < inject_Z d -> inject_Z d < 2 -> d = 0%Z \/ d = 1%Z.
Proof.
  intros A B.
  assert (A' : (-1 < d)%Z) by (rewrite Zlt_Qlt; exact A).
  assert (B' : (d < 2)%Z) by (rewrite Zlt_Qlt; exact B).
  lia.
Qed.

(** [lra] with the normalised angles taken as unknowns. *)
Ltac hide_norm :=
  repeat match goal with
  | |- context [_norm_deg ?x] =>
      generalize dependent (_norm_deg x); intros
  | H : context [_norm_deg ?x] |- _ =>
      generalize dependent (_norm_deg x); intros
  end.
Ltac nlra := hide_norm; lra.

(** The cusp [norm(x + 30 k)] is the first cusp [norm x] advanced by
    [30 k], wrapped once at 360. *)
Lemma norm_deg_advance (x k : Q) :
  0 <= k -> k <= 12 ->
  _norm_deg (x + k * 30) == wrap360 (_norm_deg x + k * 30).
Proof.
  intros K0 K1.
  destruct (norm_deg_turns x) as [n Hn].
  destruct (norm_deg_turns (x + k * 30)) as [n' Hn'].
  destruct (norm_deg_range x) as [A0 A1].
  destruct (norm_deg_range (x + k * 30)) as [B0 B1].
  assert (D : inject_Z (n' - n) * 360
              == _norm_deg x + k * 30 - _norm_deg (x + k * 30)).
  { unfold Zminus. rewrite inject_Z_plus, inject_Z_opp. nlra. }
  destruct (turns_01 (n' - n)) as [Z0 | Z1]; try nlra.
  - rewrite Z0 in D. change (inject_Z 0) with 0 in D. unfold wrap360.
    cmp_cases; nlra.
  - rewrite Z1 in D. change (inject_Z 1) with 1 in D. unfold wrap360.
    cmp_cases; nlra.
Qed.

(** ** House cusps and the house of a longitude *)

Lemma from_cusp_range (c0 lon : Q) :
  0 <= c0 -> c0 < 360 -> 0 <= lon -> lon < 360 ->
  0 <= from_cusp c0 lon /\ from_cusp c0 lon < 360.
Proof. intros. unfold from_cusp. cmp_cases; lra. Qed.

(** The pair [(cusp_i, cusp_(i+1))] matches a longitude exactly when the
    longitude lies between [30 i] and [30 (i + 1)] degrees after the
    first cusp. *)
Lemma pair_matches_iff (c0 lon i cusp next : Q) :
  0 <= c0 -> c0 < 360 -> 0 <= lon -> lon < 360 -> 0 <= i -> i <= 11 ->
  cusp == wrap360 (c0 + i * 30) ->
  next == wrap360 (c0 + (i + 1) * 30) ->
  cusp_pair_matches lon cusp next = true <->
  i * 30 <= from_cusp c0 lon /\ from_cusp c0 lon < (i + 1) * 30.
Proof.
  intros C0 C1 L0 L1 I0 I1. unfold cusp_pair_matches, wrap360, from_cusp.
  intros Hc Hn.
  destruct (Py.ltb (c0 + i * 30) 360) eqn:W1;
    [apply ltb_true in W1 | apply ltb_false in W1];
  (destruct (Py.ltb (c0 + (i + 1) * 30) 360) eqn:W2;
    [apply ltb_true in W2 | apply ltb_false in W2]);
  cmp_cases; simpl; split; intros H;
    try discriminate; try reflexivity; try lra;
    try (exfalso; lra).
Qed.

Lemma cusps_unfold (asc : Q) :
  _equal_house_cusps asc =
  map (fun i => _norm_deg (asc + inject_Z i * 30))
      [0; 1; 2; 3; 4; 5; 6; 7; 8; 9; 10; 11]%Z.
Proof. reflexivity. Qed.

Lemma cusps_length (asc : Q) : length (_equal_house_cusps asc) = 12%nat.
Proof. reflexivity. Qed.

Lemma index_cases (i : Z) :
  (0 <= i < 12)%Z ->
  i = 0%Z \/ i = 1%Z \/ i = 2%Z \/ i = 3%Z \/ i = 4%Z \/ i = 5%Z \/
  i = 6%Z \/ i = 7%Z \/ i = 8%Z \/ i = 9%Z \/ i = 10%Z \/ i = 11%Z.
Proof. lia. Qed.

Ltac index_split H :=
  apply index_cases in H;
  repeat (destruct H as [H | H]; [subst | ]); [.. | subst].

Lemma getitem_cusps (asc : Q) (i : Z) :
  (0 <= i < 12)%Z ->
  getitem (_equal_house_cusps asc) i = ret (_norm_deg (asc + inject_Z i * 30)).
Proof. intros H. index_split H; reflexivity. Qed.

Lemma cusp_at_cusps (asc : Q) (i : Z) :
  (0 <= i < 12)%Z ->
  cusp_at (_equal_house_cusps asc) i = _norm_deg (asc + inject_Z i * 30).
Proof. intros H. index_split H; reflexivity. Qed.

Lemma inject_Z_bounds (i lo hi : Z) :
  (lo <= i <= hi)%Z -> inject_Z lo <= inject_Z i /\ inject_Z i <= inject_Z hi.
Proof. intros [A B]. rewrite <- !Zle_Qle. split; assumption. Qed.

(** Cusp [i] and its successor, as wrapped advances of the first one. *)
Lemma cusp_pair_advance (asc : Q) (i : Z) :
  (0 <= i < 12)%Z ->
  cusp_at (_equal_house_cusps asc) i
    == wrap360 (_norm_deg asc + inject_Z i * 30) /\
  cusp_at (_equal_house_cusps asc) ((i + 1) mod 12)
    == wrap360 (_norm_deg asc + (inject_Z i + 1) * 30).
Proof.
  intros H.
  destruct (inject_Z_bounds i 0 11 ltac:(lia)) as [B0 B1].
  change (inject_Z 0) with 0 in B0. change (inject_Z 11) with 11 in B1.
  split.
  - rewrite cusp_at_cusps by assumption.
    apply norm_deg_advance; lra.
  - assert (M : (0 <= (i + 1) mod 12 < 12)%Z)
      by (apply Z.mod_pos_bound; lia).
    rewrite cusp_at_cusps by assumption.
    destruct (Z.eq_dec i 11%Z) as [-> | Hne].
    + change ((11 + 1) mod 12)%Z with 0%Z.
      change (inject_Z 0) with 0. change (inject_Z 11) with 11.
      pose proof (norm_deg_advance asc 0 ltac:(lra) ltac:(lra)) as A.
      destruct (norm_deg_range asc) as [R0 R1].
      revert A. unfold wrap360. cmp_cases; intros; nlra.
    + rewrite Z.mod_small by lia. rewrite inject_Z_plus.
      change (inject_Z 1) with 1. apply norm_deg_advance; lra.
Qed.

Lemma getitem_cusp_at (asc : Q) (i : Z) :
  (0 <= i < 12)%Z ->
  getitem (_equal_house_cusps asc) i = ret (cusp_at (_equal_house_cusps asc) i).
Proof. intros H. index_split H; reflexivity. Qed.

(** One iteration of the loop over the twelve cusps. *)
Lemma house_scan_step (asc lon : Q) (i : Z) (idx : list Z) :
  (0 <= i < 12)%Z ->
  _house_scan (i :: idx) lon (_equal_house_cusps asc) =
  if pair_matches_at lon (_equal_house_cusps asc) i
  then ret (Some (i + 1)%Z)
  else _house_scan idx lon (_equal_house_cusps asc).
Proof.
  intros H.
  assert (M : (0 <= (i + 1) mod 12 < 12)%Z) by (apply Z.mod_pos_bound; lia).
  cbn [_house_scan]. rewrite !getitem_cusp_at by assumption.
  reflexivity.
Qed.

(** The house index of a longitude: how many whole houses of 30 degrees
    separate it from the first cusp. *)
Lemma house_index_range (c0 lon : Q) :
  0 <= c0 -> c0 < 360 -> 0 <= lon -> lon < 360 ->
  (0 <= house_index c0 lon < 12)%Z.
Proof.
  intros C0 C1 L0 L1. unfold house_index.
  destruct (from_cusp_range c0 lon C0 C1 L0 L1) as [U0 U1].
  destruct (floor_spec (from_cusp c0 lon / 30)) as [F0 F1].
  change (from_cusp c0 lon / 30) with (from_cusp c0 lon * (1 # 30)) in *.
  split.
  - assert (A : (-1 < Qfloor (from_cusp c0 lon * (1 # 30)))%Z).
    { rewrite Zlt_Qlt. change (inject_Z (-1)) with (-1). lra. }
    lia.
  - rewrite Zlt_Qlt. change (inject_Z 12) with 12. lra.
Qed.

Lemma pair_matches_index (asc lon : Q) (j : Z) :
  0 <= lon -> lon < 360 -> (0 <= j < 12)%Z ->
  pair_matches_at lon (_equal_house_cusps asc) j = true <->
  j = house_index (_norm_deg asc) lon.
Proof.
  intros L0 L1 J.
  destruct (norm_deg_range asc) as [C0 C1].
  destruct (cusp_pair_advance asc j J) as [Hc Hn].
  destruct (inject_Z_bounds j 0 11 ltac:(lia)) as [B0 B1].
  change (inject_Z 0) with 0 in B0. change (inject_Z 11) with 11 in B1.
  unfold pair_matches_at.
  rewrite (pair_matches_iff (_norm_deg asc) lon (inject_Z j) _ _
             C0 C1 L0 L1 B0 B1 Hc Hn).
  unfold house_index.
  destruct (floor_spec (from_cusp (_norm_deg asc) lon / 30)) as [F0 F1].
  change (from_cusp (_norm_deg asc) lon / 30)
    with (from_cusp (_norm_deg asc) lon * (1 # 30)) in *.
  split.
  - intros [A B]. symmetry. apply floor_unique; lra.
  - intros ->. split; lra.
Qed.

Lemma pair_matches_eqb (asc lon : Q) (j : Z) :
  0 <= lon -> lon < 360 -> (0 <= j < 12)%Z ->
  pair_matches_at lon (_equal_house_cusps asc) j
  = (j =? house_index (_norm_deg asc) lon)%Z.
Proof.
  intros L0 L1 J.
  pose proof (pair_matches_index asc lon j L0 L1 J) as H.
  destruct (pair_matches_at lon (_equal_house_cusps asc) j).
  - symmetry. apply Z.eqb_eq. apply H. reflexivity.
  - symmetry. apply Z.eqb_neq. intros E. apply H in E. discriminate.
Qed.

(** The loop started at index [k] returns at the house index. *)
Lemma house_scan_from (asc lon : Q) (n k : nat) :
  0 <= lon -> lon < 360 ->
  (k + n = 12)%nat ->
  (Z.of_nat k <= house_index (_norm_deg asc) lon)%Z ->
  _house_scan (map Z.of_nat (seq k n)) lon (_equal_house_cusps asc)
  = ret (Some (house_index (_norm_deg asc) lon + 1)%Z).
Proof.
  intros L0 L1.
  destruct (norm_deg_range asc) as [C0 C1].
  pose proof (house_index_range (_norm_deg asc) lon C0 C1 L0 L1) as R.
  revert k. induction n as [|n IH]; intros k Hk Hle.
  - lia.
  - cbn [seq map]. rewrite house_scan_step by lia.
    rewrite pair_matches_eqb by (assumption || lia).
    destruct (Z.eqb_spec (Z.of_nat k) (house_index (_norm_deg asc) lon))
      as [-> | Hne].
    + reflexivity.
    + apply IH; lia.
Qed.

Lemma house_scan_total (asc lon : Q) :
  0 <= lon -> lon < 360 ->
  _house_scan (range 12) lon (_equal_house_cusps asc)
  = ret (Some (house_index (_norm_deg asc) lon + 1)%Z).
Proof.
  intros L0 L1. unfold range.
  destruct (norm_deg_range asc) as [C0 C1].
  pose proof (house_index_range (_norm_deg asc) lon C0 C1 L0 L1) as R.
  apply house_scan_from; (assumption || lia).
Qed.

Lemma house_for_longitude_spec (asc lon : Q) :
  0 <= lon -> lon < 360 ->
  _house_for_longitude lon (_equal_house_cusps asc)
  = ret (house_index (_norm_deg asc) lon + 1)%Z.
Proof.
  intros L0 L1. unfold _house_for_longitude.
  rewrite house_scan_total by assumption. reflexivity.
Qed.

(** ** Rounding to two decimals *)

Lemma round_spec (x : Q) :
  inject_Z (Py.round x) - (1 # 2) <= x /\ x <= inject_Z (Py.round x) + (1 # 2).
Proof.
  unfold Py.round. destruct (floor_spec x) as [F0 F1].
  cmp_cases.
  - lra.
  - rewrite inject_Z_plus. change (inject_Z 1) with 1. lra.
  - destruct (Z.even (Qfloor x)).
    + lra.
    + rewrite inject_Z_plus. change (inject_Z 1) with 1. lra.
Qed.

Lemma round_ge (x : Q) (lo : Z) : inject_Z lo <= x -> (lo <= Py.round x)%Z.
Proof.
  intros A. destruct (round_spec x) as [R0 R1].
  assert (A' : (lo + -1 < Py.round x)%Z).
  { rewrite Zlt_Qlt, inject_Z_plus. change (inject_Z (-1)) with (-1). lra. }
  lia.
Qed.

Lemma round_le (x : Q) (hi : Z) : x <= inject_Z hi -> (Py.round x <= hi)%Z.
Proof.
  intros B. destruct (round_spec x) as [R0 R1].
  assert (B' : (Py.round x < hi + 1)%Z).
  { rewrite Zlt_Qlt, inject_Z_plus. change (inject_Z 1) with 1. lra. }
  lia.
Qed.

(** Just below an integer, [round] gives that integer. *)
Lemma round_up (x : Q) (n : Z) :
  inject_Z n - (1 # 2) < x -> x < inject_Z n -> Py.round x = n.
Proof.
  intros A B. destruct (round_spec x) as [R0 R1].
  assert (A' : (n + -1 < Py.round x)%Z).
  { rewrite Zlt_Qlt, inject_Z_plus. change (inject_Z (-1)) with (-1). lra. }
  pose proof (round_le x n ltac:(lra)). lia.
Qed.

Lemma round2_value (x : Q) :
  Py.round2 x == inject_Z (Py.round (x * 100)) * (1 # 100).
Proof. reflexivity. Qed.

Lemma round2_nonneg (x : Q) : 0 <= x -> 0 <= Py.round2 x.
Proof.
  intros H. rewrite round2_value.
  pose proof (round_ge (x * 100) 0) as A.
  change (inject_Z 0) with 0 in A. specialize (A ltac:(lra)).
  rewrite Zle_Qle in A. change (inject_Z 0) with 0 in A. lra.
Qed.

Lemma round2_le (x : Q) (hi : Z) :
  x <= inject_Z hi -> Py.round2 x <= inject_Z hi.
Proof.
  intros H. rewrite round2_value.
  pose proof (round_le (x * 100) (hi * 100)) as A.
  rewrite inject_Z_mult in A. change (inject_Z 100) with 100 in A.
  specialize (A ltac:(lra)).
  rewrite Zle_Qle, inject_Z_mult in A. change (inject_Z 100) with 100 in A.
  lra.
Qed.

(** In the last half hundredth below an integer number of degrees the
    two-decimal rounding reaches that integer. *)
Lemma round2_up (x : Q) (n : Z) :
  inject_Z n - (1 # 200) < x -> x < inject_Z n -> Py.round2 x == inject_Z n.
Proof.
  intros A B. rewrite round2_value.
  rewrite (round_up (x * 100) (n * 100)).
  - rewrite inject_Z_mult. change (inject_Z 100) with 100. lra.
  - rewrite inject_Z_mult. change (inject_Z 100) with 100. lra.
  - rewrite inject_Z_mult. change (inject_Z 100) with 100. lra.
Qed.

(** A tie between two integers goes to the even one. *)
Lemma round_tie (x : Q) :
  Qabs (inject_Z (Py.round x) - x) == 1 # 2 -> Z.even (Py.round x) = true.
Proof.
  unfold Py.round. destruct (floor_spec x) as [F0 F1].
  cmp_cases.
  - intros H. exfalso. rewrite Qabs_neg in H by lra. lra.
  - intros H. exfalso. revert H. rewrite inject_Z_plus.
    change (inject_Z 1) with 1. intros H.
    rewrite Qabs_pos in H by lra. lra.
  - intros _. destruct (Z.even (Qfloor x)) eqn:Ev; [exact Ev|].
    rewrite Z.even_add, Ev. reflexivity.
Qed.

(** The two-decimal rounding is the nearest whole number of hundredths. *)
Lemma round2_nearest (x : Q) :
  Qabs (inject_Z (Py.round (x * 100)) - x * 100) <= 1 # 2 /\
  Qabs (Py.round2 x - x) <= 1 # 200.
Proof.
  destruct (round_spec (x * 100)) as [R0 R1]. rewrite round2_value.
  split; apply Qabs_case; intros; lra.
Qed.

(** ** Signs and planet positions *)

Lemma int_floordiv (x m : Q) : Py.int (Py.floordiv x m) = Qfloor (x / m).
Proof. unfold Py.int, Py.floordiv. simpl. apply Z.quot_1_r. Qed.

Lemma sign_index_range (d : Q) :
  0 <= d -> d < 360 -> (0 <= Qfloor (d / 30) < 12)%Z.
Proof.
  intros D0 D1. destruct (floor_spec (d / 30)) as [F0 F1].
  change (d / 30) with (d * (1 # 30)) in *. split.
  - assert (A : (-1 < Qfloor (d * (1 # 30)))%Z).
    { rewrite Zlt_Qlt. change (inject_Z (-1)) with (-1). lra. }
    lia.
  - rewrite Zlt_Qlt. change (inject_Z 12) with 12. lra.
Qed.

Lemma getitem_sign (i : Z) :
  (0 <= i < 12)%Z -> exists s, getitem SIGN_ORDER i = ret s.
Proof. intros H. index_split H; eexists; reflexivity. Qed.

(** [degrees_to_sign] never raises; its result satisfies the
    SignPosition invariant. *)
Lemma degrees_to_sign_spec (x : Q) :
  exists sp,
    degrees_to_sign x = ret sp /\
    totalDegrees sp == Py.mod_ x 360 /\
    0 <= totalDegrees sp /\ totalDegrees sp < 360 /\
    0 <= degrees sp /\ degrees sp < 30 /\
    degrees sp
      == totalDegrees sp - 30 * inject_Z (Qfloor (totalDegrees sp / 30)) /\
    getitem SIGN_ORDER (Qfloor (totalDegrees sp / 30)) = ret (sign sp).
Proof.
  unfold degrees_to_sign.
  destruct (mod360_spec x) as (M0 & M1 & _).
  destruct (Py.ltb (Py.mod_ x 360) 0) eqn:E.
  { apply ltb_true in E. lra. }
  rewrite int_floordiv.
  destruct (getitem_sign _ (sign_index_range _ M0 M1)) as [s Hs].
  rewrite Hs. cbn [bind]. eexists. split; [reflexivity|].
  cbn [totalDegrees degrees sign].
  destruct (floor_spec (Py.mod_ x 360 / 30)) as [F0 F1].
  change (Py.mod_ x 360 / 30) with (Py.mod_ x 360 * (1 # 30)) in *.
  repeat split; try lra. exact Hs.
Qed.

Lemma degrees_to_sign_id (x : Q) (sp : SignPosition) :
  0 <= x -> x < 360 -> degrees_to_sign x = ret sp -> totalDegrees sp == x.
Proof.
  intros X0 X1 H.
  destruct (degrees_to_sign_spec x) as (sp' & H' & T & _).
  rewrite H in H'. injection H' as <-. rewrite T. apply mod360_id; assumption.
Qed.

(** [_build_position] on the cusps of a chart, for a normalised
    longitude. *)
Lemma build_position_spec (name : string) (lon asc : Q) (r : bool) :
  0 <= lon -> lon < 360 ->
  exists sp,
    degrees_to_sign lon = ret sp /\
    _build_position name lon (_equal_house_cusps asc) r =
    ret {| planet := name;
           p_sign := sign sp;
           p_degrees := Py.round2 (degrees sp);
           p_totalDegrees := Py.round2 (totalDegrees sp);
           house := (house_index (_norm_deg asc) lon + 1)%Z;
           retrograde := r |}.
Proof.
  intros L0 L1.
  destruct (degrees_to_sign_spec lon) as (sp & Hsp & _).
  exists sp. split; [exact Hsp|].
  unfold _build_position. rewrite Hsp. cbn [bind].
  rewrite house_for_longitude_spec by assumption. reflexivity.
Qed.

(** ** Inversion of the monadic code *)

Lemma ret_inj {A} (x y : A) : ret x = ret y -> x = y.
Proof. intros H. injection H as H. exact H. Qed.

Lemma bind_ret_inv {A B} (m : result A) (k : A -> result B) (b : B) :
  bind m k = ret b -> exists a, m = ret a /\ k a = ret b.
Proof.
  destruct m as [e | a]; cbn [bind]; intros H.
  - discriminate H.
  - exists a. split; [reflexivity | exact H].
Qed.

Ltac inv_bind H :=
  repeat (cbv zeta in H;
    match type of H with
    | bind ?m ?k = _ =>
        let E := fresh "E" in
        let v := fresh "v" in
        apply bind_ret_inv in H; destruct H as (v & E & H); cbv beta in H
    | (if ?b then _ else _) = _ =>
        let E := fresh "E" in destruct b eqn:E; try discriminate H
    end).

Lemma geocentric_range (ml : MathLib) (id : string) (jd lon : Q) :
  geocentric_longitude ml id jd = ret lon -> 0 <= lon /\ lon < 360.
Proof.
  unfold geocentric_longitude. intros H. inv_bind H.
  injection H as <-. apply norm_deg_range.
Qed.

Lemma sun_range (ml : MathLib) (jd : Q) :
  0 <= sun_longitude ml jd /\ sun_longitude ml jd < 360.
Proof. apply norm_deg_range. Qed.

Lemma moon_range (ml : MathLib) (jd : Q) :
  0 <= moon_longitude ml jd /\ moon_longitude ml jd < 360.
Proof. apply norm_deg_range. Qed.

Lemma ascendant_range (ml : MathLib) (bd : BirthData) :
  0 <= birth_ascendant ml bd /\ birth_ascendant ml bd < 360.
Proof. apply norm_deg_range. Qed.

(** What a returned chart is made of. *)
Lemma chart_inversion (ml : MathLib) (defs : list AspectDef)
    (bd : BirthData) (c : NatalChart) :
  calculate_natal_chart ml defs bd = ret c ->
  Forall2 (built_from (_equal_house_cusps (birth_ascendant ml bd)))
    (planet_sources ml (birth_julian_day bd)) (planets_of c) /\
  houseCusps c = _equal_house_cusps (birth_ascendant ml bd) /\
  degrees_to_sign (birth_ascendant ml bd) = ret (ascendant c) /\
  aspects c = calculate_aspects defs (planets_of c).
Proof.
  unfold calculate_natal_chart. intros H.
  inv_bind H. injection H as <-.
  unfold planets_of, birth_ascendant, birth_julian_day.
  cbn [sun moon mercury venus mars jupiter saturn uranus neptune
       pluto houseCusps ascendant aspects].
  split; [|split; [reflexivity|split; [assumption|reflexivity]]].
  unfold planet_sources.
  do 2 (constructor;
        [ eexists _, _; cbn [fst snd]; split;
          [ reflexivity
          | match goal with
            | H : _build_position ?n _ _ _ = ret ?p
              |- _build_position ?n _ _ _ = ret ?p => exact H
            end ] | ]).
  do 8 (constructor;
        [ eexists _, _; cbn [fst snd]; split;
          [ match goal with
            | H : geocentric_longitude _ ?id _ = ret _
              |- geocentric_longitude _ ?id _ = ret _ => exact H
            end
          | match goal with
            | H : _build_position ?n _ _ _ = ret ?p
              |- _build_position ?n _ _ _ = ret ?p => exact H
            end ] | ]).
  constructor.
Qed.

(** ** The geocentric pipeline: refinement and totality *)

Lemma bind_ok {A B} (m : result A) (k : A -> result B) :
  (exists a, m = ret a /\ exists b, k a = ret b) ->
  exists b, bind m k = ret b.
Proof. intros (a & -> & b & H). exists b. exact H. Qed.

(** [geocentric_longitude] is the planar composition of two orbit
    positions, each with the longitude [norm(v + w)]. *)
Lemma geocentric_is_planar (ml : MathLib) (id : string) (jd : Q) :
  String.eqb id "earth" = false ->
  geocentric_longitude ml id jd = geocentric_longitude_planar ml id jd.
Proof.
  intros Hne.
  unfold geocentric_longitude, geocentric_longitude_planar, geocentric_from.
  rewrite Hne.
  destruct (elements_of "earth") as [e | earth_el]; [reflexivity|].
  cbn [bind ret]. unfold orbit_position at 1.
  destruct (solve_kepler ml _ _) as [e | earth_ecc]; [reflexivity|].
  cbn [bind ret].
  destruct (math_sqrt ml _) as [e | earth_r]; [reflexivity|].
  cbn [bind ret].
  destruct (elements_of id) as [e | p_el]; [reflexivity|].
  cbn [bind ret]. unfold orbit_position.
  destruct (solve_kepler ml _ _) as [e | p_ecc]; [reflexivity|].
  cbn [bind ret].
  destruct (math_sqrt ml _) as [e | p_r]; [reflexivity|].
  reflexivity.
Qed.

Lemma julian_centuries_bound (jd : Q) :
  -36525000 <= jd - J2000 -> jd - J2000 <= 36525000 ->
  -1000 <= julian_centuries jd /\ julian_centuries jd <= 1000.
Proof.
  unfold julian_centuries.
  change ((jd - J2000) / 36525) with ((jd - J2000) * (1 # 36525)).
  intros. split; lra.
Qed.

Lemma fdiv_ok (x y : Q) : ~ y == 0 -> fdiv x y = ret (x / y).
Proof.
  intros H. unfold fdiv. apply eqb_false in H. rewrite H. reflexivity.
Qed.

Lemma kepler_divisor (ml : MathLib) (e E : Q) :
  cos_bounded ml -> -1 < e -> e < 1 -> ~ 1 - e * m_cos ml E == 0.
Proof.
  intros Hc E0 E1. destruct (Hc E) as [C0 C1].
  generalize dependent (m_cos ml E). intros c C0 C1 H.
  destruct (Qlt_le_dec c 1) as [Hlt | Hge].
  - assert (P1 : 0 <= (1 - e) * (1 + c)) by (apply Qmult_le_0_compat; lra).
    assert (P2 : 0 < (1 + e) * (1 - c)) by (apply Qmult_lt_0_compat; lra).
    lra.
  - assert (P1 : 0 < (1 - e) * (1 + c)) by (apply Qmult_lt_0_compat; lra).
    assert (P2 : 0 <= (1 + e) * (1 - c)) by (apply Qmult_le_0_compat; lra).
    lra.
Qed.

Lemma solve_kepler_loop_total (ml : MathLib) (n : nat) (M e E : Q) :
  cos_bounded ml -> -1 < e -> e < 1 ->
  exists r, solve_kepler_loop ml n M e E = ret r.
Proof.
  intros Hc E0 E1. revert E. induction n as [|n IH]; intros E.
  - exists E. reflexivity.
  - cbn [solve_kepler_loop].
    rewrite fdiv_ok by (apply kepler_divisor; assumption).
    cbn [bind ret].
    cbv zeta.
    match goal with |- context [if ?b then _ else _] => destruct b end;
      [eexists; reflexivity | apply IH].
Qed.

Lemma solve_kepler_total (ml : MathLib) (M e : Q) :
  cos_bounded ml -> -1 < e -> e < 1 ->
  exists r, solve_kepler ml M e = ret r.
Proof. intros. apply solve_kepler_loop_total; assumption. Qed.

Lemma math_sqrt_total (ml : MathLib) (e : Q) :
  -1 < e -> e < 1 -> exists r, math_sqrt ml (1 - e * e) = ret r.
Proof.
  intros E0 E1. unfold math_sqrt.
  destruct (Py.ltb (1 - e * e) 0) eqn:H.
  - apply ltb_true in H. exfalso.
    assert (P : 0 < (1 - e) * (1 + e)) by (apply Qmult_lt_0_compat; lra).
    lra.
  - eexists. reflexivity.
Qed.

Lemma orbit_position_total (ml : MathLib) (lon_of : Q -> Q -> Q -> Q)
    (el : OrbitalElements) (T : Q) :
  cos_bounded ml -> ecc_ok el T ->
  exists h, orbit_position ml lon_of el T = ret h.
Proof.
  intros Hc [E0 E1]. unfold orbit_position.
  destruct (solve_kepler_total ml
              (_norm_deg (_norm_deg (L0 el + L1 el * T)
                          - _norm_deg (w0 el + w1 el * T)) * DEG2RAD ml)
              (e0 el + e1 el * T) Hc E0 E1) as [E HE].
  rewrite HE. cbn [bind ret].
  destruct (math_sqrt_total ml (e0 el + e1 el * T) E0 E1) as [r Hr].
  rewrite Hr. cbn [bind ret]. eexists. reflexivity.
Qed.

Lemma table_eccentricity (id : string) (T : Q) :
  In id chart_bodies -> -1000 <= T -> T <= 1000 ->
  exists el, elements_of id = ret el /\ ecc_ok el T.
Proof.
  intros Hin T0 T1. unfold chart_bodies in Hin. cbn [In] in Hin.
  repeat (destruct Hin as [<- | Hin];
          [ eexists; split; [vm_compute; reflexivity|];
            unfold ecc_ok; cbn [e0 e1]; split; lra | ]).
  contradiction.
Qed.

Lemma geocentric_total (ml : MathLib) (id : string) (jd : Q) :
  cos_bounded ml ->
  In id chart_bodies -> String.eqb id "earth" = false ->
  -36525000 <= jd - J2000 -> jd - J2000 <= 36525000 ->
  exists lon, geocentric_longitude ml id jd = ret lon.
Proof.
  intros Hc Hin Hne J0 J1.
  destruct (julian_centuries_bound jd J0 J1) as [T0 T1].
  rewrite geocentric_is_planar by assumption.
  unfold geocentric_longitude_planar, geocentric_from.
  destruct (table_eccentricity "earth" _ ltac:(unfold chart_bodies; cbn; tauto) T0 T1)
    as (eel & He & Hee).
  destruct (table_eccentricity id _ Hin T0 T1) as (pel & Hp & Hpe).
  rewrite He. cbn [bind ret].
  destruct (orbit_position_total ml true_longitude eel _ Hc Hee) as [h1 H1].
  rewrite H1. cbn [bind ret]. rewrite Hp. cbn [bind ret].
  destruct (orbit_position_total ml true_longitude pel _ Hc Hpe) as [h2 H2].
  rewrite H2. cbn [bind ret]. eexists. reflexivity.
Qed.

Lemma is_retrograde_total (ml : MathLib) (id : string) (jd : Q) :
  cos_bounded ml ->
  In id chart_bodies -> String.eqb id "earth" = false ->
  date_in_range jd ->
  exists r, _is_retrograde ml id jd = ret r.
Proof.
  intros Hc Hin Hne [J0 J1]. unfold _is_retrograde.
  destruct (_ || _); [eexists; reflexivity|].
  destruct (geocentric_total ml id (jd - 1) Hc Hin Hne ltac:(lra) ltac:(lra))
    as [b Hb].
  destruct (geocentric_total ml id (jd + 1) Hc Hin Hne ltac:(lra) ltac:(lra))
    as [a Ha].
  rewrite Hb. cbn [bind ret]. rewrite Ha. cbn [bind ret]. eexists. reflexivity.
Qed.

Lemma build_position_total (name : string) (lon asc : Q) (r : bool) :
  0 <= lon -> lon < 360 ->
  exists p, _build_position name lon (_equal_house_cusps asc) r = ret p.
Proof.
  intros L0 L1.
  destruct (build_position_spec name lon asc r L0 L1) as (sp & _ & H).
  eexists. exact H.
Qed.

(** ** The chart is returned *)

Ltac in_bodies :=
  unfold chart_bodies; cbn [In];
  repeat first [left; reflexivity | right].

Lemma build_position_total' (name : string) (lon asc : Q) (r : bool) :
  0 <= lon /\ lon < 360 ->
  exists p, _build_position name lon (_equal_house_cusps asc) r = ret p.
Proof. intros [L0 L1]. apply build_position_total; assumption. Qed.

Lemma degrees_to_sign_total (x : Q) :
  exists sp, degrees_to_sign x = ret sp.
Proof. destruct (degrees_to_sign_spec x) as (sp & H & _). eauto. Qed.

(** [calculate_natal_chart] returns a chart for every birth date within
    a thousand centuries of J2000.0, whatever the optional fields, when
    the cosine of the [math] module stays in [[-1, 1]]. *)
Theorem chart_total (ml : MathLib) (defs : list AspectDef) (bd : BirthData) :
  cos_bounded ml -> date_in_range (birth_julian_day bd) ->
  exists c, calculate_natal_chart ml defs bd = ret c.
Proof.
  intros Hc Hr. pose proof Hr as [J0 J1].
  unfold calculate_natal_chart. unfold birth_julian_day in *.
  cbv zeta in *.
  set (jd := to_julian_day _ _ _ _ _) in *.
  repeat match goal with
  | |- exists _, bind (geocentric_longitude ?m ?id ?j) _ = _ =>
      let q := fresh "lon" in
      let E := fresh "E" in
      destruct (geocentric_total m id j Hc ltac:(in_bodies) eq_refl
                  ltac:(lra) ltac:(lra)) as [q E];
      pose proof (geocentric_range _ _ _ _ E);
      apply bind_ok; exists q; split; [exact E | cbv beta]
  | |- exists _, bind (_build_position ?n ?lon (_equal_house_cusps ?asc) ?r) _ = _ =>
      let p := fresh "p" in
      let E := fresh "E" in
      destruct (build_position_total' n lon asc r
                  ltac:(first [assumption | apply sun_range | apply moon_range]))
        as [p E];
      apply bind_ok; exists p; split; [exact E | cbv beta]
  | |- exists _, bind (_is_retrograde ?m ?id ?j) _ = _ =>
      let r := fresh "r" in
      let E := fresh "E" in
      destruct (is_retrograde_total m id j Hc ltac:(in_bodies) eq_refl Hr)
        as [r E];
      apply bind_ok; exists r; split; [exact E | cbv beta]
  | |- exists _, bind (degrees_to_sign ?x) _ = _ =>
      let sp := fresh "sp" in
      let E := fresh "E" in
      destruct (degrees_to_sign_total x) as [sp E];
      apply bind_ok; exists sp; split; [exact E | cbv beta]
  end.
  eexists. reflexivity.
Qed.

Theorem start_reading_total (ml : MathLib) (defs : list AspectDef)
    (bd : BirthData) :
  cos_bounded ml -> date_in_range (birth_julian_day bd) ->
  exists s, AstrologyEngine.start_reading ml defs bd = ret s /\
            birthData s = bd /\ revealedPlanets s = [] /\
            revealedHouses s = [] /\ userFeedback s = [].
Proof.
  intros Hc Hr. destruct (chart_total ml defs bd Hc Hr) as [c H].
  unfold AstrologyEngine.start_reading. rewrite H.
  eexists. split; [reflexivity|]. repeat split.
Qed.

Lemma start_reading_inv (ml : MathLib) (defs : list AspectDef)
    (bd : BirthData) (s : AstrologyReadingState) :
  AstrologyEngine.start_reading ml defs bd = ret s ->
  calculate_natal_chart ml defs bd = ret (chart s) /\
  birthData s = bd /\ revealedPlanets s = [] /\
  revealedHouses s = [] /\ userFeedback s = [].
Proof.
  unfold AstrologyEngine.start_reading. intros H.
  apply bind_ret_inv in H. destruct H as (c & E & H).
  injection H as <-. repeat split. exact E.
Qed.

(** The reference [math] module keeps its cosine in [[-1, 1]]. *)
Lemma ref_cos_bounded : cos_bounded RefMath.lib.
Proof.
  intros x. cbn [m_cos RefMath.lib].
  unfold RefMath.cos_fx, RefMath.sin_fx, RefMath.clamp. cbv zeta.
  generalize (RefMath.alt_series 15 1
                (RefMath.reduce (RefMath.to_fx x + RefMath.PI_fx / 2))
                (RefMath.mulfx
                   (RefMath.reduce (RefMath.to_fx x + RefMath.PI_fx / 2))
                   (RefMath.reduce (RefMath.to_fx x + RefMath.PI_fx / 2)))
                (RefMath.reduce (RefMath.to_fx x + RefMath.PI_fx / 2))).
  intros z. unfold RefMath.of_fx, Qle. cbn [Qnum Qden].
  change (Z.pos (Z.to_pos RefMath.S)) with RefMath.S.
  unfold RefMath.S. split; lia.
Qed.

(** ** Rounding after normalisation: the stored fields at a sign boundary *)

Lemma in_window_spec (r : result Q) (lo hi : Q) :
  in_window r lo hi = true -> exists x, r = ret x /\ lo < x /\ x < hi.
Proof.
  destruct r as [e | x]; cbn [in_window]; intros H; [discriminate|].
  apply andb_true_iff in H. destruct H as [A B].
  apply ltb_true in A. apply ltb_true in B. eauto.
Qed.

(** A longitude in the last half hundredth of a degree below 360 is
    stored as 360.00, thirty degrees into Pisces. *)
Lemma build_position_at_360 (name : string) (lon asc : Q) (r : bool)
    (p : PlanetPosition) :
  359.995 < lon -> lon < 360 ->
  _build_position name lon (_equal_house_cusps asc) r = ret p ->
  p_totalDegrees p == 360 /\ p_degrees p == 30 /\ p_sign p = "pisces".
Proof.
  intros L0 L1 H.
  destruct (build_position_spec name lon asc r ltac:(lra) L1)
    as (sp & Hsp & Hp).
  rewrite Hp in H. injection H as <-.
  cbn [p_totalDegrees p_degrees p_sign].
  pose proof (degrees_to_sign_id lon sp ltac:(lra) L1 Hsp) as T.
  destruct (degrees_to_sign_spec lon) as (sp' & Hsp' & _ & _ & _ & _ & _ & D & S).
  rewrite Hsp in Hsp'. injection Hsp' as <-.
  assert (F : Qfloor (totalDegrees sp / 30) = 11%Z).
  { apply floor_unique;
      change (totalDegrees sp / 30) with (totalDegrees sp * (1 # 30));
      change (inject_Z 11) with 11; lra. }
  rewrite F in D, S. change (inject_Z 11) with 11 in D.
  split; [|split].
  - apply (round2_up _ 360); change (inject_Z 360) with 360; lra.
  - apply (round2_up _ 30); change (inject_Z 30) with 30; lra.
  - change (getitem SIGN_ORDER 11) with (@ret string "pisces") in S.
    injection S as S. symmetry. exact S.
Qed.

Lemma Forall2_index {A B} (P : A -> B -> Prop) (l : list A) (k : list B)
    (i : nat) (x : A) (y : B) :
  Forall2 P l k -> nth_error l i = Some x -> nth_error k i = Some y -> P x y.
Proof.
  intros H. revert i. induction H as [|a b l k Hab _ IH]; intros [|i] Hx Hy;
    cbn in Hx, Hy; try discriminate.
  - congruence.
  - eauto.
Qed.

(** For instance a longitude of 359.996 degrees. *)
Example build_position_359_996 :
  exists p,
    _build_position "sun" 359.996 (_equal_house_cusps 0) false = ret p /\
    p_sign p = "pisces" /\ p_degrees p == 30 /\ p_totalDegrees p == 360.
Proof.
  eexists. split; [vm_compute; reflexivity|].
  cbn [p_sign p_degrees p_totalDegrees]. repeat split.
Qed.

(** The Sun on 20 March 2000 at 07:28 UT, as the reference [math]
    module evaluates it: 359.99741... degrees. *)
Lemma sun_equinox_2000 :
  in_window
    (ret (sun_longitude RefMath.lib (birth_julian_day birth_equinox_2000)))
    359.995 360 = true.
Proof. vm_compute. reflexivity. Qed.

(** The Moon on 1 November 2541 at noon UT: 359.99958... degrees. *)
Lemma moon_2541_11 :
  in_window
    (ret (moon_longitude RefMath.lib
            (birth_julian_day (birth_absent 2541 11))))
    359.995 360 = true.
Proof. vm_compute. reflexivity. Qed.

Lemma date_sample : date_in_range (birth_julian_day sample_birth).
Proof. vm_compute. split; discriminate. Qed.

Lemma date_equinox_2000 : date_in_range (birth_julian_day birth_equinox_2000).
Proof. vm_compute. split; discriminate. Qed.

Lemma date_2541_11 : date_in_range (birth_julian_day (birth_absent 2541 11)).
Proof. vm_compute. split; discriminate. Qed.

(** A planet of a chart whose source longitude lies in the last half
    hundredth of a degree below 360. *)
Lemma chart_planet_at_360 (ml : MathLib) (defs : list AspectDef)
    (bd : BirthData) (c : NatalChart) (i : nat) (src : string * result Q)
    (p : PlanetPosition) :
  calculate_natal_chart ml defs bd = ret c ->
  nth_error (planet_sources ml (birth_julian_day bd)) i = Some src ->
  nth_error (planets_of c) i = Some p ->
  in_window (snd src) 359.995 360 = true ->
  p_totalDegrees p == 360 /\ p_degrees p == 30 /\ p_sign p = "pisces".
Proof.
  intros H Hs Hp Hw. destruct (chart_inversion _ _ _ _ H) as (F & _).
  destruct (in_window_spec _ _ _ Hw) as (lon & E & L0 & L1).
  destruct (Forall2_index _ _ _ i _ _ F Hs Hp) as (lon' & r & E' & B).
  rewrite E in E'. apply ret_inj in E'. subst lon'.
  exact (build_position_at_360 _ _ _ _ _ L0 L1 B).
Qed.

(** C1 (fails on the code): the chart of
    [BirthData(year=2000, month=3, day=20, hour=7, minute=28)] stores the
    Sun with [totalDegrees = 360.00] and [degrees = 30.00] under the sign
    Pisces, so the stored fields are outside [[0, 360)] and [[0, 30)] and
    the SignPosition invariant does not hold: [_build_position] rounds
    to two decimals after the longitude has been normalised. *)
Theorem C1_sun_stored_at_360 :
  exists c,
    calculate_natal_chart RefMath.lib sample_definitions birth_equinox_2000
      = ret c /\
    p_totalDegrees (sun c) == 360 /\
    p_degrees (sun c) == 30 /\
    p_sign (sun c) = "pisces" /\
    In (sun c) (planets_of c) /\
    ~ sign_invariant (sun c).
Proof.
  destruct (chart_total RefMath.lib sample_definitions birth_equinox_2000
              ref_cos_bounded date_equinox_2000) as [c H].
  exists c. split; [exact H|].
  destruct (chart_planet_at_360 _ _ _ c 0%nat _ (sun c) H eq_refl eq_refl
              sun_equinox_2000) as (T & D & S).
  repeat split; try assumption.
  - unfold planets_of. cbn [In]. tauto.
  - intros (_ & Hlt & _). lra.
Qed.

(** ** C2: Kepler's equation *)

Lemma newton_iterate_shift (ml : MathLib) (M e : Q) (n : nat) (E : Q) :
  newton_iterate ml M e n (newton_step ml M e E)
  = newton_iterate ml M e (Datatypes.S n) E.
Proof.
  unfold newton_iterate. symmetry. apply Nat.iter_succ_r.
Qed.

(** The loop run with [fuel] iterations left from the iterate [E]. *)
Lemma solve_kepler_loop_spec (ml : MathLib) (M e : Q) (fuel : nat) (E : Q) :
  cos_bounded ml -> -1 < e -> e < 1 ->
  exists n,
    (n <= fuel)%nat /\
    solve_kepler_loop ml fuel M e E = ret (newton_iterate ml M e n E) /\
    (forall k, (Datatypes.S k < n)%nat ->
       small_step ml M e (newton_iterate ml M e k E) = false) /\
    (n < fuel ->
     exists k, n = Datatypes.S k /\
       small_step ml M e (newton_iterate ml M e k E) = true)%nat.
Proof.
  intros Hc E0 E1. revert E. induction fuel as [|fuel IH]; intros E.
  - exists 0%nat. split; [lia|]. split; [reflexivity|].
    split; [intros k Hk; lia | intros Hk; lia].
  - cbn [solve_kepler_loop].
    rewrite fdiv_ok by (apply kepler_divisor; assumption).
    cbn [bind ret]. cbv zeta.
    fold (newton_delta ml M e E). fold (newton_step ml M e E).
    fold (small_step ml M e E).
    destruct (small_step ml M e E) eqn:S.
    + exists 1%nat. split; [lia|]. split; [reflexivity|].
      split; [intros k Hk; lia|].
      intros _. exists 0%nat. split; [reflexivity | exact S].
    + destruct (IH (newton_step ml M e E)) as (n & Hn & R & A & B).
      exists (Datatypes.S n). split; [lia|].
      split; [rewrite R, newton_iterate_shift; reflexivity|].
      split.
      * intros [|k] Hk; [exact S|].
        rewrite <- newton_iterate_shift. apply A. lia.
      * intros Hk. destruct (B ltac:(lia)) as (k & -> & Sk).
        exists (Datatypes.S k). split; [reflexivity|].
        rewrite <- newton_iterate_shift. exact Sk.
Qed.









(** *** Runs of the iteration on the reference instance *)

Lemma to_fx_floor (x : Q) :
  RefMath.to_fx x = Qfloor (x * inject_Z RefMath.S).
Proof.
  unfold RefMath.to_fx. destruct x as [n d].
  cbn [Qfloor Qmult inject_Z Qnum Qden]. rewrite Pos.mul_1_r. reflexivity.
Qed.

Lemma to_fx_comp (x y : Q) : x == y -> RefMath.to_fx x = RefMath.to_fx y.
Proof.
  intros H. rewrite !to_fx_floor. apply Qfloor_comp. rewrite H. reflexivity.
Qed.

Lemma fx_check_spec (E : Q) (z : Z) :
  fx_check E z = true -> RefMath.to_fx E = z.
Proof.
  unfold fx_check, RefMath.to_fx. intros H.
  apply andb_prop in H. destruct H as [A B].
  apply Z.leb_le in A. apply Z.ltb_lt in B.
  symmetry. apply (Z.div_unique_pos _ _ z (Qnum E * RefMath.S - z * Zpos (Qden E))); lia.
Qed.

Lemma fx_fast_spec (E : Q) (z : Z) :
  fx_fast E = Some z -> RefMath.to_fx E = z.
Proof.
  unfold fx_fast. cbv zeta.
  destruct (fx_check E (fx_guess E)) eqn:A.
  { intros H. injection H as <-. apply fx_check_spec, A. }
  destruct (fx_check E (fx_guess E - 1)) eqn:B.
  { intros H. injection H as <-. apply fx_check_spec, B. }
  destruct (fx_check E (fx_guess E + 1)) eqn:C; [|discriminate].
  intros H. injection H as <-. apply fx_check_spec, C.
Qed.

Lemma ltb_comp (x y x' y' : Q) :
  x == x' -> y == y' -> Py.ltb x y = Py.ltb x' y'.
Proof.
  intros Hx Hy.
  destruct (Py.ltb x y) eqn:A; destruct (Py.ltb x' y') eqn:B; try reflexivity.
  - apply ltb_true in A. apply ltb_false in B. lra.
  - apply ltb_false in A. apply ltb_true in B. lra.
Qed.

Lemma eqb_comp (x x' : Q) : x == x' -> Py.eqb x 0 = Py.eqb x' 0.
Proof.
  intros H. unfold Py.eqb.
  destruct (Qeq_bool x 0) eqn:A; destruct (Qeq_bool x' 0) eqn:B;
    try reflexivity.
  - apply Qeq_bool_iff in A. apply Qeq_bool_neq in B. exfalso. apply B.
    rewrite <- H. exact A.
  - apply Qeq_bool_iff in B. apply Qeq_bool_neq in A. exfalso. apply A.
    rewrite H. exact B.
Qed.

(** [kepler_run] returns what the loop of [solve_kepler] returns on
    [RefMath.lib]. *)
Lemma kepler_run_sound (n : nat) (M e E F E0 : Q) :
  E0 == E -> kepler_run n M e E = Some F ->
  exists F0, solve_kepler_loop RefMath.lib n M e E0 = ret F0 /\ F0 == F.
Proof.
  revert E E0. induction n as [|n IH]; intros E E0 HE.
  - cbn [kepler_run solve_kepler_loop]. intros H. injection H as <-.
    exists E0. split; [reflexivity | exact HE].
  - cbn [kepler_run solve_kepler_loop].
    destruct (fx_fast E) as [z|] eqn:Z; [|discriminate].
    apply fx_fast_spec in Z.
    assert (Z0 : RefMath.to_fx E0 = z)
      by (rewrite (to_fx_comp E0 E HE); exact Z).
    cbv zeta.
    change (m_sin RefMath.lib E0)
      with (RefMath.of_fx (RefMath.sin_fx (RefMath.to_fx E0))).
    change (m_cos RefMath.lib E0)
      with (RefMath.of_fx (RefMath.cos_fx (RefMath.to_fx E0))).
    rewrite Z0.
    set (s := RefMath.of_fx (RefMath.sin_fx z)).
    set (c := RefMath.of_fx (RefMath.cos_fx z)).
    pose proof (Qred_correct (e * s + M)) as HX.
    pose proof (Qred_correct (1 - e * c)) as HD.
    set (X := Qred (e * s + M)) in *. set (D := Qred (1 - e * c)) in *.
    pose proof (Qred_correct (1 - / D)) as HK.
    pose proof (Qred_correct (X / D)) as HL.
    set (K := Qred (1 - / D)) in *. set (L := Qred (X / D)) in *.
    unfold fdiv. rewrite <- (eqb_comp D (1 - e * c) HD).
    destruct (Py.eqb D 0) eqn:D0; [discriminate|].
    apply eqb_false in D0.
    assert (D1 : ~ 1 - e * c == 0) by (rewrite <- HD; exact D0).
    cbn [bind ret].
    assert (HdE : (E0 - e * s - M) / (1 - e * c) == (E - X) / D).
    { rewrite HX, HD, HE. field. exact D1. }
    assert (HE' : E0 - (E0 - e * s - M) / (1 - e * c) == E * K + L).
    { rewrite HK, HL, HX, HE. rewrite HD. field. exact D1. }
    rewrite (ltb_comp (Py.abs ((E0 - e * s - M) / (1 - e * c))) 1e-12
               (Py.abs ((E - X) / D)) 1e-12);
      [|unfold Py.abs; rewrite HdE; reflexivity | reflexivity].
    destruct (Py.ltb (Py.abs ((E - X) / D)) 1e-12).
    + intros H. injection H as <-. eexists. split; [reflexivity | exact HE'].
    + intros H. exact (IH _ _ HE' H).
Qed.

Lemma kepler_run_residual_spec (M e r : Q) :
  kepler_run_residual M e = Some r ->
  exists E,
    solve_kepler RefMath.lib M e = ret E /\
    E - e * m_sin RefMath.lib E - M == r.
Proof.
  unfold kepler_run_residual.
  destruct (kepler_run 50 M e M) as [F|] eqn:R; [|discriminate].
  destruct (fx_fast F) as [z|] eqn:Z; [|discriminate].
  intros H. injection H as <-.
  destruct (kepler_run_sound 50 M e M F M (Qeq_refl M) R) as (F0 & S0 & HF).
  exists F0. split; [exact S0|].
  change (m_sin RefMath.lib F0)
    with (RefMath.of_fx (RefMath.sin_fx (RefMath.to_fx F0))).
  rewrite (to_fx_comp F0 F HF), (fx_fast_spec F z Z), HF. reflexivity.
Qed.

Lemma kepler_run_solves_spec (M e : Q) :
  kepler_run_solves M e = true ->
  exists E,
    solve_kepler RefMath.lib M e = ret E /\
    Qabs (E - e * m_sin RefMath.lib E - M) < 1e-9.
Proof.
  unfold kepler_run_solves.
  destruct (kepler_run_residual M e) as [r|] eqn:R; [|discriminate].
  intros H. apply ltb_true in H.
  destruct (kepler_run_residual_spec M e r R) as (E & HE & Hr).
  exists E. split; [exact HE|]. rewrite Hr. exact H.
Qed.


(** A run that converges: at [M = 1], [e = 0.2], about the eccentricity
    of Mercury, the value returned solves Kepler's equation to 1e-9. *)
Lemma solve_kepler_solves_sample :
  exists E,
    solve_kepler RefMath.lib 1 0.2 = ret E /\
    Qabs (E - 0.2 * m_sin RefMath.lib E - 1) < 1e-9.
Proof. apply kepler_run_solves_spec. vm_compute. reflexivity. Qed.


(** ** C3: the geocentric longitude *)

Lemma leb_comp (x y x' y' : Q) :
  x == x' -> y == y' -> Py.leb x y = Py.leb x' y'.
Proof.
  intros Hx Hy.
  destruct (Py.leb x y) eqn:A; destruct (Py.leb x' y') eqn:B; try reflexivity.
  - apply leb_true in A. apply leb_false in B. lra.
  - apply leb_false in A. apply leb_true in B. lra.
Qed.

Lemma mod360_comp (x y : Q) : x == y -> Py.mod_ x 360 == Py.mod_ y 360.
Proof.
  intros H. unfold Py.mod_, Py.floordiv.
  assert (F : Qfloor (x / 360) = Qfloor (y / 360)).
  { apply Qfloor_comp. change (x * (1 # 360) == y * (1 # 360)). lra. }
  rewrite F. lra.
Qed.

Lemma norm_deg_comp (x y : Q) : x == y -> _norm_deg x == _norm_deg y.
Proof.
  intros H. unfold _norm_deg.
  rewrite (leb_comp 0 x 0 y) by (reflexivity || assumption).
  destruct (Py.leb 0 y).
  - apply mod360_comp, H.
  - apply mod360_comp.
    pose proof (mod360_comp x y H) as M.
    generalize dependent (Py.mod_ x 360).
    generalize dependent (Py.mod_ y 360). intros. lra.
Qed.

(** Earth's ascending node is the origin, so for the observer the
    longitude of step 4 and the true longitude agree. *)
Lemma earth_node_zero (T v w : Q) (el : OrbitalElements) :
  elements_of "earth" = ret el ->
  in_plane_longitude v w (_norm_deg (W0 el + W1 el * T))
  == true_longitude v w (_norm_deg (W0 el + W1 el * T)).
Proof.
  intros H. vm_compute in H. injection H as <-.
  unfold in_plane_longitude, true_longitude. cbn [W0 W1].
  apply norm_deg_comp.
  assert (Z : _norm_deg (0 + 0 * T) == 0).
  { rewrite (norm_deg_comp (0 + 0 * T) 0) by lra.
    apply norm_deg_id; lra. }
  generalize dependent (_norm_deg (0 + 0 * T)). intros. lra.
Qed.

Lemma differ_spec (r1 r2 : result Q) (lo1 hi1 lo2 hi2 : Q) :
  in_window r1 lo1 hi1 = true -> in_window r2 lo2 hi2 = true ->
  hi2 <= lo1 -> ~ result_Qeq r1 r2.
Proof.
  intros H1 H2 Hsep.
  destruct (in_window_spec _ _ _ H1) as (x & -> & A & B).
  destruct (in_window_spec _ _ _ H2) as (y & -> & C & D).
  cbn [result_Qeq ret]. lra.
Qed.

(** Venus in January 1955 as the code computes it (238.13 degrees), and
    as the pipeline of the specification's steps 1 to 4 would (329.57
    degrees). *)
Lemma venus_1955_code :
  in_window (geocentric_longitude RefMath.lib "venus" jd_perihelion_1955)
    238.13 238.14 = true.
Proof. vm_compute. reflexivity. Qed.

Lemma venus_1955_spec :
  in_window
    (geocentric_longitude_spec RefMath.lib "venus" jd_perihelion_1955)
    329.57 329.58 = true.
Proof. vm_compute. reflexivity. Qed.

(** C3, as stated, fails: in January 1955 the code places Venus ninety
    degrees away from the longitude obtained with [norm(v + w - W)]. *)
Lemma C3_counterexample :
  String.eqb "venus" "earth" = false /\
  is_Some (ORBITAL_ELEMENTS !! "venus") /\
  ~ result_Qeq (geocentric_longitude RefMath.lib "venus" jd_perihelion_1955)
               (geocentric_longitude_spec RefMath.lib "venus"
                  jd_perihelion_1955).
Proof.
  split; [reflexivity|]. split; [vm_compute; eauto|].
  intros H. apply (differ_spec _ _ _ _ _ _ venus_1955_spec venus_1955_code).
  - lra.
  - destruct (geocentric_longitude RefMath.lib "venus" jd_perihelion_1955),
      (geocentric_longitude_spec RefMath.lib "venus" jd_perihelion_1955);
      cbn [result_Qeq] in *; try contradiction; try (symmetry; exact H).
Qed.

(** C3 (amended): for every planet other than Earth,
    [geocentric_longitude] is the normalised
    [atan2(y_planet - y_earth, x_planet - x_earth)] of the two bodies'
    Cartesian positions [x = R cos(lon)], [y = R sin(lon)], with
    [R = a (1 - e cos E)] and the heliocentric longitude
    [lon = norm(v + w)] of the planar projection, each from the body's
    own current-epoch elements; the node [W] is not subtracted.  For
    Earth, whose node is zero, that longitude is the [norm(v + w - W)]
    of the specification. *)
Theorem C3_geocentric_planar (ml : MathLib) (id : string) (jd : Q)
    (el : OrbitalElements) :
  String.eqb id "earth" = false ->
  ORBITAL_ELEMENTS !! id = Some el ->
  exists earth_el,
    ORBITAL_ELEMENTS !! "earth" = Some earth_el /\
    geocentric_longitude ml id jd =
    (do earth <- orbit_position ml true_longitude earth_el
                   (julian_centuries jd);
     do p <- orbit_position ml true_longitude el (julian_centuries jd);
     ret (_norm_deg
            (m_atan2 ml (cartesian_y ml p - cartesian_y ml earth)
                        (cartesian_x ml p - cartesian_x ml earth)
             * RAD2DEG ml))) /\
    forall v w,
      in_plane_longitude v w
        (_norm_deg (W0 earth_el + W1 earth_el * julian_centuries jd))
      == true_longitude v w
        (_norm_deg (W0 earth_el + W1 earth_el * julian_centuries jd)).
Proof.
  intros Hne Hel.
  destruct (elements_of "earth") as [e | earth_el] eqn:He;
    [vm_compute in He; discriminate|].
  exists earth_el. split; [|split].
  - revert He. unfold elements_of.
    destruct (ORBITAL_ELEMENTS !! "earth"); [|discriminate].
    intros H. injection H as ->. reflexivity.
  - rewrite geocentric_is_planar by assumption.
    unfold geocentric_longitude_planar, geocentric_from.
    rewrite He. unfold elements_of at 1. rewrite Hel. reflexivity.
  - intros v w. apply earth_node_zero. exact He.
Qed.

Lemma C3_geocentric_planar_witness :
  exists earth_el,
    ORBITAL_ELEMENTS !! "earth" = Some earth_el /\
    geocentric_longitude RefMath.lib "mars" J2000 =
    (do earth <- orbit_position RefMath.lib true_longitude earth_el
                   (julian_centuries J2000);
     do p <- orbit_position RefMath.lib true_longitude
               {| L0 := 355.44656299; L1 := 19140.30268499;
                  a := 1.52371034; e0 := 0.09339410; e1 := 0.00007882;
                  I0 := 1.84969142; I1 := -0.00813131;
                  W0 := 49.55953891; W1 := -0.29257343;
                  w0 := 336.05637041; w1 := 0.44441088 |}
               (julian_centuries J2000);
     ret (_norm_deg
            (m_atan2 RefMath.lib
               (cartesian_y RefMath.lib p - cartesian_y RefMath.lib earth)
               (cartesian_x RefMath.lib p - cartesian_x RefMath.lib earth)
             * RAD2DEG RefMath.lib))) /\
    forall v w,
      in_plane_longitude v w
        (_norm_deg (W0 earth_el + W1 earth_el * julian_centuries J2000))
      == true_longitude v w
        (_norm_deg (W0 earth_el + W1 earth_el * julian_centuries J2000)).
Proof.
  apply (C3_geocentric_planar RefMath.lib "mars" J2000).
  - reflexivity.
  - vm_compute. reflexivity.
Defined.

(** ** C4: house cusps *)

Lemma Forall2_Forall_r {A B} (P : A -> B -> Prop) (R : B -> Prop)
    (l : list A) (k : list B) :
  Forall2 P l k -> (forall x y, In x l -> P x y -> R y) -> Forall R k.
Proof.
  intros H. induction H as [|x y l k Hxy _ IH]; intros HR.
  - constructor.
  - constructor.
    + apply (HR x y); [left; reflexivity | exact Hxy].
    + apply IH. intros x' y' Hin. apply HR. right. exact Hin.
Qed.

(** Every longitude a chart is built from is normalised. *)
Lemma source_range (ml : MathLib) (jd : Q) (src : string * result Q)
    (lon : Q) :
  In src (planet_sources ml jd) -> snd src = ret lon ->
  0 <= lon /\ lon < 360.
Proof.
  unfold planet_sources. cbn [In]. intros Hin.
  destruct Hin as [<- | Hin].
  { cbn [snd]. intros H. apply ret_inj in H. rewrite <- H. apply sun_range. }
  destruct Hin as [<- | Hin].
  { cbn [snd]. intros H. apply ret_inj in H. rewrite <- H. apply moon_range. }
  repeat (destruct Hin as [<- | Hin];
          [cbn [snd]; apply geocentric_range|]).
  contradiction.
Qed.

(** What [_build_position] stores for a planet of a chart. *)
Lemma built_from_spec (ml : MathLib) (jd asc : Q) (src : string * result Q)
    (p : PlanetPosition) :
  In src (planet_sources ml jd) ->
  built_from (_equal_house_cusps asc) src p ->
  exists lon sp,
    snd src = ret lon /\ 0 <= lon /\ lon < 360 /\
    degrees_to_sign lon = ret sp /\
    planet p = fst src /\
    p_sign p = sign sp /\
    p_degrees p = Py.round2 (degrees sp) /\
    p_totalDegrees p = Py.round2 (totalDegrees sp) /\
    house p = (house_index (_norm_deg asc) lon + 1)%Z.
Proof.
  intros Hin (lon & r & Hs & Hb).
  destruct (source_range ml jd src lon Hin Hs) as [L0 L1].
  destruct (build_position_spec (fst src) lon asc r L0 L1) as (sp & Hsp & Hp).
  rewrite Hp in Hb. injection Hb as <-.
  exists lon, sp. repeat split; assumption.
Qed.

Lemma chart_houses (ml : MathLib) (defs : list AspectDef) (bd : BirthData)
    (c : NatalChart) :
  calculate_natal_chart ml defs bd = ret c ->
  Forall (fun p => (1 <= house p <= 12)%Z) (planets_of c).
Proof.
  intros H. destruct (chart_inversion _ _ _ _ H) as (F & _).
  apply (Forall2_Forall_r _ _ _ _ F). intros src p Hin Hb.
  destruct (built_from_spec _ _ _ _ _ Hin Hb)
    as (lon & sp & _ & L0 & L1 & _ & _ & _ & _ & _ & Hh).
  rewrite Hh.
  destruct (norm_deg_range (birth_ascendant ml bd)) as [C0 C1].
  pose proof (house_index_range _ lon C0 C1 L0 L1). lia.
Qed.

(** C4: a chart has exactly twelve house cusps, the [i]-th being
    [norm(ascendant + 30 i)]; for every longitude in [[0, 360)] exactly
    one pair of consecutive cusps matches, so the loop of
    [_house_for_longitude] returns from inside (the fallback after it is
    not reached) with a house between 1 and 12; and every planet of the
    chart has its house between 1 and 12. *)
Theorem C4_twelve_cusps_one_house (ml : MathLib) (defs : list AspectDef)
    (bd : BirthData) (c : NatalChart) (lon : Q) :
  calculate_natal_chart ml defs bd = ret c ->
  0 <= lon -> lon < 360 ->
  length (houseCusps c) = 12%nat /\
  totalDegrees (ascendant c) == birth_ascendant ml bd /\
  (forall i, (0 <= i < 12)%Z ->
     getitem (houseCusps c) i
     = ret (_norm_deg (birth_ascendant ml bd + inject_Z i * 30))) /\
  (exists i, (0 <= i < 12)%Z /\
     (forall j, (0 <= j < 12)%Z ->
        pair_matches_at lon (houseCusps c) j = true <-> j = i) /\
     _house_scan (range 12) lon (houseCusps c) = ret (Some (i + 1)%Z) /\
     _house_for_longitude lon (houseCusps c) = ret (i + 1)%Z) /\
  Forall (fun p => (1 <= house p <= 12)%Z) (planets_of c).
Proof.
  intros H L0 L1.
  destruct (chart_inversion _ _ _ _ H) as (_ & Hc & Ha & _).
  destruct (ascendant_range ml bd) as [A0 A1].
  rewrite Hc. split; [apply cusps_length|].
  split; [apply (degrees_to_sign_id _ _ A0 A1 Ha)|].
  split; [intros i Hi; apply getitem_cusps; exact Hi|].
  split; [|apply (chart_houses _ _ _ _ H)].
  destruct (norm_deg_range (birth_ascendant ml bd)) as [C0 C1].
  exists (house_index (_norm_deg (birth_ascendant ml bd)) lon).
  split; [apply house_index_range; assumption|].
  split; [intros j Hj; apply pair_matches_index; assumption|].
  split; [apply house_scan_total; assumption|].
  apply house_for_longitude_spec; assumption.
Qed.

Lemma C4_twelve_cusps_one_house_witness :
  exists c,
  calculate_natal_chart RefMath.lib sample_definitions sample_birth
    = ret c /\
  0 <= 100 /\ 100 < 360 /\
  length (houseCusps c) = 12%nat /\
  totalDegrees (ascendant c) == birth_ascendant RefMath.lib sample_birth /\
  (forall i, (0 <= i < 12)%Z ->
     getitem (houseCusps c) i
     = ret (_norm_deg (birth_ascendant RefMath.lib sample_birth + inject_Z i * 30))) /\
  (exists i, (0 <= i < 12)%Z /\
     (forall j, (0 <= j < 12)%Z ->
        pair_matches_at 100 (houseCusps c) j = true <-> j = i) /\
     _house_scan (range 12) 100 (houseCusps c) = ret (Some (i + 1)%Z) /\
     _house_for_longitude 100 (houseCusps c) = ret (i + 1)%Z) /\
  Forall (fun p => (1 <= house p <= 12)%Z) (planets_of c).
Proof.
  destruct (chart_total RefMath.lib sample_definitions sample_birth
              ref_cos_bounded date_sample) as [c H].
  exists c. split; [exact H|]. split; [lra|]. split; [lra|].
  apply (C4_twelve_cusps_one_house RefMath.lib sample_definitions
           sample_birth c 100 H); lra.
Defined.

(** ** C5: aspects *)

Section Aspects.

Variable defs : list AspectDef.

(** *** The stable sort by orb *)

Lemma insert_perm (x : ChartAspect) (l : list ChartAspect) :
  Permutation (insert_by_orb x l) (x :: l).
Proof.
  induction l as [|y l IH]; cbn [insert_by_orb].
  - reflexivity.
  - destruct (Py.ltb (orb y) (orb x)).
    + rewrite IH. apply perm_swap.
    + reflexivity.
Qed.

Lemma sort_perm (l : list ChartAspect) : Permutation (sort_by_orb l) l.
Proof.
  induction l as [|x l IH]; cbn [sort_by_orb fold_right].
  - reflexivity.
  - fold (sort_by_orb l). rewrite insert_perm. apply perm_skip, IH.
Qed.

Lemma insert_sorted (x : ChartAspect) (l : list ChartAspect) :
  StronglySorted orb_le l -> StronglySorted orb_le (insert_by_orb x l).
Proof.
  induction 1 as [|y l Hs IH Hy]; cbn [insert_by_orb].
  - repeat constructor.
  - destruct (Py.ltb (orb y) (orb x)) eqn:E.
    + apply ltb_true in E. constructor; [exact IH|].
      eapply Permutation_Forall.
      * symmetry. apply insert_perm.
      * constructor; [unfold orb_le; lra | exact Hy].
    + apply ltb_false in E. constructor.
      * constructor; assumption.
      * constructor; [exact E|].
        eapply List.Forall_impl; [|exact Hy].
        unfold orb_le. intros z Hz. lra.
Qed.

Lemma sort_sorted (l : list ChartAspect) : StronglySorted orb_le (sort_by_orb l).
Proof.
  induction l as [|x l IH]; cbn [sort_by_orb fold_right].
  - constructor.
  - apply insert_sorted, IH.
Qed.

Lemma insert_stable (q : Q) (x : ChartAspect) (l : list ChartAspect) :
  with_orb q (insert_by_orb x l) = with_orb q (x :: l).
Proof.
  unfold with_orb.
  induction l as [|y l IH]; cbn [insert_by_orb]; [reflexivity|].
  destruct (Py.ltb (orb y) (orb x)) eqn:E; [|reflexivity].
  apply ltb_true in E. cbn [List.filter] in *. rewrite IH.
  destruct (Py.eqb (orb x) q) eqn:Ex; [|reflexivity].
  destruct (Py.eqb (orb y) q) eqn:Ey; [|reflexivity].
  apply eqb_true in Ex, Ey. lra.
Qed.

Lemma sort_stable (q : Q) (l : list ChartAspect) :
  with_orb q (sort_by_orb l) = with_orb q l.
Proof.
  induction l as [|x l IH]; [reflexivity|].
  cbn [sort_by_orb fold_right]. fold (sort_by_orb l).
  rewrite insert_stable. unfold with_orb in *. cbn [List.filter].
  rewrite IH. reflexivity.
Qed.

(** *** Discovery order *)

Lemma flat_map_if {A B} (t : A -> bool) (g : A -> B) (l : list A) :
  flat_map (fun x => if t x then [g x] else []) l
  = map g (List.filter t l).
Proof.
  induction l as [|x l IH]; [reflexivity|].
  cbn [flat_map List.filter]. rewrite IH. destruct (t x); reflexivity.
Qed.

Lemma map_nth_seq {A} (d : A) (l : list A) :
  map (fun k => nth k l d) (seq 0 (length l)) = l.
Proof.
  induction l as [|x l IH]; [reflexivity|].
  cbn [length seq map nth]. f_equal.
  rewrite <- seq_shift, map_map. exact IH.
Qed.

Lemma filter_map_comm {A B} (t : B -> bool) (f : A -> B) (l : list A) :
  List.filter t (map f l) = map f (List.filter (fun x => t (f x)) l).
Proof.
  induction l as [|x l IH]; [reflexivity|].
  cbn [map List.filter]. rewrite IH. destruct (t (f x)); reflexivity.
Qed.

Lemma filter_flat_map {A B} (t : B -> bool) (f : A -> list B) (l : list A) :
  List.filter t (flat_map f l) = flat_map (fun x => List.filter t (f x)) l.
Proof.
  induction l as [|x l IH]; [reflexivity|].
  cbn [flat_map]. rewrite List.filter_app, IH. reflexivity.
Qed.

Lemma map_flat_map {A B C} (g : B -> C) (f : A -> list B) (l : list A) :
  map g (flat_map f l) = flat_map (fun x => map g (f x)) l.
Proof.
  induction l as [|x l IH]; [reflexivity|].
  cbn [flat_map]. rewrite map_app, IH. reflexivity.
Qed.

Variable positions : list PlanetPosition.

(** The innermost loop for the pair at indices [i], [j]. *)
Lemma aspects_of_pair_at (i j : nat) :
  aspects_of_pair defs (nth i positions nobody) (nth j positions nobody)
  = map (aspect_at defs positions)
      (List.filter (within_orb defs positions)
         (map (fun k => (i, j, k)) (seq 0 (length defs)))).
Proof.
  unfold aspects_of_pair.
  rewrite <- (map_nth_seq nothing defs) at 1.
  rewrite flat_map_concat_map, map_map, <- flat_map_concat_map.
  rewrite filter_map_comm, map_map.
  rewrite (flat_map_if
             (fun k => within_orb defs positions (i, j, k))
             (fun k => aspect_at defs positions (i, j, k))).
  reflexivity.
Qed.

(** The loop over [j] for a fixed [i]: the positions after index [i]. *)
Lemma aspects_of_row (i : nat) (rest : list PlanetPosition) (off : nat) :
  (forall d, nth d rest nobody = nth (off + d) positions nobody) ->
  flat_map (aspects_of_pair defs (nth i positions nobody)) rest
  = map (aspect_at defs positions)
      (List.filter (within_orb defs positions)
         (flat_map (fun j => map (fun k => (i, j, k)) (seq 0 (length defs)))
            (seq off (length rest)))).
Proof.
  revert off. induction rest as [|p rest IH]; intros off Hn; [reflexivity|].
  cbn [flat_map length seq]. rewrite List.filter_app, map_app.
  rewrite <- (IH (Datatypes.S off)).
  - f_equal. rewrite <- aspects_of_pair_at.
    specialize (Hn 0%nat). cbn [nth] in Hn. rewrite Nat.add_0_r in Hn.
    rewrite <- Hn. reflexivity.
  - intros d. specialize (Hn (Datatypes.S d)). cbn [nth] in Hn.
    rewrite Hn. f_equal. lia.
Qed.

Lemma aspects_discovered_from (suf : list PlanetPosition) (off : nat) :
  (forall d, nth d suf nobody = nth (off + d) positions nobody) ->
  (off + length suf = length positions)%nat ->
  aspects_discovered defs suf
  = map (aspect_at defs positions)
      (List.filter (within_orb defs positions)
         (flat_map
            (fun i =>
               flat_map
                 (fun j => map (fun k => (i, j, k)) (seq 0 (length defs)))
                 (seq (Datatypes.S i) (length positions - Datatypes.S i)))
            (seq off (length suf)))).
Proof.
  revert off. induction suf as [|p rest IH]; intros off Hn Hlen;
    [reflexivity|].
  cbn [aspects_discovered flat_map length seq].
  rewrite List.filter_app, map_app.
  cbn [length] in Hlen.
  rewrite <- (IH (Datatypes.S off)).
  - f_equal.
    replace (length positions - Datatypes.S off)%nat with (length rest) by lia.
    rewrite <- (aspects_of_row off rest (Datatypes.S off)).
    + specialize (Hn 0%nat). cbn [nth] in Hn. rewrite Nat.add_0_r in Hn.
      rewrite <- Hn. reflexivity.
    + intros d. specialize (Hn (Datatypes.S d)). cbn [nth] in Hn.
      rewrite Hn. f_equal. lia.
  - intros d. specialize (Hn (Datatypes.S d)). cbn [nth] in Hn.
    rewrite Hn. f_equal. lia.
  - lia.
Qed.

Lemma aspects_discovered_spec :
  aspects_discovered defs positions
  = map (aspect_at defs positions) (matching_combinations defs positions).
Proof.
  unfold matching_combinations, combinations.
  apply (aspects_discovered_from positions 0%nat).
  - intros d. reflexivity.
  - reflexivity.
Qed.

(** *** The combinations are the index triples [i < j], each once *)

Lemma in_combinations (n m i j k : nat) :
  In (i, j, k) (combinations n m) <-> (i < j < n)%nat /\ (k < m)%nat.
Proof.
  unfold combinations. rewrite in_flat_map. split.
  - intros (i' & Hi & H). apply in_flat_map in H.
    destruct H as (j' & Hj & H). apply in_map_iff in H.
    destruct H as (k' & E & Hk). injection E as -> -> ->.
    apply in_seq in Hi, Hj, Hk. lia.
  - intros [Hij Hk]. exists i. split; [apply in_seq; lia|].
    apply in_flat_map. exists j. split; [apply in_seq; lia|].
    apply in_map_iff. exists k. split; [reflexivity | apply in_seq; lia].
Qed.

Lemma NoDup_flat_map {A B} (f : A -> list B) (l : list A) :
  List.NoDup l -> (forall x, In x l -> List.NoDup (f x)) ->
  (forall x y z, In x l -> In y l -> In z (f x) -> In z (f y) -> x = y) ->
  List.NoDup (flat_map f l).
Proof.
  induction 1 as [|x l Hx Hl IH]; intros Hf Hd; cbn [flat_map].
  - constructor.
  - apply List.NoDup_app.
    + apply Hf. left. reflexivity.
    + apply IH.
      * intros y Hy. apply Hf. right. exact Hy.
      * intros a b z Ha Hb. apply Hd; right; assumption.
    + intros z Hz Hz'. apply in_flat_map in Hz'.
      destruct Hz' as (y & Hy & Hzy).
      assert (x = y) by (apply (Hd x y z); [left; reflexivity | right; exact Hy | exact Hz | exact Hzy]).
      subst. contradiction.
Qed.

Lemma NoDup_combinations (n m : nat) : List.NoDup (combinations n m).
Proof.
  unfold combinations. apply NoDup_flat_map.
  - apply seq_NoDup.
  - intros i _. apply NoDup_flat_map.
    + apply seq_NoDup.
    + intros j _. apply Finite.Injective_map_NoDup; [|apply seq_NoDup].
      intros k k' E. injection E as ->. reflexivity.
    + intros j j' z _ _ Hz Hz'. apply in_map_iff in Hz, Hz'.
      destruct Hz as (k & <- & _). destruct Hz' as (k' & E & _).
      injection E as -> _. reflexivity.
  - intros i i' z _ _ Hz Hz'. apply in_flat_map in Hz, Hz'.
    destruct Hz as (j & _ & Hz). destruct Hz' as (j' & _ & Hz').
    apply in_map_iff in Hz, Hz'.
    destruct Hz as (k & <- & _). destruct Hz' as (k' & E & _).
    injection E as -> _ _. reflexivity.
Qed.

Lemma orb_nonneg_at (c : nat * nat * nat) :
  0 <= orb (aspect_at defs positions c).
Proof.
  destruct c as [[i j] k]. cbn [aspect_at orb].
  apply round2_nonneg. unfold orb_distance_at. apply Qabs_nonneg.
Qed.

End Aspects.

(** C5: [calculate_aspects] emits one ChartAspect for each combination
    of an unordered pair of positions (indices [i < j]) and an aspect
    definition (index [k]) with [|separation - exactDegrees| <= orb
    tolerance], where the separation is [|lon1 - lon2|] folded to at
    most 180, and nothing else; the orb of each is that distance rounded
    to two decimals, hence not negative: every emitted aspect has for orb
    a whole number [n] of hundredths, [n] being the integer nearest to a
    hundred times [|actualDegrees - exactDegrees|] (the even one of the
    two at a tie), so the orb is within 0.005 of that distance; the
    result is sorted ascending by orb, and aspects of equal orb keep
    their discovery order, pair first and definition second. *)
Theorem C5_aspects_matched_sorted_stable (defs : list AspectDef)
    (positions : list PlanetPosition) :
  let found :=
    map (aspect_at defs positions) (matching_combinations defs positions) in
  aspects_discovered defs positions = found /\
  (forall i j k,
     In (i, j, k) (combinations (length positions) (length defs)) <->
     (i < j < length positions)%nat /\ (k < length defs)%nat) /\
  List.NoDup (matching_combinations defs positions) /\
  (forall i j k,
     within_orb defs positions (i, j, k) = true <->
     Qabs (separation_at positions i j - d_degrees (nth k defs nothing))
     <= d_orb (nth k defs nothing)) /\
  (forall i j,
     let d := Qabs (p_totalDegrees (nth i positions nobody)
                    - p_totalDegrees (nth j positions nobody)) in
     (180 < d -> separation_at positions i j = 360 - d) /\
     (d <= 180 -> separation_at positions i j = d) /\
     (d <= 360 ->
      0 <= separation_at positions i j /\
      separation_at positions i j <= 180)) /\
  (forall i j k,
     orb (aspect_at defs positions (i, j, k))
     = Py.round2
         (Qabs (separation_at positions i j
                - d_degrees (nth k defs nothing)))) /\
  Forall
    (fun x =>
       let distance := Qabs (actualDegrees x - exactDegrees x) in
       exists n : Z,
         orb x == inject_Z n / 100 /\
         Qabs (inject_Z n - distance * 100) <= 1 # 2 /\
         (Qabs (inject_Z n - distance * 100) == 1 # 2 -> Z.even n = true) /\
         Qabs (orb x - distance) <= 1 # 200)
    (calculate_aspects defs positions) /\
  Forall (fun x => 0 <= orb x) (calculate_aspects defs positions) /\
  Permutation (calculate_aspects defs positions) found /\
  StronglySorted (fun x y => orb x <= orb y)
    (calculate_aspects defs positions) /\
  (forall q,
     List.filter (fun x => Py.eqb (orb x) q) (calculate_aspects defs positions)
     = List.filter (fun x => Py.eqb (orb x) q) found).
Proof.
  intros found. unfold calculate_aspects.
  pose proof (aspects_discovered_spec defs positions) as D.
  fold found in D.
  split; [exact D|].
  split; [intros i j k; apply in_combinations|].
  split; [apply List.NoDup_filter, NoDup_combinations|].
  split; [intros i j k; cbn [within_orb orb_distance_at]; apply leb_true|].
  split.
  { intros i j. unfold separation_at. cbv zeta.
    pose proof (Qabs_nonneg (p_totalDegrees (nth i positions nobody)
                             - p_totalDegrees (nth j positions nobody))).
    destruct (Py.ltb 180 _) eqn:E;
      [apply ltb_true in E | apply ltb_false in E];
      (split; [|split]); intros H'; try reflexivity; try lra;
      exfalso; lra. }
  split; [intros i j k; reflexivity|].
  rewrite D.
  split.
  { eapply Permutation_Forall; [symmetry; apply sort_perm|].
    apply List.Forall_forall. intros x Hx. apply in_map_iff in Hx.
    destruct Hx as ([[i j] k] & <- & _).
    cbn [aspect_at orb actualDegrees exactDegrees orb_distance_at]. cbv zeta.
    set (distance := Qabs _).
    exists (Py.round (distance * 100)).
    destruct (round2_nearest distance) as [N1 N2].
    split; [reflexivity|]. split; [exact N1|].
    split; [apply round_tie | exact N2]. }
  split.
  { eapply Permutation_Forall; [symmetry; apply sort_perm|].
    apply List.Forall_forall. intros x Hx. apply in_map_iff in Hx.
    destruct Hx as (c & <- & _). apply orb_nonneg_at. }
  split; [apply sort_perm|].
  split; [apply sort_sorted|].
  intros q. apply sort_stable.
Qed.

(** ** C6: the defaults of the optional fields *)

Lemma defaults_applied (ml : MathLib) (defs : list AspectDef) (y m : Z) :
  calculate_natal_chart ml defs (birth_absent y m)
  = calculate_natal_chart ml defs (birth_defaults y m).
Proof. reflexivity. Qed.

(** What holds of every returned chart: twelve cusps, houses between 1
    and 12, stored longitudes between 0 and 360 inclusive, orbs not
    negative, aspects sorted by orb. *)
Lemma chart_structure (ml : MathLib) (defs : list AspectDef) (bd : BirthData)
    (c : NatalChart) :
  calculate_natal_chart ml defs bd = ret c ->
  length (houseCusps c) = 12%nat /\
  Forall (fun p => (1 <= house p <= 12)%Z /\
                   0 <= p_totalDegrees p /\ p_totalDegrees p <= 360 /\
                   0 <= p_degrees p /\ p_degrees p <= 30)
    (planets_of c) /\
  Forall (fun x => 0 <= orb x) (aspects c) /\
  StronglySorted (fun x y => orb x <= orb y) (aspects c).
Proof.
  intros H. destruct (chart_inversion _ _ _ _ H) as (F & Hc & _ & Ha).
  split; [rewrite Hc; apply cusps_length|]. split.
  - apply (Forall2_Forall_r _ _ _ _ F). intros src p Hin Hb.
    destruct (built_from_spec _ _ _ _ _ Hin Hb)
      as (lon & sp & _ & L0 & L1 & Hsp & _ & _ & Hd & Ht & Hh).
    destruct (degrees_to_sign_spec lon)
      as (sp' & Hsp' & _ & T0 & T1 & D0 & D1 & _).
    rewrite Hsp in Hsp'. apply ret_inj in Hsp'. subst sp'.
    rewrite Hh, Hd, Ht.
    destruct (norm_deg_range (birth_ascendant ml bd)) as [C0 C1].
    pose proof (house_index_range _ lon C0 C1 L0 L1).
    split; [lia|].
    split; [apply round2_nonneg; exact T0|].
    split; [apply (round2_le _ 360); change (inject_Z 360) with 360; lra|].
    split; [apply round2_nonneg; exact D0|].
    apply (round2_le _ 30); change (inject_Z 30) with 30; lra.
  - rewrite Ha. unfold calculate_aspects. split.
    + eapply Permutation_Forall; [symmetry; apply sort_perm|].
      rewrite aspects_discovered_spec.
      apply List.Forall_forall. intros x Hx. apply in_map_iff in Hx.
      destruct Hx as (t & <- & _). apply orb_nonneg_at.
    + apply sort_sorted.
Qed.

(** C6 (fails on the code): absent optional fields give the chart of
    day 1, hour 12, minute 0, latitude 0, longitude 0, timezone 0, for
    every year and month; but that chart need not satisfy the
    invariants: for [BirthData(year=2541, month=11)] the Moon is stored
    with [totalDegrees = 360.00], outside [[0, 360)], with the explicit
    defaults as well. *)
Theorem C6_defaults_equal_and_boundary :
  (forall ml defs y m,
     calculate_natal_chart ml defs (birth_absent y m)
     = calculate_natal_chart ml defs (birth_defaults y m)) /\
  exists c,
    calculate_natal_chart RefMath.lib sample_definitions (birth_absent 2541 11)
      = ret c /\
    calculate_natal_chart RefMath.lib sample_definitions
      (birth_defaults 2541 11) = ret c /\
    In (moon c) (planets_of c) /\
    p_totalDegrees (moon c) == 360 /\
    ~ p_totalDegrees (moon c) < 360.
Proof.
  split; [intros; apply defaults_applied|].
  destruct (chart_total RefMath.lib sample_definitions (birth_absent 2541 11)
              ref_cos_bounded date_2541_11) as [c H].
  exists c. split; [exact H|].
  split; [rewrite <- defaults_applied; exact H|].
  destruct (chart_planet_at_360 _ _ _ c 1%nat _ (moon c) H eq_refl eq_refl
              moon_2541_11) as (T & _).
  split; [unfold planets_of; cbn [In]; tauto|]. split; [exact T | lra].
Qed.

(** ** C7: unknown bodies and Earth *)

Lemma unknown_not_earth (id : string) :
  ORBITAL_ELEMENTS !! id = None -> String.eqb id "earth" = false.
Proof.
  intros H. destruct (String.eqb_spec id "earth") as [-> | Hne];
    [|reflexivity].
  vm_compute in H. discriminate.
Qed.

Lemma bind_raises_l {A B} (m : result A) (k : A -> result B) :
  (exists e, m = raise e) -> exists e, bind m k = raise e.
Proof. intros [e ->]. exists e. reflexivity. Qed.

Lemma bind_raises_r {A B} (m : result A) (k : A -> result B) :
  (forall a, exists e, k a = raise e) -> exists e, bind m k = raise e.
Proof.
  intros H. destruct m as [e | a]; [exists e; reflexivity | apply H].
Qed.

(** An orbit whose eccentricity has left [[-1, 1]] has no position:
    either the Newton iteration divides by zero or [math.sqrt] refuses
    [1 - e^2]. *)
Lemma orbit_position_raises (ml : MathLib) (lon_of : Q -> Q -> Q -> Q)
    (el : OrbitalElements) (T : Q) :
  1 < e0 el + e1 el * T ->
  exists x, orbit_position ml lon_of el T = raise x.
Proof.
  intros He. unfold orbit_position. cbv zeta.
  apply bind_raises_r. intros E. apply bind_raises_l.
  unfold math_sqrt.
  assert (N : Py.ltb (1 - (e0 el + e1 el * T) * (e0 el + e1 el * T)) 0 = true).
  { apply ltb_true. generalize dependent (e0 el + e1 el * T). intros e He.
    assert (P : 0 < (e - 1) * (e + 1)) by (apply Qmult_lt_0_compat; lra).
    lra. }
  rewrite N. eexists. reflexivity.
Qed.

(** The Newton iteration raises nothing but the error of its division. *)
Lemma solve_kepler_loop_error (ml : MathLib) (n : nat) (M e E : Q) (x : exn) :
  solve_kepler_loop ml n M e E = raise x -> x = ZeroDivisionError.
Proof.
  revert E. induction n as [|n IH]; intros E; cbn [solve_kepler_loop].
  - discriminate.
  - unfold fdiv. destruct (Py.eqb _ 0); cbn [bind raise ret].
    + intros H. injection H as <-. reflexivity.
    + destruct (Py.ltb _ _); [discriminate | apply IH].
Qed.

(** The position in an orbit raises nothing but that error and the
    error of [math.sqrt]. *)
Lemma orbit_position_error (ml : MathLib) (lon_of : Q -> Q -> Q -> Q)
    (el : OrbitalElements) (T : Q) (x : exn) :
  orbit_position ml lon_of el T = raise x ->
  x = ZeroDivisionError \/ x = ValueError "math domain error".
Proof.
  unfold orbit_position. cbv zeta.
  destruct (solve_kepler ml _ _) as [y | E] eqn:K; cbn [bind].
  - intros H. injection H as <-. left.
    exact (solve_kepler_loop_error _ _ _ _ _ _ K).
  - unfold math_sqrt. destruct (Py.ltb _ 0); cbn [bind raise ret].
    + intros H. injection H as <-. right. reflexivity.
    + discriminate.
Qed.

(** Earth's record is in the table. *)
Lemma earth_elements :
  exists el,
    elements_of "earth" = ret el /\
    e0 el = 0.01671123 /\ e1 el = -0.00004392.
Proof.
  eexists. split; [vm_compute; reflexivity|]. split; reflexivity.
Qed.

(** The errors [geocentric_longitude] can end with for an identifier
    that has no record: the [KeyError] of the lookup, or an error of
    Earth's own position, which is computed first. *)
Lemma geocentric_unknown_error (ml : MathLib) (id : string) (jd : Q) (x : exn) :
  ORBITAL_ELEMENTS !! id = None ->
  geocentric_longitude ml id jd = raise x ->
  x = KeyError id \/ x = ZeroDivisionError \/
  x = ValueError "math domain error".
Proof.
  intros Hid. rewrite geocentric_is_planar by (apply unknown_not_earth, Hid).
  unfold geocentric_longitude_planar, geocentric_from.
  destruct earth_elements as (eel & -> & _).
  cbn [bind ret].
  destruct (orbit_position ml true_longitude _ _) as [y | h] eqn:O; cbn [bind].
  - intros H. injection H as <-. right.
    exact (orbit_position_error _ _ _ _ _ O).
  - unfold elements_of. rewrite Hid. cbn [bind raise].
    intros H. injection H as <-. left. reflexivity.
Qed.

(** C7: for an identifier with no record in the table,
    [heliocentric_longitude] raises the ValueError "No orbital elements
    for: <id>" and [geocentric_longitude] returns no result either, but
    its error is not always the one of the missing record: Earth's own
    position is computed before the planet's record is looked up, so the
    error is the [KeyError] of that identifier when Earth's position
    exists (as it does for every date within a thousand centuries of
    J2000.0 when the cosine stays in [[-1, 1]]), and the
    [ZeroDivisionError] or the [math.sqrt] ValueError of Earth's
    position otherwise.  [geocentric_longitude] called with "earth"
    raises the ValueError "Cannot compute geocentric longitude of
    Earth". *)
Theorem C7_unknown_body_and_earth_raise (ml : MathLib) (id : string)
    (jd : Q) :
  ORBITAL_ELEMENTS !! id = None ->
  heliocentric_longitude ml id jd
  = raise (ValueError ("No orbital elements for: " +:+ id)) /\
  (exists e, geocentric_longitude ml id jd = raise e) /\
  (forall x,
     geocentric_longitude ml id jd = raise x ->
     x = KeyError id \/ x = ZeroDivisionError \/
     x = ValueError "math domain error") /\
  (forall earth_el h,
     elements_of "earth" = ret earth_el ->
     orbit_position ml true_longitude earth_el (julian_centuries jd) = ret h ->
     geocentric_longitude ml id jd = raise (KeyError id)) /\
  (cos_bounded ml ->
   -36525000 <= jd - J2000 -> jd - J2000 <= 36525000 ->
   geocentric_longitude ml id jd = raise (KeyError id)) /\
  geocentric_longitude ml "earth" jd
  = raise (ValueError "Cannot compute geocentric longitude of Earth").
Proof.
  intros Hid. pose proof (unknown_not_earth id Hid) as Hne.
  assert (K : elements_of id = raise (KeyError id)).
  { unfold elements_of. rewrite Hid. reflexivity. }
  assert (G : forall earth_el h,
             elements_of "earth" = ret earth_el ->
             orbit_position ml true_longitude earth_el (julian_centuries jd)
             = ret h ->
             geocentric_longitude ml id jd = raise (KeyError id)).
  { intros earth_el h He Hh. rewrite geocentric_is_planar by exact Hne.
    unfold geocentric_longitude_planar, geocentric_from.
    rewrite He. cbn [bind ret]. rewrite Hh. cbn [bind ret].
    rewrite K. reflexivity. }
  split; [|split; [|split; [|split; [|split]]]].
  - unfold heliocentric_longitude. rewrite Hid. reflexivity.
  - rewrite geocentric_is_planar by exact Hne.
    unfold geocentric_longitude_planar, geocentric_from.
    destruct (elements_of "earth") as [e | earth_el];
      [exists e; reflexivity|].
    cbn [bind].
    destruct (orbit_position ml true_longitude earth_el _) as [e | h];
      [exists e; reflexivity|].
    cbn [bind]. rewrite K. exists (KeyError id). reflexivity.
  - intros x. apply geocentric_unknown_error. exact Hid.
  - exact G.
  - intros Hc J0 J1.
    destruct (julian_centuries_bound jd J0 J1) as [T0 T1].
    destruct (table_eccentricity "earth" _ ltac:(in_bodies) T0 T1)
      as (eel & He & Hee).
    destruct (orbit_position_total ml true_longitude eel _ Hc Hee) as [h Hh].
    exact (G eel h He Hh).
  - reflexivity.
Qed.

Lemma C7_unknown_body_and_earth_raise_witness :
  ORBITAL_ELEMENTS !! "vulcan" = None /\
  heliocentric_longitude RefMath.lib "vulcan" J2000
  = raise (ValueError ("No orbital elements for: " +:+ "vulcan")) /\
  (exists e, geocentric_longitude RefMath.lib "vulcan" J2000 = raise e) /\
  (forall x,
     geocentric_longitude RefMath.lib "vulcan" J2000 = raise x ->
     x = KeyError "vulcan" \/ x = ZeroDivisionError \/
     x = ValueError "math domain error") /\
  (forall earth_el h,
     elements_of "earth" = ret earth_el ->
     orbit_position RefMath.lib true_longitude earth_el
       (julian_centuries J2000) = ret h ->
     geocentric_longitude RefMath.lib "vulcan" J2000
     = raise (KeyError "vulcan")) /\
  (cos_bounded RefMath.lib ->
   -36525000 <= J2000 - J2000 -> J2000 - J2000 <= 36525000 ->
   geocentric_longitude RefMath.lib "vulcan" J2000
   = raise (KeyError "vulcan")) /\
  geocentric_longitude RefMath.lib "earth" J2000
  = raise (ValueError "Cannot compute geocentric longitude of Earth").
Proof.
  split; [vm_compute; reflexivity|].
  apply (C7_unknown_body_and_earth_raise RefMath.lib "vulcan" J2000).
  vm_compute. reflexivity.
Defined.

(** At a date where Earth's eccentricity [e0 + e1 T] has left
    [[-1, 1]] (here 23,000 centuries before J2000.0, where it is about
    1.027), [geocentric_longitude] called with an identifier that has no
    record does not report the missing record: the error is the one of
    Earth's position. *)
Lemma C7_counterexample :
  ORBITAL_ELEMENTS !! "vulcan" = None /\
  exists x,
    geocentric_longitude RefMath.lib "vulcan" (J2000 - 36525 * 23000)
    = raise x /\
    (x = ZeroDivisionError \/ x = ValueError "math domain error") /\
    x <> KeyError "vulcan".
Proof.
  split; [vm_compute; reflexivity|].
  assert (R : exists x,
             geocentric_longitude RefMath.lib "vulcan" (J2000 - 36525 * 23000)
             = raise x /\
             (x = ZeroDivisionError \/ x = ValueError "math domain error")).
  { rewrite geocentric_is_planar by reflexivity.
    unfold geocentric_longitude_planar, geocentric_from.
    destruct earth_elements as (eel & -> & E0 & E1).
    cbn [bind ret].
    destruct (orbit_position_raises RefMath.lib true_longitude eel
                (julian_centuries (J2000 - 36525 * 23000))) as [x Hx].
    { rewrite E0, E1. unfold julian_centuries.
      apply Qlt_alt. vm_compute. reflexivity. }
    rewrite Hx. exists x. split; [reflexivity|].
    exact (orbit_position_error _ _ _ _ _ Hx). }
  destruct R as (x & Hx & C). exists x. split; [exact Hx|].
  split; [exact C|]. destruct C as [-> | ->]; discriminate.
Qed.

(** ** C8, C9, C10: the reading state machine *)

Section Reading.

Variable ml : MathLib.
Variable defs : list AspectDef.

(** A state with nothing revealed yet, as [start_reading] returns it. *)
Lemma fresh_state (bd : BirthData) (s : AstrologyReadingState) :
  AstrologyEngine.start_reading ml defs bd = ret s ->
  s = {| birthData := bd; chart := chart s; revealedPlanets := [];
         revealedHouses := []; userFeedback := [] |}.
Proof.
  intros H. destruct (start_reading_inv _ _ _ _ H) as (_ & B & R & Hh & F).
  destruct s; cbn in *. subst. reflexivity.
Qed.

Lemma step_cases (k : nat) :
  (k <= 11)%nat ->
  k = 0%nat \/ k = 1%nat \/ k = 2%nat \/ k = 3%nat \/ k = 4%nat \/
  k = 5%nat \/ k = 6%nat \/ k = 7%nat \/ k = 8%nat \/ k = 9%nat \/
  k = 10%nat \/ k = 11%nat.
Proof. lia. Qed.

(** The state after [k] turns of the cycle, for [k] up to 11. *)
Lemma reveal_steps_spec (fb : string -> FeedbackEntry) (bd : BirthData)
    (s0 : AstrologyReadingState) (k : nat) :
  AstrologyEngine.start_reading ml defs bd = ret s0 ->
  (k <= 11)%nat ->
  exists sk,
    reveal_steps fb k s0 = Some sk /\
    chart sk = chart s0 /\
    revealedPlanets sk = firstn k DEFAULT_REVEAL_ORDER /\
    userFeedback sk = map fb (firstn k DEFAULT_REVEAL_ORDER) /\
    AstrologyEngine.is_complete sk = (k =? 11)%nat /\
    AstrologyEngine.get_next_reveal sk =
    match nth_error DEFAULT_REVEAL_ORDER k with
    | Some planet_id =>
        Some {| r_planet := planet_id;
                r_position :=
                  AstrologyEngine._get_chart_position planet_id (chart s0) |}
    | None => None
    end.
Proof.
  intros H Hk. rewrite (fresh_state bd s0 H).
  generalize (chart s0). intros c. cbn [chart].
  apply step_cases in Hk.
  repeat (destruct Hk as [-> | Hk];
          [eexists; split; [vm_compute; reflexivity|];
           repeat split; vm_compute; reflexivity |]).
  subst k. eexists. split; [vm_compute; reflexivity|].
  repeat split; vm_compute; reflexivity.
Qed.

(** The test loop run with enough fuel. *)
Lemma reveal_cycle_spec (fb : string -> FeedbackEntry) (bd : BirthData)
    (s0 : AstrologyReadingState) (n : nat) :
  AstrologyEngine.start_reading ml defs bd = ret s0 ->
  exists sf,
    reveal_cycle fb (12 + n) 0 s0 = Some (11%nat, sf) /\
    reveal_steps fb 11 s0 = Some sf /\
    revealedPlanets sf = DEFAULT_REVEAL_ORDER /\
    AstrologyEngine.is_complete sf = true /\
    AstrologyEngine.get_next_reveal sf = None.
Proof.
  intros H. rewrite (fresh_state bd s0 H).
  generalize (chart s0). intros c.
  eexists. split; [vm_compute; reflexivity|].
  repeat split; vm_compute; reflexivity.
Qed.

Lemma reveal_cycle_short (fb : string -> FeedbackEntry) (bd : BirthData)
    (s0 : AstrologyReadingState) (fuel : nat) :
  AstrologyEngine.start_reading ml defs bd = ret s0 ->
  (fuel <= 11)%nat -> reveal_cycle fb fuel 0 s0 = None.
Proof.
  intros H Hk. rewrite (fresh_state bd s0 H).
  generalize (chart s0). intros c.
  apply step_cases in Hk.
  repeat (destruct Hk as [-> | Hk]; [vm_compute; reflexivity|]).
  subst fuel. vm_compute. reflexivity.
Qed.

(** C8: from [start_reading], alternating [get_next_reveal] and
    [record_feedback] for the planet it returned ends after exactly
    eleven turns: at turn [k] the item returned is the [k]-th of
    [sun, moon, ascendant, mercury, venus, mars, jupiter, saturn, uranus,
    neptune, pluto] with its position, after the eleventh none is
    returned, and [is_complete] holds after the eleventh turn and after
    no earlier one. *)
Theorem C8_reveal_cycle_eleven_turns (fb : string -> FeedbackEntry)
    (bd : BirthData) (s0 : AstrologyReadingState) :
  AstrologyEngine.start_reading ml defs bd = ret s0 ->
  (forall fuel, (11 < fuel)%nat ->
     exists sf,
       reveal_cycle fb fuel 0 s0 = Some (11%nat, sf) /\
       reveal_steps fb 11 s0 = Some sf /\
       revealedPlanets sf = DEFAULT_REVEAL_ORDER /\
       AstrologyEngine.is_complete sf = true /\
       AstrologyEngine.get_next_reveal sf = None) /\
  (forall fuel, (fuel <= 11)%nat -> reveal_cycle fb fuel 0 s0 = None) /\
  (forall k, (k <= 11)%nat ->
     exists sk,
       reveal_steps fb k s0 = Some sk /\
       revealedPlanets sk = firstn k DEFAULT_REVEAL_ORDER /\
       (AstrologyEngine.is_complete sk = true <-> k = 11%nat) /\
       AstrologyEngine.get_next_reveal sk =
       match nth_error DEFAULT_REVEAL_ORDER k with
       | Some planet_id =>
           Some {| r_planet := planet_id;
                   r_position :=
                     AstrologyEngine._get_chart_position planet_id
                       (chart s0) |}
       | None => None
       end).
Proof.
  intros H. split; [|split].
  - intros fuel Hf.
    replace fuel with (12 + (fuel - 12))%nat by lia.
    apply (reveal_cycle_spec fb bd s0 _ H).
  - intros fuel Hf. apply (reveal_cycle_short fb bd s0 fuel H Hf).
  - intros k Hk.
    destruct (reveal_steps_spec fb bd s0 k H Hk)
      as (sk & S1 & _ & S2 & _ & S3 & S4).
    exists sk. repeat split; try assumption.
    + rewrite S3. intros E. apply Nat.eqb_eq in E. exact E.
    + intros ->. rewrite S3. reflexivity.
Qed.

(** *** Feedback without validation *)

Lemma feed_revealed (s : AstrologyReadingState)
    (calls : list (string * FeedbackEntry)) :
  revealedPlanets (feed s calls) = (revealedPlanets s ++ map fst calls)%list.
Proof.
  revert s. induction calls as [|c calls IH]; intros s.
  - cbn. rewrite app_nil_r. reflexivity.
  - change (feed s (c :: calls))
      with (feed (AstrologyEngine.record_feedback s (fst c) (snd c)) calls).
    rewrite IH. cbn [AstrologyEngine.record_feedback revealedPlanets map].
    rewrite <- app_assoc. reflexivity.
Qed.

(** C9 (amended): the list of revealed planets is append-only:
    [record_feedback] puts the identifier it is given at the end and
    changes nothing before it, so after any sequence of calls on a fresh
    reading the list is the sequence of identifiers passed, in order.  It
    has no duplicates exactly when no identifier was passed twice;
    [record_feedback] itself does not check. *)
Theorem C9_revealed_append_only (bd : BirthData) (s0 : AstrologyReadingState)
    (calls : list (string * FeedbackEntry)) :
  AstrologyEngine.start_reading ml defs bd = ret s0 ->
  revealedPlanets (feed s0 calls) = map fst calls /\
  (forall planet_id feedback,
     revealedPlanets
       (AstrologyEngine.record_feedback (feed s0 calls) planet_id feedback)
     = (revealedPlanets (feed s0 calls) ++ [planet_id])%list) /\
  (List.NoDup (revealedPlanets (feed s0 calls)) <->
   List.NoDup (map fst calls)).
Proof.
  intros H.
  destruct (start_reading_inv _ _ _ _ H) as (_ & _ & R & _).
  assert (E : revealedPlanets (feed s0 calls) = map fst calls).
  { rewrite feed_revealed, R. reflexivity. }
  split; [exact E|]. split; [reflexivity|].
  rewrite E. reflexivity.
Qed.

(** C10: [record_feedback] has no failing path (it returns a state, never
    an exception) and validates nothing: it appends whatever identifier
    it is given and one feedback entry, so the count [is_complete]
    compares grows by one per call.  Eleven calls naming "sun" on a
    fresh reading reach a state where [is_complete] holds while
    [get_next_reveal] still returns an item, the Moon. *)
Theorem C10_feedback_unvalidated (fb : FeedbackEntry) (bd : BirthData)
    (s0 : AstrologyReadingState) :
  AstrologyEngine.start_reading ml defs bd = ret s0 ->
  (forall s planet_id feedback,
     revealedPlanets (AstrologyEngine.record_feedback s planet_id feedback)
     = (revealedPlanets s ++ [planet_id])%list /\
     userFeedback (AstrologyEngine.record_feedback s planet_id feedback)
     = (userFeedback s ++ [feedback])%list /\
     length
       (revealedPlanets
          (AstrologyEngine.record_feedback s planet_id feedback))
     = Datatypes.S (length (revealedPlanets s))) /\
  AstrologyEngine.is_complete (feed s0 (repeat ("sun", fb) 11)) = true /\
  AstrologyEngine.get_next_reveal (feed s0 (repeat ("sun", fb) 11))
  = Some {| r_planet := "moon";
            r_position := Some (PlanetAttr (moon (chart s0))) |}.
Proof.
  intros H. split.
  - intros s planet_id feedback.
    cbn [AstrologyEngine.record_feedback revealedPlanets userFeedback].
    repeat split. rewrite length_app. cbn [length]. lia.
  - rewrite (fresh_state bd s0 H). generalize (chart s0). intros c.
    split; vm_compute; reflexivity.
Qed.

End Reading.

Lemma reading_sample :
  exists s0,
    AstrologyEngine.start_reading RefMath.lib sample_definitions
      sample_birth = ret s0.
Proof.
  destruct (start_reading_total RefMath.lib sample_definitions
              sample_birth ref_cos_bounded date_sample)
    as (s0 & H & _).
  exists s0. exact H.
Qed.

Lemma C8_reveal_cycle_eleven_turns_witness :
  exists s0,
    AstrologyEngine.start_reading RefMath.lib sample_definitions
      sample_birth = ret s0 /\
  (forall fuel, (11 < fuel)%nat ->
     exists sf,
       reveal_cycle (fun _ => no_feedback) fuel 0 s0 = Some (11%nat, sf) /\
       reveal_steps (fun _ => no_feedback) 11 s0 = Some sf /\
       revealedPlanets sf = DEFAULT_REVEAL_ORDER /\
       AstrologyEngine.is_complete sf = true /\
       AstrologyEngine.get_next_reveal sf = None) /\
  (forall fuel, (fuel <= 11)%nat -> reveal_cycle (fun _ => no_feedback) fuel 0 s0 = None) /\
  (forall k, (k <= 11)%nat ->
     exists sk,
       reveal_steps (fun _ => no_feedback) k s0 = Some sk /\
       revealedPlanets sk = firstn k DEFAULT_REVEAL_ORDER /\
       (AstrologyEngine.is_complete sk = true <-> k = 11%nat) /\
       AstrologyEngine.get_next_reveal sk =
       match nth_error DEFAULT_REVEAL_ORDER k with
       | Some planet_id =>
           Some {| r_planet := planet_id;
                   r_position :=
                     AstrologyEngine._get_chart_position planet_id
                       (chart s0) |}
       | None => None
       end).
Proof.
  destruct reading_sample as [s0 H]. exists s0. split; [exact H|].
  exact (C8_reveal_cycle_eleven_turns RefMath.lib sample_definitions
           (fun _ => no_feedback) sample_birth s0 H).
Defined.

(** C9, as stated, fails: two [record_feedback] calls naming "sun" on a
    fresh reading leave "sun" twice in the list. *)
Lemma C9_counterexample :
  exists s0,
    AstrologyEngine.start_reading RefMath.lib sample_definitions
      sample_birth = ret s0 /\
    revealedPlanets
      (AstrologyEngine.record_feedback
         (AstrologyEngine.record_feedback s0 "sun" no_feedback)
         "sun" no_feedback)
    = ["sun"; "sun"] /\
    ~ List.NoDup
        (revealedPlanets
           (AstrologyEngine.record_feedback
              (AstrologyEngine.record_feedback s0 "sun" no_feedback)
              "sun" no_feedback)).
Proof.
  destruct reading_sample as [s0 H]. exists s0. split; [exact H|].
  destruct (start_reading_inv _ _ _ _ H) as (_ & _ & R & _).
  cbn [AstrologyEngine.record_feedback revealedPlanets]. rewrite R.
  split; [reflexivity|]. cbn [app]. intros N.
  apply NoDup_cons_iff in N. destruct N as [N _]. apply N. left. reflexivity.
Qed.

Lemma C9_revealed_append_only_witness :
  exists s0,
    AstrologyEngine.start_reading RefMath.lib sample_definitions
      sample_birth = ret s0 /\
  revealedPlanets (feed s0 [("sun", no_feedback); ("moon", no_feedback)]) = map fst [("sun", no_feedback); ("moon", no_feedback)] /\
  (forall planet_id feedback,
     revealedPlanets
       (AstrologyEngine.record_feedback (feed s0 [("sun", no_feedback); ("moon", no_feedback)]) planet_id feedback)
     = (revealedPlanets (feed s0 [("sun", no_feedback); ("moon", no_feedback)]) ++ [planet_id])%list) /\
  (List.NoDup (revealedPlanets (feed s0 [("sun", no_feedback); ("moon", no_feedback)])) <->
   List.NoDup (map fst [("sun", no_feedback); ("moon", no_feedback)])).
Proof.
  destruct reading_sample as [s0 H]. exists s0. split; [exact H|].
  exact (C9_revealed_append_only RefMath.lib sample_definitions
           sample_birth s0
           [("sun", no_feedback); ("moon", no_feedback)] H).
Defined.

Lemma C10_feedback_unvalidated_witness :
  exists s0,
    AstrologyEngine.start_reading RefMath.lib sample_definitions
      sample_birth = ret s0 /\
  (forall s planet_id feedback,
     revealedPlanets (AstrologyEngine.record_feedback s planet_id feedback)
     = (revealedPlanets s ++ [planet_id])%list /\
     userFeedback (AstrologyEngine.record_feedback s planet_id feedback)
     = (userFeedback s ++ [feedback])%list /\
     length
       (revealedPlanets
          (AstrologyEngine.record_feedback s planet_id feedback))
     = Datatypes.S (length (revealedPlanets s))) /\
  AstrologyEngine.is_complete (feed s0 (repeat ("sun", no_feedback) 11)) = true /\
  AstrologyEngine.get_next_reveal (feed s0 (repeat ("sun", no_feedback) 11))
  = Some {| r_planet := "moon";
            r_position := Some (PlanetAttr (moon (chart s0))) |}.
Proof.
  destruct reading_sample as [s0 H]. exists s0. split; [exact H|].
  exact (C10_feedback_unvalidated RefMath.lib sample_definitions
           no_feedback sample_birth s0 H).
Defined.

(** * Further properties of the code *)

(** ** Angles: normalisation and signs *)

(** Two angles of [[0, 360)] that differ by a whole number of turns are
    equal. *)
Lemma same_turn (a b : Q) (d : Z) :
  0 <= a -> a < 360 -> 0 <= b -> b < 360 ->
  a - b == 360 * inject_Z d -> a == b.
Proof.
  intros A0 A1 B0 B1 H.
  assert (L : (-1 < d)%Z).
  { rewrite Zlt_Qlt. change (inject_Z (-1)) with (-1). lra. }
  assert (U : (d < 1)%Z).
  { rewrite Zlt_Qlt. change (inject_Z 1) with 1. lra. }
  assert (E : d = 0%Z) by lia.
  rewrite E in H. change (inject_Z 0) with 0 in H. lra.
Qed.

Lemma norm_deg_period (x : Q) (k : Z) :
  _norm_deg (x + 360 * inject_Z k) == _norm_deg x.
Proof.
  destruct (norm_deg_turns x) as [n Hn].
  destruct (norm_deg_turns (x + 360 * inject_Z k)) as [n' Hn'].
  destruct (norm_deg_range x) as [A0 A1].
  destruct (norm_deg_range (x + 360 * inject_Z k)) as [B0 B1].
  apply (same_turn _ _ (k - n' + n)); try assumption.
  unfold Zminus. rewrite !inject_Z_plus, inject_Z_opp. nlra.
Qed.

(** X1: [_norm_deg] brings every angle, negative ones included, into
    [[0, 360)] by a whole number of turns; it leaves the angles of
    [[0, 360)] unchanged, so it is idempotent, and it does not see whole
    turns added to its argument. *)
Theorem norm_deg_normalises (x : Q) (k : Z) :
  0 <= _norm_deg x /\ _norm_deg x < 360 /\
  (exists n : Z, _norm_deg x == x - 360 * inject_Z n) /\
  (0 <= x /\ x < 360 -> _norm_deg x == x) /\
  _norm_deg (_norm_deg x) == _norm_deg x /\
  _norm_deg (x + 360 * inject_Z k) == _norm_deg x.
Proof.
  destruct (norm_deg_range x) as [A0 A1].
  split; [exact A0|]. split; [exact A1|].
  split; [apply norm_deg_turns|].
  split; [intros [X0 X1]; apply norm_deg_id; assumption|].
  split; [apply norm_deg_id; assumption|].
  apply norm_deg_period.
Qed.

Lemma mod360_period (x : Q) (k : Z) :
  Py.mod_ (x + 360 * inject_Z k) 360 == Py.mod_ x 360.
Proof.
  destruct (mod360_spec x) as (A0 & A1 & A).
  destruct (mod360_spec (x + 360 * inject_Z k)) as (B0 & B1 & B).
  apply (same_turn _ _
           (k - Qfloor ((x + 360 * inject_Z k) / 360) + Qfloor (x / 360)));
    try assumption.
  unfold Zminus. rewrite !inject_Z_plus, inject_Z_opp. lra.
Qed.

(** X2: for a longitude that is not negative, below 360 or beyond,
    [degrees_to_sign] never raises; the position it returns satisfies
    the SignPosition invariant exactly, its longitude being the argument
    less a whole number of turns; and two such arguments that differ by
    a whole number of turns get the same sign, degrees and longitude.  (The chart passes longitudes of [[0, 360)].  For a
    negative argument the remainder [x % 360] is a sum, which binary64
    can round up to 360.0, where the sign lookup is out of range; the
    exact arithmetic of the embedding does not show that, and negative
    arguments are left out.) *)
Theorem degrees_to_sign_invariant (x : Q) (k : Z) :
  0 <= x -> (0 <= k)%Z ->
  exists sp sp',
    degrees_to_sign x = ret sp /\
    0 <= totalDegrees sp /\ totalDegrees sp < 360 /\
    (exists n : Z, (0 <= n)%Z /\ totalDegrees sp == x - 360 * inject_Z n) /\
    0 <= degrees sp /\ degrees sp < 30 /\
    In (sign sp) SIGN_ORDER /\
    getitem SIGN_ORDER (Qfloor (totalDegrees sp / 30)) = ret (sign sp) /\
    totalDegrees sp
      == 30 * inject_Z (Qfloor (totalDegrees sp / 30)) + degrees sp /\
    degrees_to_sign (x + 360 * inject_Z k) = ret sp' /\
    sign sp' = sign sp /\
    degrees sp' == degrees sp /\
    totalDegrees sp' == totalDegrees sp.
Proof.
  intros X0 _.
  destruct (degrees_to_sign_spec x)
    as (sp & H & T & T0 & T1 & D0 & D1 & D & S).
  destruct (degrees_to_sign_spec (x + 360 * inject_Z k))
    as (sp' & H' & T' & _ & _ & _ & _ & D' & S').
  exists sp, sp'.
  assert (E : totalDegrees sp' == totalDegrees sp).
  { rewrite T, T'. apply mod360_period. }
  assert (F : Qfloor (totalDegrees sp' / 30) = Qfloor (totalDegrees sp / 30)).
  { apply Qfloor_comp. rewrite E. reflexivity. }
  split; [exact H|]. split; [exact T0|]. split; [exact T1|].
  split.
  { exists (Qfloor (x / 360)). split; [|rewrite T; apply mod360_spec].
    change 0%Z with (Qfloor 0). apply Qfloor_resp_le.
    change (x / 360) with (x * (1 # 360)). lra. }
  split; [exact D0|]. split; [exact D1|].
  split.
  { destruct (sign_index_range _ T0 T1) as [I0 I1].
    revert S. generalize (sign sp). intros s S.
    assert (I : (0 <= Qfloor (totalDegrees sp / 30) < 12)%Z) by lia.
    revert S. generalize (Qfloor (totalDegrees sp / 30)) I. intros i Hi.
    index_split Hi; intros S; apply ret_inj in S; subst s;
      unfold SIGN_ORDER; cbn [In]; tauto. }
  split; [exact S|]. split; [lra|]. split; [exact H'|].
  split.
  { rewrite F in S'. rewrite S in S'. apply ret_inj in S'. symmetry. exact S'. }
  split; [|exact E].
  rewrite D, D', F, E. reflexivity.
Qed.

Lemma degrees_to_sign_invariant_witness :
  0 <= 400.5 /\ (0 <= 2)%Z /\
  exists sp sp',
    degrees_to_sign 400.5 = ret sp /\
    0 <= totalDegrees sp /\ totalDegrees sp < 360 /\
    (exists n : Z, (0 <= n)%Z /\ totalDegrees sp == 400.5 - 360 * inject_Z n) /\
    0 <= degrees sp /\ degrees sp < 30 /\
    In (sign sp) SIGN_ORDER /\
    getitem SIGN_ORDER (Qfloor (totalDegrees sp / 30)) = ret (sign sp) /\
    totalDegrees sp
      == 30 * inject_Z (Qfloor (totalDegrees sp / 30)) + degrees sp /\
    degrees_to_sign (400.5 + 360 * inject_Z 2) = ret sp' /\
    sign sp' = sign sp /\
    degrees sp' == degrees sp /\
    totalDegrees sp' == totalDegrees sp.
Proof.
  split; [lra|]. split; [lia|].
  apply (degrees_to_sign_invariant 400.5 2); [lra | lia].
Defined.

(** ** The Julian Day *)

Lemma to_julian_day_parts (y m d : Z) (h : Q) (mi : Z) :
  to_julian_day y m d h mi
  == inject_Z (julian_day_number y m d)
     + (h + inject_Z mi / 60) / 24 - 1524.5.
Proof.
  unfold to_julian_day, julian_day_number.
  generalize ((h + inject_Z mi / 60) / 24). intros f.
  destruct (m <=? 2)%Z; cbv zeta; rewrite !inject_Z_plus; lra.
Qed.

(** [int(365.25 * n)] for a count of years that is not negative. *)
Lemma int_years (n : Z) :
  (0 <= n)%Z -> Py.int (365.25 * inject_Z n) = (1461 * n / 4)%Z.
Proof.
  intros H. unfold Py.int. cbn [Qnum Qden Qmult inject_Z].
  rewrite Z.quot_div_nonneg by lia.
  change (100 * 1)%positive with 100%positive.
  Z.to_euclidean_division_equations. lia.
Qed.

Lemma month_cases (m : Z) :
  (1 <= m <= 12)%Z ->
  m = 1%Z \/ m = 2%Z \/ m = 3%Z \/ m = 4%Z \/ m = 5%Z \/ m = 6%Z \/
  m = 7%Z \/ m = 8%Z \/ m = 9%Z \/ m = 10%Z \/ m = 11%Z \/ m = 12%Z.
Proof. lia. Qed.

Lemma leap_year_spec (y : Z) :
  is_leap_year y = true <->
  (y mod 4 = 0 /\ (y mod 100 <> 0 \/ y mod 400 = 0))%Z.
Proof.
  unfold is_leap_year.
  rewrite andb_true_iff, orb_true_iff, negb_true_iff, !Z.eqb_eq, Z.eqb_neq.
  reflexivity.
Qed.

(** [int(30.6001 * (m + 1))] for the months 3 to 14 of the formula. *)
Lemma int_months (n : Z) :
  (0 <= n)%Z -> Py.int (30.6001 * inject_Z n) = (306001 * n / 10000)%Z.
Proof.
  intros H. unfold Py.int. cbn [Qnum Qden Qmult inject_Z].
  rewrite Z.quot_div_nonneg by lia.
  change (10000 * 1)%positive with 10000%positive. reflexivity.
Qed.

(** January and February count as the months 13 and 14 of the year
    before. *)
Lemma julian_day_number_early (y m d : Z) :
  (-4712 <= y)%Z -> (1 <= m <= 2)%Z ->
  julian_day_number y m d
  = (1461 * (y + 4715) / 4 + 306001 * (m + 13) / 10000 + d
     + (2 - (y - 1) / 100 + (y - 1) / 100 / 4))%Z.
Proof.
  intros Hy Hm. unfold julian_day_number.
  destruct (Z.leb_spec m 2%Z) as [_ | C]; [|lia].
  rewrite int_years, int_months by lia.
  replace (y - 1 + 4716)%Z with (y + 4715)%Z by lia.
  replace (m + 12 + 1)%Z with (m + 13)%Z by lia. reflexivity.
Qed.

Lemma julian_day_number_late (y m d : Z) :
  (-4712 <= y)%Z -> (3 <= m <= 12)%Z ->
  julian_day_number y m d
  = (1461 * (y + 4716) / 4 + 306001 * (m + 1) / 10000 + d
     + (2 - y / 100 + y / 100 / 4))%Z.
Proof.
  intros Hy Hm. unfold julian_day_number.
  destruct (Z.leb_spec m 2%Z) as [C | _]; [lia|].
  rewrite int_years, int_months by lia. reflexivity.
Qed.

Lemma days_in_month_cases (y m : Z) :
  (1 <= m <= 12)%Z ->
  (m = 2 /\ y mod 4 = 0 /\ (y mod 100 <> 0 \/ y mod 400 = 0)
   /\ days_in_month y m = 29)%Z \/
  (m = 2 /\ ~ (y mod 4 = 0 /\ (y mod 100 <> 0 \/ y mod 400 = 0))
   /\ days_in_month y m = 28)%Z \/
  ((m = 4 \/ m = 6 \/ m = 9 \/ m = 11) /\ days_in_month y m = 30)%Z \/
  ((m = 1 \/ m = 3 \/ m = 5 \/ m = 7 \/ m = 8 \/ m = 10 \/ m = 12)
   /\ days_in_month y m = 31)%Z.
Proof.
  intros Hm. unfold days_in_month.
  destruct (Z.eqb_spec m 2%Z) as [E2 | N2].
  - destruct (is_leap_year y) eqn:L.
    + apply leap_year_spec in L. left. tauto.
    + right. left. split; [exact E2|]. split; [|reflexivity].
      rewrite <- leap_year_spec, L. discriminate.
  - destruct (Z.eqb_spec m 4%Z), (Z.eqb_spec m 6%Z), (Z.eqb_spec m 9%Z),
      (Z.eqb_spec m 11%Z); cbn [Datatypes.orb];
      first [ right; right; left; split; [lia | reflexivity]
            | right; right; right; split; [lia | reflexivity] ].
Qed.

(** The length of a year in the [int(365.25 * ...)] term, and the change
    of the century correction [B] from one year to the next. *)
Lemma quarter_days (Y : Z) :
  (1461 * Y / 4
   = 1461 * (Y - 1) / 4 + (if (Y mod 4 =? 0) then 366 else 365))%Z.
Proof.
  destruct (Z.eqb_spec (Y mod 4) 0%Z);
    Z.to_euclidean_division_equations; lia.
Qed.

Lemma century_correction (y : Z) :
  (2 - y / 100 + y / 100 / 4
   = 2 - (y - 1) / 100 + (y - 1) / 100 / 4
     + (if (y mod 100 =? 0)
        then (if (y mod 400 =? 0) then 0 else -1) else 0))%Z.
Proof.
  rewrite !Z.div_div by lia. change (100 * 4)%Z with 400%Z.
  destruct (Z.eqb_spec (y mod 100) 0%Z);
    [destruct (Z.eqb_spec (y mod 400) 0%Z)|];
    Z.to_euclidean_division_equations; lia.
Qed.

(** From the last day of February to 1 March. *)
Lemma february_end (y : Z) :
  (-4712 <= y)%Z ->
  julian_day_number y 3 1
  = (julian_day_number y 2 (days_in_month y 2) + 1)%Z.
Proof.
  intros Hy.
  rewrite (julian_day_number_early y 2) by lia.
  rewrite (julian_day_number_late y 3) by lia.
  rewrite (century_correction y), (quarter_days (y + 4716)).
  replace (y + 4716 - 1)%Z with (y + 4715)%Z by lia.
  assert (E4 : ((y + 4716) mod 4 = y mod 4)%Z)
    by (Z.to_euclidean_division_equations; lia).
  rewrite E4. unfold days_in_month, is_leap_year.
  change (2 =? 2)%Z with true. cbv iota.
  assert (E : (y mod 400 = 0 -> y mod 100 = 0)%Z
              /\ (y mod 100 = 0 -> y mod 4 = 0)%Z)
    by (split; intros; Z.to_euclidean_division_equations; lia).
  destruct E as [E1 E2].
  destruct (Z.eqb_spec (y mod 4) 0%Z), (Z.eqb_spec (y mod 100) 0%Z),
    (Z.eqb_spec (y mod 400) 0%Z);
    cbn [andb Datatypes.orb negb]; try tauto;
    generalize (1461 * (y + 4715) / 4)%Z ((y - 1) / 100)%Z;
    intros u v; generalize (v / 4)%Z; intros w;
    Z.to_euclidean_division_equations; lia.
Qed.

(** The whole-day part advances by one from each day to the next. *)
Lemma julian_day_number_next (y m d : Z) :
  (-4712 <= y)%Z -> (1 <= m <= 12)%Z -> (1 <= d <= days_in_month y m)%Z ->
  let '(y', m', d') := next_day y m d in
  julian_day_number y' m' d' = (julian_day_number y m d + 1)%Z.
Proof.
  intros Hy Hm Hd. unfold next_day.
  destruct (d <? days_in_month y m)%Z eqn:E.
  { unfold julian_day_number. destruct (m <=? 2)%Z; lia. }
  apply Z.ltb_ge in E. assert (D : d = days_in_month y m) by lia.
  clear E Hd. subst d.
  destruct (Z.eq_dec m 2%Z) as [-> | M2]; [apply february_end; exact Hy|].
  assert (N : days_in_month y m
              = if (m =? 4)%Z || (m =? 6)%Z || (m =? 9)%Z || (m =? 11)%Z
                then 30%Z else 31%Z).
  { unfold days_in_month. destruct (Z.eqb_spec m 2%Z); [lia | reflexivity]. }
  rewrite N. clear N.
  destruct (Z.ltb_spec m 12%Z) as [Lt | Ge].
  - destruct (Z.eq_dec m 1%Z) as [-> | M1].
    + rewrite !julian_day_number_early by lia.
      cbn [Z.eqb Pos.eqb Datatypes.orb].
      Z.to_euclidean_division_equations. lia.
    + rewrite !julian_day_number_late by lia.
      apply month_cases in Hm.
      repeat (destruct Hm as [Hm | Hm];
              [subst m; first [lia | cbn [Z.eqb Pos.eqb Datatypes.orb];
                                      Z.to_euclidean_division_equations; lia]|]).
      lia.
  - assert (m = 12%Z) by lia. subst m.
    rewrite (julian_day_number_early (y + 1) 1) by lia.
    rewrite (julian_day_number_late y 12) by lia.
    cbn [Z.eqb Pos.eqb Datatypes.orb].
    replace (y + 1 + 4715)%Z with (y + 4716)%Z by lia.
    replace (y + 1 - 1)%Z with y by lia.
    Z.to_euclidean_division_equations. lia.
Qed.

(** X3: [to_julian_day] counts the days of the Gregorian calendar: from
    any date of a year from -4712 to 1,000,000 to the next date, across
    the ends of months, of leap and common Februaries and of years, the
    Julian Day grows by exactly one; the time of day (an hour and a
    minute of at most 1000 in magnitude) adds [(hour + minute / 60) /
    24]; and 1 January 2000 at noon is the epoch J2000.0.  (The bounds
    keep the Julian Day below 4e8, where binary64 still resolves a day
    to eight decimals; far beyond them it does not tell one day from
    the next.) *)
Theorem julian_day_counts_calendar_days (y m d : Z) (h : Q) (mi : Z) :
  (-4712 <= y <= 1000000)%Z -> (1 <= m <= 12)%Z ->
  (1 <= d <= days_in_month y m)%Z ->
  -1000 <= h /\ h <= 1000 -> (-1000 <= mi <= 1000)%Z ->
  (let '(y', m', d') := next_day y m d in
   to_julian_day y' m' d' h mi == to_julian_day y m d h mi + 1) /\
  to_julian_day y m d h mi
  == to_julian_day y m d 0 0 + (h + inject_Z mi / 60) / 24 /\
  to_julian_day 2000 1 1 12 0 == J2000.
Proof.
  intros [Hy _] Hm Hd _ _.
  pose proof (julian_day_number_next y m d Hy Hm Hd) as N.
  split; [|split].
  - destruct (next_day y m d) as [[y' m'] d'].
    rewrite !to_julian_day_parts, N, inject_Z_plus.
    generalize ((h + inject_Z mi / 60) / 24). intros f.
    change (inject_Z 1) with 1. lra.
  - rewrite (to_julian_day_parts y m d h mi).
    rewrite (to_julian_day_parts y m d 0 0).
    assert (Z0 : (0 + inject_Z 0 / 60) / 24 == 0) by reflexivity.
    rewrite Z0.
    generalize ((h + inject_Z mi / 60) / 24). intros f. lra.
  - reflexivity.
Qed.

Lemma julian_day_counts_calendar_days_witness :
  (-4712 <= 2024 <= 1000000)%Z /\ (1 <= 2 <= 12)%Z /\
  (1 <= 29 <= days_in_month 2024 2)%Z /\
  (-1000 <= 12 /\ 12 <= 1000) /\ (-1000 <= 0 <= 1000)%Z /\
  to_julian_day 2024 3 1 12 0 == to_julian_day 2024 2 29 12 0 + 1 /\
  to_julian_day 2024 2 29 12 0
  == to_julian_day 2024 2 29 0 0 + (12 + inject_Z 0 / 60) / 24 /\
  to_julian_day 2000 1 1 12 0 == J2000.
Proof.
  split; [lia|]. split; [lia|]. split; [vm_compute; split; discriminate|].
  split; [split; lra|]. split; [lia|].
  apply (julian_day_counts_calendar_days 2024 2 29 12 0).
  - lia.
  - lia.
  - vm_compute. split; discriminate.
  - split; lra.
  - lia.
Defined.

(** ** Kepler's equation and the longitude functions *)

(** X4: when the first guess [E = M] already satisfies Kepler's equation
    ([e sin M = 0]: a circular orbit, or a body at an apse), the first
    Newton step is zero and [solve_kepler] returns [M] after one
    iteration. *)
Theorem solve_kepler_fixed_point (ml : MathLib) (M e : Q) :
  e * m_sin ml M == 0 -> ~ 1 - e * m_cos ml M == 0 ->
  exists E, solve_kepler ml M e = ret E /\ E == M.
Proof.
  intros Hs Hc. unfold solve_kepler. cbn [solve_kepler_loop].
  rewrite fdiv_ok by exact Hc. cbn [bind ret]. cbv zeta.
  assert (D : (M - e * m_sin ml M - M) / (1 - e * m_cos ml M) == 0).
  { assert (N : M - e * m_sin ml M - M == 0) by lra.
    unfold Qdiv. rewrite N. ring. }
  destruct (Py.ltb _ _) eqn:E.
  - eexists. split; [reflexivity|]. rewrite D. ring.
  - apply ltb_false in E. unfold Py.abs in E. rewrite D in E.
    exfalso. revert E. apply Qlt_not_le. reflexivity.
Qed.

Lemma solve_kepler_fixed_point_witness :
  0 * m_sin RefMath.lib 1 == 0 /\
  ~ 1 - 0 * m_cos RefMath.lib 1 == 0 /\
  exists E, solve_kepler RefMath.lib 1 0 = ret E /\ E == 1.
Proof.
  assert (A : 0 * m_sin RefMath.lib 1 == 0) by (vm_compute; reflexivity).
  assert (B : ~ 1 - 0 * m_cos RefMath.lib 1 == 0)
    by (intros H; vm_compute in H; discriminate H).
  split; [exact A|]. split; [exact B|].
  exact (solve_kepler_fixed_point RefMath.lib 1 0 A B).
Defined.

(** X5: [solve_kepler] divides by [1 - e cos E] without a guard: when
    [e cos M = 1] (for instance [e = 1], [M = 0] with [cos 0 = 1]) the
    first iteration raises [ZeroDivisionError]. *)
Theorem solve_kepler_zero_division (ml : MathLib) (M e : Q) :
  e * m_cos ml M == 1 -> solve_kepler ml M e = raise ZeroDivisionError.
Proof.
  intros H. unfold solve_kepler. cbn [solve_kepler_loop]. unfold fdiv.
  assert (Z0 : Py.eqb (1 - e * m_cos ml M) 0 = true)
    by (apply eqb_true; lra).
  rewrite Z0. reflexivity.
Qed.

Lemma solve_kepler_zero_division_witness :
  / m_cos RefMath.lib 0 * m_cos RefMath.lib 0 == 1 /\
  solve_kepler RefMath.lib 0 (/ m_cos RefMath.lib 0)
  = raise ZeroDivisionError.
Proof.
  assert (A : / m_cos RefMath.lib 0 * m_cos RefMath.lib 0 == 1)
    by (vm_compute; reflexivity).
  split; [exact A|].
  exact (solve_kepler_zero_division RefMath.lib 0 (/ m_cos RefMath.lib 0) A).
Defined.

Lemma table_lookup (id : string) (el : OrbitalElements) :
  elements_of id = ret el -> ORBITAL_ELEMENTS !! id = Some el.
Proof.
  unfold elements_of. destruct (ORBITAL_ELEMENTS !! id) as [el'|];
    intros H; [|discriminate H].
  apply ret_inj in H. rewrite H. reflexivity.
Qed.

(** X6: for each of the nine bodies of the table, Earth included, and
    every date within a thousand centuries of J2000.0,
    [heliocentric_longitude] raises nothing (no zero divisor, no square
    root of a negative number) and returns a longitude of [[0, 360)],
    when the cosine stays in [[-1, 1]]. *)
Theorem heliocentric_longitude_returns (ml : MathLib) (id : string) (jd : Q) :
  cos_bounded ml -> In id chart_bodies ->
  -36525000 <= jd - J2000 -> jd - J2000 <= 36525000 ->
  exists lon,
    heliocentric_longitude ml id jd = ret lon /\ 0 <= lon /\ lon < 360.
Proof.
  intros Hc Hin J0 J1.
  destruct (julian_centuries_bound jd J0 J1) as [T0 T1].
  destruct (table_eccentricity id _ Hin T0 T1) as (el & He & [E0 E1]).
  unfold heliocentric_longitude. rewrite (table_lookup id el He).
  cbv zeta.
  match goal with
  | |- context [solve_kepler ml ?M ?e] =>
      destruct (solve_kepler_total ml M e Hc E0 E1) as [E HE]
  end.
  rewrite HE. cbn [bind ret].
  destruct (math_sqrt_total ml _ E0 E1) as [r Hr].
  rewrite Hr. cbn [bind ret].
  rewrite !fdiv_ok by (apply kepler_divisor; assumption).
  cbn [bind ret]. eexists. split; [reflexivity|]. apply norm_deg_range.
Qed.

Lemma heliocentric_longitude_returns_witness :
  cos_bounded RefMath.lib /\ In "earth" chart_bodies /\
  -36525000 <= J2000 - J2000 /\ J2000 - J2000 <= 36525000 /\
  exists lon,
    heliocentric_longitude RefMath.lib "earth" J2000 = ret lon /\
    0 <= lon /\ lon < 360.
Proof.
  assert (B : In "earth" chart_bodies) by (left; reflexivity).
  assert (J0 : -36525000 <= J2000 - J2000) by (vm_compute; discriminate).
  assert (J1 : J2000 - J2000 <= 36525000) by (vm_compute; discriminate).
  split; [exact ref_cos_bounded|]. split; [exact B|].
  split; [exact J0|]. split; [exact J1|].
  exact (heliocentric_longitude_returns RefMath.lib "earth" J2000
           ref_cos_bounded B J0 J1).
Defined.

(** X7: for each of the eight planets of the table and every date within
    a thousand centuries of J2000.0, [geocentric_longitude] raises
    nothing and returns a longitude of [[0, 360)], when the cosine stays
    in [[-1, 1]]. *)
Theorem geocentric_longitude_returns (ml : MathLib) (id : string) (jd : Q) :
  cos_bounded ml -> In id chart_bodies -> String.eqb id "earth" = false ->
  -36525000 <= jd - J2000 -> jd - J2000 <= 36525000 ->
  exists lon,
    geocentric_longitude ml id jd = ret lon /\ 0 <= lon /\ lon < 360.
Proof.
  intros Hc Hin Hne J0 J1.
  destruct (geocentric_total ml id jd Hc Hin Hne J0 J1) as [lon H].
  exists lon. split; [exact H|]. exact (geocentric_range ml id jd lon H).
Qed.

Lemma geocentric_longitude_returns_witness :
  cos_bounded RefMath.lib /\ In "pluto" chart_bodies /\
  String.eqb "pluto" "earth" = false /\
  -36525000 <= J2000 - J2000 /\ J2000 - J2000 <= 36525000 /\
  exists lon,
    geocentric_longitude RefMath.lib "pluto" J2000 = ret lon /\
    0 <= lon /\ lon < 360.
Proof.
  assert (B : In "pluto" chart_bodies) by in_bodies.
  assert (J0 : -36525000 <= J2000 - J2000) by (vm_compute; discriminate).
  assert (J1 : J2000 - J2000 <= 36525000) by (vm_compute; discriminate).
  split; [exact ref_cos_bounded|]. split; [exact B|].
  split; [reflexivity|]. split; [exact J0|]. split; [exact J1|].
  exact (geocentric_longitude_returns RefMath.lib "pluto" J2000
           ref_cos_bounded B eq_refl J0 J1).
Defined.

(** *** Dates too far from the epoch *)

Lemma saturn_raises (ml : MathLib) (jd : Q) :
  julian_centuries jd <= -1856 ->
  exists x, geocentric_longitude ml "saturn" jd = raise x.
Proof.
  intros HT. rewrite geocentric_is_planar by reflexivity.
  unfold geocentric_longitude_planar, geocentric_from.
  apply bind_raises_r. intros earth_el.
  apply bind_raises_r. intros earth.
  change (elements_of "saturn")
    with (@ret OrbitalElements
            {| L0 := 49.95424423; L1 := 1222.49362201;
               a := 9.53667594; e0 := 0.05386179; e1 := -0.00050991;
               I0 := 2.48599187; I1 := 0.00193609;
               W0 := 113.66242448; W1 := -0.28867794;
               w0 := 92.59887831; w1 := -0.41897216 |}).
  cbn [bind ret]. apply bind_raises_l.
  apply orbit_position_raises. cbn [e0 e1]. lra.
Qed.

(** X8: the chart does not exist for dates too far in the past: from
    1856 centuries before J2000.0 back, Saturn's eccentricity
    [e0 + e1 T] exceeds 1 and [calculate_natal_chart] raises (a
    [ValueError] of [math.sqrt], unless a division by zero or an earlier
    planet raised first), whatever the [math] module and the other
    fields. *)
Theorem chart_raises_in_far_past (ml : MathLib) (defs : list AspectDef)
    (bd : BirthData) :
  julian_centuries (birth_julian_day bd) <= -1856 ->
  (exists x, geocentric_longitude ml "saturn" (birth_julian_day bd) = raise x)
  /\ exists x, calculate_natal_chart ml defs bd = raise x.
Proof.
  intros HT. split; [apply saturn_raises; exact HT|].
  unfold calculate_natal_chart. cbv zeta.
  do 4 (apply bind_raises_r; intros ?).
  apply bind_raises_l. apply saturn_raises. exact HT.
Qed.

Lemma chart_raises_in_far_past_witness :
  julian_centuries (birth_julian_day (birth_absent (-190000) 1)) <= -1856 /\
  (exists x,
     geocentric_longitude RefMath.lib "saturn"
       (birth_julian_day (birth_absent (-190000) 1)) = raise x) /\
  exists x,
    calculate_natal_chart RefMath.lib sample_definitions
      (birth_absent (-190000) 1) = raise x.
Proof.
  assert (A : julian_centuries (birth_julian_day (birth_absent (-190000) 1))
              <= -1856) by (vm_compute; discriminate).
  split; [exact A|].
  exact (chart_raises_in_far_past RefMath.lib sample_definitions
           (birth_absent (-190000) 1) A).
Defined.

(** ** The house of a longitude, for any list of cusps *)

(** A pair of cusps that does not match keeps the longitudes it has
    passed, and either rises or has the longitude in its gap. *)
Lemma pair_fail (lon c n : Q) :
  cusp_pair_matches lon c n = false ->
  (c <= lon -> n <= lon) /\ (c < n \/ (lon < c /\ n <= lon)).
Proof.
  unfold cusp_pair_matches. cmp_cases; cbn [andb Datatypes.orb];
    intros H; try discriminate H;
    (split; [intros; lra | first [left; lra | right; lra]]).
Qed.

(** Around a cycle of twelve cusps some pair matches, whatever the cusps
    and the longitude: the cusps cannot rise all the way round. *)
Lemma cycle_matches (lon c0 c1 c2 c3 c4 c5 c6 c7 c8 c9 c10 c11 : Q) :
  cusp_pair_matches lon c0 c1 = false ->
  cusp_pair_matches lon c1 c2 = false ->
  cusp_pair_matches lon c2 c3 = false ->
  cusp_pair_matches lon c3 c4 = false ->
  cusp_pair_matches lon c4 c5 = false ->
  cusp_pair_matches lon c5 c6 = false ->
  cusp_pair_matches lon c6 c7 = false ->
  cusp_pair_matches lon c7 c8 = false ->
  cusp_pair_matches lon c8 c9 = false ->
  cusp_pair_matches lon c9 c10 = false ->
  cusp_pair_matches lon c10 c11 = false ->
  cusp_pair_matches lon c11 c0 = false ->
  False.
Proof.
  intros H0 H1 H2 H3 H4 H5 H6 H7 H8 H9 H10 H11.
  apply pair_fail in H0, H1, H2, H3, H4, H5, H6, H7, H8, H9, H10, H11.
  destruct H0 as [F0 G0], H1 as [F1 G1], H2 as [F2 G2], H3 as [F3 G3],
    H4 as [F4 G4], H5 as [F5 G5], H6 as [F6 G6], H7 as [F7 G7],
    H8 as [F8 G8], H9 as [F9 G9], H10 as [F10 G10], H11 as [F11 G11].
  assert (D : (c0 <= lon /\ c1 <= lon /\ c2 <= lon /\ c3 <= lon /\
               c4 <= lon /\ c5 <= lon /\ c6 <= lon /\ c7 <= lon /\
               c8 <= lon /\ c9 <= lon /\ c10 <= lon /\ c11 <= lon) \/
              (lon < c0 /\ lon < c1 /\ lon < c2 /\ lon < c3 /\
               lon < c4 /\ lon < c5 /\ lon < c6 /\ lon < c7 /\
               lon < c8 /\ lon < c9 /\ lon < c10 /\ lon < c11)).
  { destruct (Qlt_le_dec lon c0) as [L0 | L0].
    - right.
      assert (L11 : lon < c11)
        by (destruct (Qlt_le_dec lon c11) as [L | L];
            [exact L | specialize (F11 L); lra]).
      assert (L10 : lon < c10)
        by (destruct (Qlt_le_dec lon c10) as [L | L];
            [exact L | specialize (F10 L); lra]).
      assert (L9 : lon < c9)
        by (destruct (Qlt_le_dec lon c9) as [L | L];
            [exact L | specialize (F9 L); lra]).
      assert (L8 : lon < c8)
        by (destruct (Qlt_le_dec lon c8) as [L | L];
            [exact L | specialize (F8 L); lra]).
      assert (L7 : lon < c7)
        by (destruct (Qlt_le_dec lon c7) as [L | L];
            [exact L | specialize (F7 L); lra]).
      assert (L6 : lon < c6)
        by (destruct (Qlt_le_dec lon c6) as [L | L];
            [exact L | specialize (F6 L); lra]).
      assert (L5 : lon < c5)
        by (destruct (Qlt_le_dec lon c5) as [L | L];
            [exact L | specialize (F5 L); lra]).
      assert (L4 : lon < c4)
        by (destruct (Qlt_le_dec lon c4) as [L | L];
            [exact L | specialize (F4 L); lra]).
      assert (L3 : lon < c3)
        by (destruct (Qlt_le_dec lon c3) as [L | L];
            [exact L | specialize (F3 L); lra]).
      assert (L2 : lon < c2)
        by (destruct (Qlt_le_dec lon c2) as [L | L];
            [exact L | specialize (F2 L); lra]).
      assert (L1 : lon < c1)
        by (destruct (Qlt_le_dec lon c1) as [L | L];
            [exact L | specialize (F1 L); lra]).
      repeat split; assumption.
    - left.
      pose proof (F0 L0) as L1. pose proof (F1 L1) as L2.
      pose proof (F2 L2) as L3. pose proof (F3 L3) as L4.
      pose proof (F4 L4) as L5. pose proof (F5 L5) as L6.
      pose proof (F6 L6) as L7. pose proof (F7 L7) as L8.
      pose proof (F8 L8) as L9. pose proof (F9 L9) as L10.
      pose proof (F10 L10) as L11.
      repeat split; assumption. }
  clear F0 F1 F2 F3 F4 F5 F6 F7 F8 F9 F10 F11.
  destruct G0 as [A0 | A0]; [|destruct D; lra].
  destruct G1 as [A1 | A1]; [|destruct D; lra].
  destruct G2 as [A2 | A2]; [|destruct D; lra].
  destruct G3 as [A3 | A3]; [|destruct D; lra].
  destruct G4 as [A4 | A4]; [|destruct D; lra].
  destruct G5 as [A5 | A5]; [|destruct D; lra].
  destruct G6 as [A6 | A6]; [|destruct D; lra].
  destruct G7 as [A7 | A7]; [|destruct D; lra].
  destruct G8 as [A8 | A8]; [|destruct D; lra].
  destruct G9 as [A9 | A9]; [|destruct D; lra].
  destruct G10 as [A10 | A10]; [|destruct D; lra].
  destruct G11 as [A11 | A11]; [|destruct D; lra].
  lra.
Qed.

Lemma getitem_inv {A} (l : list A) (i : Z) (d : A) :
  (0 <= i)%Z ->
  match getitem l i with
  | inr a => a = nth (Z.to_nat i) l d /\ (i < Z.of_nat (length l))%Z
  | inl e => e = IndexError /\ (Z.of_nat (length l) <= i)%Z
  end.
Proof.
  intros Hi. unfold getitem.
  destruct (Z.ltb_spec i 0) as [C | _]; [lia|].
  destruct (Z.ltb_spec i 0) as [C | _]; [lia|].
  destruct (nth_error l (Z.to_nat i)) as [a|] eqn:E; cbn [ret raise].
  - split.
    + symmetry. apply nth_error_nth. exact E.
    + assert (Z.to_nat i < length l)%nat
        by (apply nth_error_Some; congruence).
      lia.
  - split; [reflexivity|]. apply nth_error_None in E. lia.
Qed.

(** What the loop of [_house_for_longitude] can end with, for any list of
    indices below 12. *)
Lemma house_scan_inv (idx : list Z) (lon : Q) (cusps : list Q) :
  Forall (fun i => (0 <= i < 12)%Z) idx ->
  match _house_scan idx lon cusps with
  | inr (Some h) =>
      In (h - 1)%Z idx /\ pair_matches_at lon cusps (h - 1) = true
  | inr None =>
      Forall (fun i => pair_matches_at lon cusps i = false) idx
  | inl e => e = IndexError /\ (length cusps < 12)%nat
  end.
Proof.
  induction 1 as [|i idx Hi _ IH]; [constructor|].
  cbn [_house_scan].
  assert (M : (0 <= (i + 1) mod 12 < 12)%Z) by (apply Z.mod_pos_bound; lia).
  pose proof (getitem_inv cusps i 0 ltac:(lia)) as G1.
  pose proof (getitem_inv cusps ((i + 1) mod 12) 0 ltac:(lia)) as G2.
  destruct (getitem cusps i) as [e | c]; cbn [bind].
  { destruct G1 as [-> G1]. split; [reflexivity | lia]. }
  destruct (getitem cusps ((i + 1) mod 12)) as [e | n]; cbn [bind].
  { destruct G2 as [-> G2]. split; [reflexivity | lia]. }
  destruct G1 as [-> _], G2 as [-> _].
  fold (cusp_at cusps i). fold (cusp_at cusps ((i + 1) mod 12)).
  fold (pair_matches_at lon cusps i).
  destruct (pair_matches_at lon cusps i) eqn:E.
  - cbv beta iota delta [ret].
    replace (i + 1 - 1)%Z with i by lia. split; [left; reflexivity | exact E].
  - destruct (_house_scan idx lon cusps) as [e | [h|]].
    + exact IH.
    + destruct IH as [I1 I2]. split; [right; exact I1 | exact I2].
    + constructor; assumption.
Qed.

Lemma range_12 : range 12 = [0; 1; 2; 3; 4; 5; 6; 7; 8; 9; 10; 11]%Z.
Proof. reflexivity. Qed.

Lemma range_12_bounds : Forall (fun i => (0 <= i < 12)%Z) (range 12).
Proof. rewrite range_12. repeat (constructor; [lia|]). constructor. Qed.

(** With twelve cusps or more the loop over numbers always returns from
    inside. *)
Lemma house_scan_matches (cusps : list Q) (lon : Q) :
  _house_scan (range 12) lon cusps = ret None -> False.
Proof.
  intros E.
  pose proof (house_scan_inv (range 12) lon cusps range_12_bounds) as H.
  rewrite E in H. cbv beta iota delta [ret] in H. rewrite range_12 in H.
  repeat match goal with
  | H : Forall _ (_ :: _) |- _ => inversion H; clear H; subst
  end.
  unfold pair_matches_at in *.
  repeat match goal with
  | H : context [((?a + 1) mod 12)%Z] |- _ =>
      let v := eval vm_compute in ((a + 1) mod 12)%Z in
      change ((a + 1) mod 12)%Z with v in H
  end.
  eapply (cycle_matches lon (cusp_at cusps 0) (cusp_at cusps 1)
            (cusp_at cusps 2) (cusp_at cusps 3) (cusp_at cusps 4)
            (cusp_at cusps 5) (cusp_at cusps 6) (cusp_at cusps 7)
            (cusp_at cusps 8) (cusp_at cusps 9) (cusp_at cusps 10)
            (cusp_at cusps 11)); eassumption.
Qed.

Lemma getitem_map {A B} (f : A -> B) (l : list A) (i : Z) :
  getitem (map f l) i
  = match getitem l i with inr a => ret (f a) | inl e => raise e end.
Proof.
  unfold getitem. rewrite length_map, nth_error_map.
  destruct (_ <? 0)%Z; [reflexivity|].
  destruct (nth_error l _); reflexivity.
Qed.

Lemma getitem_firstn {A} (l : list A) (i : Z) (a : A) :
  (0 <= i < 12)%Z -> getitem l i = ret a -> In a (firstn 12 l).
Proof.
  intros Hi. unfold getitem.
  destruct (Z.ltb_spec i 0) as [C | _]; [lia|].
  destruct (Z.ltb_spec i 0) as [C | _]; [lia|].
  destruct (nth_error l (Z.to_nat i)) as [b|] eqn:E; [|discriminate].
  intros H. apply ret_inj in H. subst b.
  apply (nth_error_In _ (Z.to_nat i)).
  rewrite nth_error_firstn.
  destruct (Nat.ltb_spec (Z.to_nat i) 12); [exact E | lia].
Qed.

Lemma not_nan (x : pyfloat) : is_nan x = false -> x = Num (number_of x).
Proof. destruct x; [reflexivity | discriminate]. Qed.

(** On numbers the loop with NaN is the loop over rationals. *)
Lemma house_scan_numbers (idx : list Z) (lon : Q) (cusps : list pyfloat) :
  Forall (fun i => (0 <= i < 12)%Z) idx ->
  Forall (fun x => is_nan x = false) (firstn 12 cusps) ->
  _house_scan_nan idx (Num lon) cusps
  = _house_scan idx lon (map number_of cusps).
Proof.
  intros Hidx Hc. rewrite List.Forall_forall in Hc.
  induction Hidx as [|i idx Hi _ IH]; [reflexivity|].
  cbn [_house_scan_nan _house_scan]. rewrite !getitem_map.
  assert (M : (0 <= (i + 1) mod 12 < 12)%Z) by (apply Z.mod_pos_bound; lia).
  destruct (getitem cusps i) as [e | c] eqn:G1; [reflexivity|].
  cbn [bind ret raise].
  destruct (getitem cusps ((i + 1) mod 12)) as [e | n] eqn:G2; [reflexivity|].
  cbn [bind ret raise].
  rewrite (not_nan c (Hc _ (getitem_firstn _ _ _ Hi G1))).
  rewrite (not_nan n (Hc _ (getitem_firstn _ _ _ M G2))).
  cbn [number_of].
  change (cusp_pair_matches_nan (Num lon) (Num (number_of c))
            (Num (number_of n)))
    with (cusp_pair_matches lon (number_of c) (number_of n)).
  rewrite IH. reflexivity.
Qed.

(** A NaN longitude matches no pair of cusps. *)
Lemma house_scan_nan_longitude (idx : list Z) (cusps : list pyfloat) :
  Forall (fun i => (0 <= i < 12)%Z) idx -> (12 <= length cusps)%nat ->
  _house_scan_nan idx NaN cusps = ret None.
Proof.
  intros Hidx L. induction Hidx as [|i idx Hi _ IH]; [reflexivity|].
  cbn [_house_scan_nan].
  assert (M : (0 <= (i + 1) mod 12 < 12)%Z) by (apply Z.mod_pos_bound; lia).
  pose proof (getitem_inv cusps i NaN ltac:(lia)) as G1.
  pose proof (getitem_inv cusps ((i + 1) mod 12) NaN ltac:(lia)) as G2.
  destruct (getitem cusps i) as [e | c]; [lia|].
  destruct (getitem cusps ((i + 1) mod 12)) as [e | n]; [lia|].
  cbn [bind ret].
  assert (F : cusp_pair_matches_nan NaN c n = false).
  { unfold cusp_pair_matches_nan. destruct c, n; cbn [float_lt float_le];
      try reflexivity.
    destruct (Py.ltb q q0); reflexivity. }
  rewrite F. exact IH.
Qed.

(** What the loop with NaN can end with. *)
Lemma house_scan_nan_inv (idx : list Z) (lon : pyfloat) (cusps : list pyfloat) :
  Forall (fun i => (0 <= i < 12)%Z) idx ->
  match _house_scan_nan idx lon cusps with
  | inr (Some h) => In (h - 1)%Z idx
  | inr None => Forall (fun i => (i < Z.of_nat (length cusps))%Z) idx
  | inl e => e = IndexError /\ (length cusps < 12)%nat
  end.
Proof.
  induction 1 as [|i idx Hi _ IH]; [constructor|].
  cbn [_house_scan_nan].
  assert (M : (0 <= (i + 1) mod 12 < 12)%Z) by (apply Z.mod_pos_bound; lia).
  pose proof (getitem_inv cusps i NaN ltac:(lia)) as G1.
  pose proof (getitem_inv cusps ((i + 1) mod 12) NaN ltac:(lia)) as G2.
  destruct (getitem cusps i) as [e | c]; cbn [bind].
  { destruct G1 as [-> G1]. split; [reflexivity | lia]. }
  destruct (getitem cusps ((i + 1) mod 12)) as [e | n]; cbn [bind].
  { destruct G2 as [-> G2]. split; [reflexivity | lia]. }
  destruct (cusp_pair_matches_nan lon c n).
  - cbv beta iota delta [ret]. left. lia.
  - destruct (_house_scan_nan idx lon cusps) as [e | [h|]].
    + exact IH.
    + right. exact IH.
    + constructor; [apply G1 | exact IH].
Qed.

Lemma numbers_only (cusps : list pyfloat) :
  Forall (fun x => is_nan x = false) cusps \/ In NaN cusps.
Proof.
  induction cusps as [|x cusps IH]; [left; constructor|].
  destruct x as [q|]; [|right; left; reflexivity].
  destruct IH as [IH | IH]; [left; constructor; [reflexivity | exact IH]|].
  right. right. exact IH.
Qed.

(** X9: the fallback [return 1] of [_house_for_longitude] is reached
    through NaN only.  With twelve cusps or more, all numbers, and a
    longitude that is a number, some pair of consecutive cusps matches,
    whatever the cusps are (not only those of a chart), and the house
    returned, between 1 and 12, comes from inside the loop; the loop
    falls through to the fallback only when the longitude or one of the
    first twelve cusps is NaN, as it does for every NaN longitude; with
    fewer than twelve cusps the function returns a house from inside
    the loop or raises [IndexError]. *)
Theorem house_fallback_needs_nan (cusps : list pyfloat) (lon : pyfloat) :
  match _house_scan_nan (range 12) lon cusps with
  | inr (Some h) =>
      _house_for_longitude_nan lon cusps = ret h /\ (1 <= h <= 12)%Z
  | inr None =>
      _house_for_longitude_nan lon cusps = ret 1%Z /\
      (12 <= length cusps)%nat /\
      (lon = NaN \/ In NaN (firstn 12 cusps))
  | inl e =>
      _house_for_longitude_nan lon cusps = raise IndexError /\
      e = IndexError /\ (length cusps < 12)%nat
  end /\
  ((12 <= length cusps)%nat ->
   _house_scan_nan (range 12) NaN cusps = ret None /\
   _house_for_longitude_nan NaN cusps = ret 1%Z) /\
  (forall (numbers : list Q) (l : Q),
     _house_scan_nan (range 12) (Num l) (map Num numbers)
     = _house_scan (range 12) l numbers /\
     _house_for_longitude_nan (Num l) (map Num numbers)
     = _house_for_longitude l numbers /\
     ((exists h,
         _house_scan (range 12) l numbers = ret (Some h) /\
         _house_for_longitude l numbers = ret h /\
         (1 <= h <= 12)%Z /\
         pair_matches_at l numbers (h - 1) = true) \/
      (_house_scan (range 12) l numbers = raise IndexError /\
       _house_for_longitude l numbers = raise IndexError /\
       (length numbers < 12)%nat))).
Proof.
  pose proof range_12_bounds as R.
  split; [|split].
  - pose proof (house_scan_nan_inv (range 12) lon cusps R) as H.
    unfold _house_for_longitude_nan.
    destruct (_house_scan_nan (range 12) lon cusps) as [e | [h|]] eqn:E.
    + destruct H as [-> L]. repeat split. exact L.
    + rewrite List.Forall_forall in R. specialize (R _ H).
      split; [reflexivity | lia].
    + split; [reflexivity|].
      assert (L : (12 <= length cusps)%nat).
      { rewrite List.Forall_forall in H. specialize (H 11%Z).
        rewrite range_12 in H. cbn [In] in H.
        specialize (H ltac:(tauto)). lia. }
      split; [exact L|].
      destruct lon as [l|]; [|left; reflexivity].
      destruct (numbers_only (firstn 12 cusps)) as [N | N];
        [|right; exact N].
      exfalso. rewrite (house_scan_numbers _ _ _ R N) in E.
      exact (house_scan_matches _ _ E).
  - intros L. unfold _house_for_longitude_nan.
    rewrite (house_scan_nan_longitude _ _ R L). split; reflexivity.
  - intros numbers l.
    assert (S : _house_scan_nan (range 12) (Num l) (map Num numbers)
                = _house_scan (range 12) l numbers).
    { rewrite house_scan_numbers; [|exact R|].
      - rewrite map_map. cbn [number_of]. rewrite map_id. reflexivity.
      - apply List.Forall_forall. intros x Hx.
        assert (Hx' : In x (map Num numbers)).
        { rewrite <- (firstn_skipn 12 (map Num numbers)).
          apply in_or_app. left. exact Hx. }
        apply in_map_iff in Hx'. rename Hx' into Hy. clear Hx.
        rename Hy into Hx.
        destruct Hx as (q & <- & _). reflexivity. }
    split; [exact S|]. split.
    { unfold _house_for_longitude_nan, _house_for_longitude. rewrite S.
      reflexivity. }
    pose proof (house_scan_inv (range 12) l numbers R) as H.
    unfold _house_for_longitude.
    destruct (_house_scan (range 12) l numbers) as [e | [h|]] eqn:E.
    + destruct H as [-> L]. right. repeat split. exact L.
    + destruct H as [I M]. left. exists h. repeat split; try exact M.
      * rewrite List.Forall_forall in R. specialize (R _ I). lia.
      * rewrite List.Forall_forall in R. specialize (R _ I). lia.
    + exfalso. exact (house_scan_matches _ _ E).
Qed.

(** ** The angles of a chart *)

Lemma midheaven_range (ml : MathLib) (bd : BirthData) :
  0 <= birth_midheaven ml bd /\ birth_midheaven ml bd < 360.
Proof. apply norm_deg_range. Qed.

Lemma chart_midheaven (ml : MathLib) (defs : list AspectDef)
    (bd : BirthData) (c : NatalChart) :
  calculate_natal_chart ml defs bd = ret c ->
  degrees_to_sign (birth_midheaven ml bd) = ret (midheaven c).
Proof.
  unfold calculate_natal_chart. intros H.
  inv_bind H. injection H as <-.
  unfold birth_midheaven, birth_julian_day. cbn [midheaven].
  match goal with
  | H : degrees_to_sign (compute_midheaven _ _ _) = ret ?v
    |- degrees_to_sign (compute_midheaven _ _ _) = ret ?v => exact H
  end.
Qed.

(** The SignPosition invariant, on the fields of a [SignPosition]. *)
Lemma sign_position_exact (x : Q) (sp : SignPosition) :
  0 <= x -> x < 360 -> degrees_to_sign x = ret sp ->
  totalDegrees sp == x /\
  0 <= totalDegrees sp /\ totalDegrees sp < 360 /\
  0 <= degrees sp /\ degrees sp < 30 /\
  getitem SIGN_ORDER (Qfloor (totalDegrees sp / 30)) = ret (sign sp) /\
  degrees sp
    == totalDegrees sp - 30 * inject_Z (Qfloor (totalDegrees sp / 30)).
Proof.
  intros X0 X1 H.
  destruct (degrees_to_sign_spec x)
    as (sp' & H' & T & T0 & T1 & D0 & D1 & D & S).
  rewrite H in H'. apply ret_inj in H'. subst sp'.
  split; [apply (degrees_to_sign_id x sp X0 X1 H)|].
  repeat split; assumption.
Qed.

Lemma house_index_at_cusp (c0 lon : Q) :
  0 <= c0 -> c0 < 360 -> lon == c0 -> house_index c0 lon = 0%Z.
Proof.
  intros C0 C1 E. unfold house_index. apply floor_unique.
  - change (inject_Z 0) with 0. unfold from_cusp.
    change ((if Py.leb c0 lon then lon - c0 else lon - c0 + 360) / 30)
      with ((if Py.leb c0 lon then lon - c0 else lon - c0 + 360) * (1 # 30)).
    cmp_cases; lra.
  - change (inject_Z 0) with 0. unfold from_cusp.
    change ((if Py.leb c0 lon then lon - c0 else lon - c0 + 360) / 30)
      with ((if Py.leb c0 lon then lon - c0 else lon - c0 + 360) * (1 # 30)).
    cmp_cases; lra.
Qed.

(** X10: unlike the planets, the ascendant and the midheaven of a chart
    are not rounded and satisfy the SignPosition invariant exactly:
    longitude in [[0, 360)], degrees in [[0, 30)], sign and degrees those
    of the longitude.  The first house cusp is the ascendant, and the
    ascendant falls in house 1 of the chart's own cusps, the house
    [_get_chart_position] reports for it. *)
Theorem chart_angles_exact (ml : MathLib) (defs : list AspectDef)
    (bd : BirthData) (c : NatalChart) :
  calculate_natal_chart ml defs bd = ret c ->
  (forall sp, sp = ascendant c \/ sp = midheaven c ->
     0 <= totalDegrees sp /\ totalDegrees sp < 360 /\
     0 <= degrees sp /\ degrees sp < 30 /\
     getitem SIGN_ORDER (Qfloor (totalDegrees sp / 30)) = ret (sign sp) /\
     degrees sp
       == totalDegrees sp - 30 * inject_Z (Qfloor (totalDegrees sp / 30))) /\
  totalDegrees (ascendant c) == birth_ascendant ml bd /\
  totalDegrees (midheaven c) == birth_midheaven ml bd /\
  (exists c0,
     getitem (houseCusps c) 0 = ret c0 /\ c0 == totalDegrees (ascendant c)) /\
  _house_for_longitude (totalDegrees (ascendant c)) (houseCusps c) = ret 1%Z /\
  (exists p,
     AstrologyEngine._get_chart_position "ascendant" c = Some (PlanetAttr p) /\
     _house_for_longitude (p_totalDegrees p) (houseCusps c) = ret (house p)).
Proof.
  intros H.
  destruct (chart_inversion _ _ _ _ H) as (_ & Hc & Ha & _).
  pose proof (chart_midheaven _ _ _ _ H) as Hm.
  destruct (ascendant_range ml bd) as [A0 A1].
  destruct (midheaven_range ml bd) as [M0 M1].
  destruct (sign_position_exact _ _ A0 A1 Ha) as (TA & IA).
  destruct (sign_position_exact _ _ M0 M1 Hm) as (TM & IM).
  assert (H1 : _house_for_longitude (totalDegrees (ascendant c)) (houseCusps c)
               = ret 1%Z).
  { rewrite Hc. rewrite house_for_longitude_spec by (rewrite TA; assumption).
    rewrite house_index_at_cusp; [reflexivity | apply norm_deg_range ..|].
    rewrite TA. symmetry. apply norm_deg_id; assumption. }
  split; [intros sp [-> | ->]; assumption|].
  split; [exact TA|]. split; [exact TM|].
  split.
  { rewrite Hc. eexists. split; [apply getitem_cusps; lia|].
    rewrite TA. change (inject_Z 0) with 0.
    rewrite (norm_deg_comp (birth_ascendant ml bd + 0 * 30)
               (birth_ascendant ml bd)) by lra.
    apply norm_deg_id; assumption. }
  split; [exact H1|].
  eexists. split; [reflexivity|]. cbn [p_totalDegrees house]. exact H1.
Qed.

Lemma chart_angles_exact_witness :
  exists c,
  calculate_natal_chart RefMath.lib sample_definitions sample_birth = ret c /\
  (forall sp, sp = ascendant c \/ sp = midheaven c ->
     0 <= totalDegrees sp /\ totalDegrees sp < 360 /\
     0 <= degrees sp /\ degrees sp < 30 /\
     getitem SIGN_ORDER (Qfloor (totalDegrees sp / 30)) = ret (sign sp) /\
     degrees sp
       == totalDegrees sp - 30 * inject_Z (Qfloor (totalDegrees sp / 30))) /\
  totalDegrees (ascendant c) == birth_ascendant RefMath.lib sample_birth /\
  totalDegrees (midheaven c) == birth_midheaven RefMath.lib sample_birth /\
  (exists c0,
     getitem (houseCusps c) 0 = ret c0 /\ c0 == totalDegrees (ascendant c)) /\
  _house_for_longitude (totalDegrees (ascendant c)) (houseCusps c) = ret 1%Z /\
  (exists p,
     AstrologyEngine._get_chart_position "ascendant" c = Some (PlanetAttr p) /\
     _house_for_longitude (p_totalDegrees p) (houseCusps c) = ret (house p)).
Proof.
  destruct (chart_total RefMath.lib sample_definitions sample_birth
              ref_cos_bounded date_sample) as [c H].
  exists c. split; [exact H|].
  exact (chart_angles_exact RefMath.lib sample_definitions sample_birth c H).
Defined.

(** ** The planets of a chart *)

Lemma Forall2_impl_in {A B} (P R : A -> B -> Prop) (l : list A)
    (k : list B) :
  Forall2 P l k -> (forall x y, In x l -> P x y -> R x y) -> Forall2 R l k.
Proof.
  intros H. induction H as [|x y l k Hxy _ IH]; intros HR; constructor.
  - apply HR; [left; reflexivity | exact Hxy].
  - apply IH. intros x' y' Hin. apply HR. right. exact Hin.
Qed.

(** Rounding to two decimals moves a value by at most half a
    hundredth. *)
Lemma round2_close (x : Q) :
  Py.round2 x - x <= 1 # 200 /\ x - Py.round2 x <= 1 # 200.
Proof.
  rewrite round2_value. destruct (round_spec (x * 100)) as [R0 R1].
  split; lra.
Qed.

Lemma build_position_fields (name : string) (lon : Q) (cusps : list Q)
    (r : bool) (p : PlanetPosition) :
  _build_position name lon cusps r = ret p ->
  planet p = name /\ retrograde p = r.
Proof.
  unfold _build_position. intros H.
  apply bind_ret_inv in H. destruct H as (sp & _ & H).
  apply bind_ret_inv in H. destruct H as (h & _ & H).
  apply ret_inj in H. subst p. split; reflexivity.
Qed.

(** Where the retrograde flags of a chart come from. *)
Lemma chart_flags (ml : MathLib) (defs : list AspectDef) (bd : BirthData)
    (c : NatalChart) :
  calculate_natal_chart ml defs bd = ret c ->
  retrograde (sun c) = false /\ retrograde (moon c) = false /\
  Forall (fun p =>
            _is_retrograde ml (planet p) (birth_julian_day bd)
            = ret (retrograde p))
    [mercury c; venus c; mars c; jupiter c; saturn c; uranus c; neptune c;
     pluto c].
Proof.
  unfold calculate_natal_chart. intros H.
  inv_bind H. injection H as <-.
  unfold birth_julian_day.
  cbn [sun moon mercury venus mars jupiter saturn uranus neptune pluto].
  repeat match goal with
  | H : _build_position ?n _ _ _ = ret ?p |- _ =>
      apply build_position_fields in H; destruct H as [? ?]
  end.
  split; [assumption|]. split; [assumption|].
  repeat (constructor;
          [ match goal with
            | Hn : planet ?p = ?id, Hr : retrograde ?p = ?r,
              H : _is_retrograde _ ?id _ = ret ?r
              |- _is_retrograde _ (planet ?p) _ = ret (retrograde ?p) =>
                rewrite Hn, Hr; exact H
            end | ]).
  constructor.
Qed.

(** The positions of a chart carry the names of their attributes. *)
Lemma chart_planet_names (ml : MathLib) (defs : list AspectDef)
    (bd : BirthData) (c : NatalChart) :
  calculate_natal_chart ml defs bd = ret c ->
  map planet (planets_of c)
  = ["sun"; "moon"; "mercury"; "venus"; "mars"; "jupiter"; "saturn";
     "uranus"; "neptune"; "pluto"].
Proof.
  intros H. destruct (chart_inversion _ _ _ _ H) as (F & _).
  assert (N : Forall2 (fun src p => planet p = fst src)
                (planet_sources ml (birth_julian_day bd)) (planets_of c)).
  { apply (Forall2_impl_in _ _ _ _ F).
    intros src p _ (lon & r & _ & Hb).
    apply build_position_fields in Hb. apply Hb. }
  unfold planet_sources, planets_of in *.
  repeat match goal with
  | H : Forall2 _ (_ :: _) (_ :: _) |- _ =>
      inversion H; clear H; subst
  end.
  cbn [map fst] in *. congruence.
Qed.

(** X11: what a chart stores for each of its ten planets, in the order
    sun to pluto: the name, the sign of the unrounded longitude, the
    longitude and the degrees within the sign each rounded to two
    decimals (so within 0.005 of the exact value and inside [[0, 360]]
    and [[0, 30]]), and the equal house counted from the ascendant,
    between 1 and 12.  Sun and Moon are never retrograde; the flag of a
    planet is the result of [_is_retrograde]. *)
Theorem chart_planets_stored (ml : MathLib) (defs : list AspectDef)
    (bd : BirthData) (c : NatalChart) :
  calculate_natal_chart ml defs bd = ret c ->
  Forall2
    (fun src p =>
       exists lon,
         snd src = ret lon /\ 0 <= lon /\ lon < 360 /\
         planet p = fst src /\
         getitem SIGN_ORDER (Qfloor (lon / 30)) = ret (p_sign p) /\
         p_totalDegrees p - lon <= 1 # 200 /\
         lon - p_totalDegrees p <= 1 # 200 /\
         p_degrees p - (lon - 30 * inject_Z (Qfloor (lon / 30))) <= 1 # 200 /\
         (lon - 30 * inject_Z (Qfloor (lon / 30))) - p_degrees p <= 1 # 200 /\
         0 <= p_totalDegrees p /\ p_totalDegrees p <= 360 /\
         0 <= p_degrees p /\ p_degrees p <= 30 /\
         house p
         = (Qfloor (from_cusp (totalDegrees (ascendant c)) lon / 30) + 1)%Z /\
         (1 <= house p <= 12)%Z)
    (planet_sources ml (birth_julian_day bd)) (planets_of c) /\
  map planet (planets_of c)
  = ["sun"; "moon"; "mercury"; "venus"; "mars"; "jupiter"; "saturn";
     "uranus"; "neptune"; "pluto"] /\
  retrograde (sun c) = false /\ retrograde (moon c) = false /\
  Forall (fun p =>
            _is_retrograde ml (planet p) (birth_julian_day bd)
            = ret (retrograde p))
    [mercury c; venus c; mars c; jupiter c; saturn c; uranus c; neptune c;
     pluto c].
Proof.
  intros H.
  destruct (chart_inversion _ _ _ _ H) as (F & Hc & Ha & _).
  destruct (ascendant_range ml bd) as [A0 A1].
  pose proof (degrees_to_sign_id _ _ A0 A1 Ha) as TA.
  destruct (norm_deg_range (birth_ascendant ml bd)) as [C0 C1].
  assert (G : Forall2
            (fun src p =>
               exists lon sp,
                 snd src = ret lon /\ 0 <= lon /\ lon < 360 /\
                 degrees_to_sign lon = ret sp /\
                 planet p = fst src /\
                 p_sign p = sign sp /\
                 p_degrees p = Py.round2 (degrees sp) /\
                 p_totalDegrees p = Py.round2 (totalDegrees sp) /\
                 house p
                 = (house_index (_norm_deg (birth_ascendant ml bd)) lon + 1)%Z)
            (planet_sources ml (birth_julian_day bd)) (planets_of c)).
  { apply (Forall2_impl_in _ _ _ _ F). intros src p Hin Hb.
    exact (built_from_spec _ _ _ _ _ Hin Hb). }
  split; [|split; [|apply (chart_flags _ _ _ _ H)]].
  - apply (Forall2_impl_in _ _ _ _ G).
    intros src p _ (lon & sp & Hs & L0 & L1 & Hsp & Hn & Hsg & Hd & Ht & Hh).
    destruct (sign_position_exact lon sp L0 L1 Hsp)
      as (T & T0 & T1 & D0 & D1 & S & D).
    assert (Fl : Qfloor (totalDegrees sp / 30) = Qfloor (lon / 30)).
    { apply Qfloor_comp. rewrite T. reflexivity. }
    rewrite Fl in S, D.
    destruct (round2_close (totalDegrees sp)) as [RT0 RT1].
    destruct (round2_close (degrees sp)) as [RD0 RD1].
    pose proof (house_index_range _ lon C0 C1 L0 L1) as HR.
    exists lon. rewrite Hsg, Hd, Ht, Hh.
    split; [exact Hs|]. split; [exact L0|]. split; [exact L1|].
    split; [exact Hn|]. split; [exact S|].
    split; [lra|]. split; [lra|]. split; [lra|]. split; [lra|].
    split; [apply round2_nonneg; exact T0|].
    split; [apply (round2_le _ 360); change (inject_Z 360) with 360; lra|].
    split; [apply round2_nonneg; exact D0|].
    split; [apply (round2_le _ 30); change (inject_Z 30) with 30; lra|].
    split; [|lia].
    unfold house_index. f_equal. apply Qfloor_comp.
    assert (E : from_cusp (_norm_deg (birth_ascendant ml bd)) lon
                == from_cusp (totalDegrees (ascendant c)) lon).
    { pose proof (norm_deg_id _ A0 A1) as N. unfold from_cusp.
      rewrite (leb_comp (_norm_deg (birth_ascendant ml bd)) lon
                 (totalDegrees (ascendant c)) lon)
        by (rewrite ?N, ?TA; reflexivity).
      destruct (Py.leb _ _); rewrite N, TA; reflexivity. }
    rewrite E. reflexivity.
  - apply (chart_planet_names _ _ _ _ H).
Qed.

Lemma chart_planets_stored_witness :
  exists c,
  calculate_natal_chart RefMath.lib sample_definitions sample_birth = ret c /\
  Forall2
    (fun src p =>
       exists lon,
         snd src = ret lon /\ 0 <= lon /\ lon < 360 /\
         planet p = fst src /\
         getitem SIGN_ORDER (Qfloor (lon / 30)) = ret (p_sign p) /\
         p_totalDegrees p - lon <= 1 # 200 /\
         lon - p_totalDegrees p <= 1 # 200 /\
         p_degrees p - (lon - 30 * inject_Z (Qfloor (lon / 30))) <= 1 # 200 /\
         (lon - 30 * inject_Z (Qfloor (lon / 30))) - p_degrees p <= 1 # 200 /\
         0 <= p_totalDegrees p /\ p_totalDegrees p <= 360 /\
         0 <= p_degrees p /\ p_degrees p <= 30 /\
         house p
         = (Qfloor (from_cusp (totalDegrees (ascendant c)) lon / 30) + 1)%Z /\
         (1 <= house p <= 12)%Z)
    (planet_sources RefMath.lib (birth_julian_day sample_birth))
    (planets_of c) /\
  map planet (planets_of c)
  = ["sun"; "moon"; "mercury"; "venus"; "mars"; "jupiter"; "saturn";
     "uranus"; "neptune"; "pluto"] /\
  retrograde (sun c) = false /\ retrograde (moon c) = false /\
  Forall (fun p =>
            _is_retrograde RefMath.lib (planet p) (birth_julian_day sample_birth)
            = ret (retrograde p))
    [mercury c; venus c; mars c; jupiter c; saturn c; uranus c; neptune c;
     pluto c].
Proof.
  destruct (chart_total RefMath.lib sample_definitions sample_birth
              ref_cos_bounded date_sample) as [c H].
  exists c. split; [exact H|].
  exact (chart_planets_stored RefMath.lib sample_definitions sample_birth c H).
Defined.

(** *** Retrograde motion *)

Lemma retrograde_direction (b a n : Q) :
  0 <= b -> b < 360 -> 0 <= a -> a < 360 ->
  0 <= n -> n < 360 -> (n == b - a \/ n == b - a + 360) ->
  Py.ltb
    (let diff := a - b in
     let diff := if Py.ltb 180 diff then diff - 360 else diff in
     let diff := if Py.ltb diff (-180) then diff + 360 else diff in
     diff) 0 = true <->
  (0 < n /\ n < 180) \/ a - b == -180.
Proof.
  intros B0 B1 A0 A1 N0 N1 N. cbv zeta.
  rewrite ltb_true.
  destruct (Py.ltb 180 (a - b)) eqn:E1;
    [apply ltb_true in E1 | apply ltb_false in E1];
  (match goal with
   | |- context [Py.ltb ?x (-180)] =>
       destruct (Py.ltb x (-180)) eqn:E2;
       [apply ltb_true in E2 | apply ltb_false in E2]
   end);
  destruct N as [N | N]; split;
    first [ intros H; (left; lra) || (right; lra) || (exfalso; lra)
          | intros [H | H]; lra
          | intros H; destruct (Qlt_le_dec (-180) (a - b));
            [left; lra | right; lra] ].
Qed.

Lemma geocentric_unknown_raises (ml : MathLib) (id : string) (jd : Q) :
  ORBITAL_ELEMENTS !! id = None ->
  exists e, geocentric_longitude ml id jd = raise e.
Proof.
  intros Hid. unfold geocentric_longitude.
  destruct (String.eqb id "earth"); [eexists; reflexivity|].
  cbv zeta. do 3 (apply bind_raises_r; intros ?).
  apply bind_raises_l. unfold elements_of. rewrite Hid.
  eexists. reflexivity.
Qed.

(** X12: [_is_retrograde] answers [False] for the Sun and the Moon
    without consulting the ephemeris; for another body whose longitudes
    one day before and one day after are [b] and [a], it answers [True]
    exactly when the body moved backward by less than half a turn
    ([0 < norm(b - a) < 180]), or by exactly half a turn with [a] the
    smaller longitude ([a - b = -180]). *)
Theorem is_retrograde_direction (ml : MathLib) (id : string) (jd b a : Q) :
  geocentric_longitude ml id (jd - 1) = ret b ->
  geocentric_longitude ml id (jd + 1) = ret a ->
  _is_retrograde ml "sun" jd = ret false /\
  _is_retrograde ml "moon" jd = ret false /\
  exists r,
    _is_retrograde ml id jd = ret r /\
    (r = true <->
     (0 < _norm_deg (b - a) /\ _norm_deg (b - a) < 180) \/ a - b == -180).
Proof.
  intros Hb Ha. split; [reflexivity|]. split; [reflexivity|].
  destruct (geocentric_range _ _ _ _ Hb) as [B0 B1].
  destruct (geocentric_range _ _ _ _ Ha) as [A0 A1].
  unfold _is_retrograde.
  destruct (String.eqb id "sun" || String.eqb id "moon") eqn:S.
  { exfalso. apply orb_true_iff in S.
    destruct S as [S | S]; apply String.eqb_eq in S; subst id.
    - destruct (geocentric_unknown_raises ml "sun" (jd - 1) eq_refl) as [e He].
      rewrite He in Hb. discriminate Hb.
    - destruct (geocentric_unknown_raises ml "moon" (jd - 1) eq_refl) as [e He].
      rewrite He in Hb. discriminate Hb. }
  rewrite Hb, Ha. cbn [bind ret]. eexists. split; [reflexivity|].
  destruct (norm_deg_range (b - a)) as [N0 N1].
  destruct (norm_deg_turns (b - a)) as [n Hn].
  apply retrograde_direction; try assumption.
  assert (L : (-2 < n)%Z).
  { rewrite Zlt_Qlt. change (inject_Z (-2)) with (-2). nlra. }
  assert (U : (n < 1)%Z).
  { rewrite Zlt_Qlt. change (inject_Z 1) with 1. nlra. }
  assert (C : n = 0%Z \/ n = (-1)%Z) by lia.
  destruct C as [-> | ->].
  - left. change (inject_Z 0) with 0 in Hn. nlra.
  - right. change (inject_Z (-1)) with (-1) in Hn. nlra.
Qed.

Lemma is_retrograde_direction_witness :
  exists b a,
  geocentric_longitude RefMath.lib "mars" (J2000 - 1) = ret b /\
  geocentric_longitude RefMath.lib "mars" (J2000 + 1) = ret a /\
  _is_retrograde RefMath.lib "sun" J2000 = ret false /\
  _is_retrograde RefMath.lib "moon" J2000 = ret false /\
  exists r,
    _is_retrograde RefMath.lib "mars" J2000 = ret r /\
    (r = true <->
     (0 < _norm_deg (b - a) /\ _norm_deg (b - a) < 180) \/ a - b == -180).
Proof.
  destruct (geocentric_total RefMath.lib "mars" (J2000 - 1) ref_cos_bounded
              ltac:(in_bodies) eq_refl
              ltac:(vm_compute; discriminate) ltac:(vm_compute; discriminate))
    as [b Hb].
  destruct (geocentric_total RefMath.lib "mars" (J2000 + 1) ref_cos_bounded
              ltac:(in_bodies) eq_refl
              ltac:(vm_compute; discriminate) ltac:(vm_compute; discriminate))
    as [a Ha].
  exists b, a. split; [exact Hb|]. split; [exact Ha|].
  exact (is_retrograde_direction RefMath.lib "mars" J2000 b a Hb Ha).
Defined.

(** ** The Sun sign of a calendar date *)

Lemma sun_sign_table :
  rev _SUN_SIGN_DATES =
  [ {| b_sign := "capricorn";   startMonth := 12; startDay := 22 |};
    {| b_sign := "sagittarius"; startMonth := 11; startDay := 22 |};
    {| b_sign := "scorpio";     startMonth := 10; startDay := 23 |};
    {| b_sign := "libra";       startMonth := 9;  startDay := 23 |};
    {| b_sign := "virgo";       startMonth := 8;  startDay := 23 |};
    {| b_sign := "leo";         startMonth := 7;  startDay := 23 |};
    {| b_sign := "cancer";      startMonth := 6;  startDay := 21 |};
    {| b_sign := "gemini";      startMonth := 5;  startDay := 21 |};
    {| b_sign := "taurus";      startMonth := 4;  startDay := 20 |};
    {| b_sign := "aries";       startMonth := 3;  startDay := 21 |};
    {| b_sign := "pisces";      startMonth := 2;  startDay := 19 |};
    {| b_sign := "aquarius";    startMonth := 1;  startDay := 20 |};
    {| b_sign := "capricorn";   startMonth := 1;  startDay := 1 |} ].
Proof. reflexivity. Qed.

(** The test of one boundary, as an order on (month, day). *)
Lemma boundary_test (month day sm sd : Z) :
  (month >? sm)%Z || ((month =? sm)%Z && (day >=? sd)%Z) = true <->
  (sm < month \/ (month = sm /\ sd <= day))%Z.
Proof.
  rewrite orb_true_iff, andb_true_iff, Z.gtb_ltb, Z.ltb_lt, Z.eqb_eq,
    Z.geb_leb, Z.leb_le.
  reflexivity.
Qed.

(** Case analysis on the boundaries in the order of the loop; of the
    boundaries that failed only the last one is kept, the table being
    sorted. *)
Ltac boundary_cases :=
  repeat match goal with
  | |- context [(?m >? ?sm)%Z || ((?m =? ?sm)%Z && (?d >=? ?sd)%Z)] =>
      let E := fresh "E" in
      destruct ((m >? sm)%Z || ((m =? sm)%Z && (d >=? sd)%Z)) eqn:E;
      [ apply boundary_test in E
      | apply not_true_iff_false in E; rewrite boundary_test in E;
        repeat match goal with
        | H : ~ _ |- _ => tryif constr_eq H E then fail else clear H
        end ]
  end.

Ltac sign_case :=
  split; [unfold SIGN_ORDER; cbn [In]; tauto|];
  repeat split;
    first [ intros H; first [discriminate H | lia]
          | intros H; first [reflexivity | exfalso; lia] ].

(** X13: [calculate_sun_sign] takes any two integers, validates neither,
    and always answers one of the twelve signs.  Each sign is answered
    exactly on the dates from its boundary to the day before the next
    boundary, days counted within the month as given (a day number
    beyond the end of the month stays in the month); Capricorn is
    answered from 22 December on, for every month number above 12,
    before 20 January, and, by the fallback after the loop, for every
    month number below 1.  [get_sun_sign] is the same function. *)
Theorem sun_sign_intervals (m d : Z) :
  In (calculate_sun_sign m d) SIGN_ORDER /\
  (calculate_sun_sign m d = "aries"
   <-> (m = 3 /\ 21 <= d) \/ (m = 4 /\ d < 20))%Z /\
  (calculate_sun_sign m d = "taurus"
   <-> (m = 4 /\ 20 <= d) \/ (m = 5 /\ d < 21))%Z /\
  (calculate_sun_sign m d = "gemini"
   <-> (m = 5 /\ 21 <= d) \/ (m = 6 /\ d < 21))%Z /\
  (calculate_sun_sign m d = "cancer"
   <-> (m = 6 /\ 21 <= d) \/ (m = 7 /\ d < 23))%Z /\
  (calculate_sun_sign m d = "leo"
   <-> (m = 7 /\ 23 <= d) \/ (m = 8 /\ d < 23))%Z /\
  (calculate_sun_sign m d = "virgo"
   <-> (m = 8 /\ 23 <= d) \/ (m = 9 /\ d < 23))%Z /\
  (calculate_sun_sign m d = "libra"
   <-> (m = 9 /\ 23 <= d) \/ (m = 10 /\ d < 23))%Z /\
  (calculate_sun_sign m d = "scorpio"
   <-> (m = 10 /\ 23 <= d) \/ (m = 11 /\ d < 22))%Z /\
  (calculate_sun_sign m d = "sagittarius"
   <-> (m = 11 /\ 22 <= d) \/ (m = 12 /\ d < 22))%Z /\
  (calculate_sun_sign m d = "capricorn"
   <-> (m = 12 /\ 22 <= d) \/ 12 < m \/ (m = 1 /\ d < 20) \/ m < 1)%Z /\
  (calculate_sun_sign m d = "aquarius"
   <-> (m = 1 /\ 20 <= d) \/ (m = 2 /\ d < 19))%Z /\
  (calculate_sun_sign m d = "pisces"
   <-> (m = 2 /\ 19 <= d) \/ (m = 3 /\ d < 21))%Z /\
  AstrologyEngine.get_sun_sign m d = calculate_sun_sign m d.
Proof.
  unfold AstrologyEngine.get_sun_sign, calculate_sun_sign.
  rewrite sun_sign_table.
  cbn [sun_sign_scan startMonth startDay b_sign].
  boundary_cases; sign_case.
Qed.

(** ** The synthesis of a reading *)

Lemma find_app {A} (f : A -> bool) (l k : list A) :
  find f (l ++ k)%list
  = match find f l with Some x => Some x | None => find f k end.
Proof.
  induction l as [|x l IH]; [reflexivity|].
  cbn [app find]. destruct (f x); [reflexivity | exact IH].
Qed.

(** A dict built item by item answers a lookup with the last item of
    that key. *)
Lemma dict_of_items {A V} (key : A -> string) (val : A -> V) (l : list A)
    (d : gmap string V) (id : string) :
  fold_left (fun d x => <[ key x := val x ]> d) l d !! id
  = match find (fun x => String.eqb (key x) id) (rev l) with
    | Some x => Some (val x)
    | None => d !! id
    end.
Proof.
  revert d. induction l as [|x l IH]; intros d; [reflexivity|].
  cbn [fold_left rev]. rewrite IH, find_app. cbn [find].
  destruct (find _ (rev l)); [reflexivity|].
  destruct (String.eqb_spec (key x) id) as [-> | Hne].
  - apply lookup_insert_eq.
  - apply lookup_insert_ne. exact Hne.
Qed.

Lemma feed_chart (s : AstrologyReadingState)
    (calls : list (string * FeedbackEntry)) :
  chart (feed s calls) = chart s.
Proof.
  revert s. induction calls as [|c calls IH]; intros s; [reflexivity|].
  change (feed s (c :: calls))
    with (feed (AstrologyEngine.record_feedback s (fst c) (snd c)) calls).
  rewrite IH. reflexivity.
Qed.

(** X14: [get_synthesis] on any reading state: a lookup of an
    identifier in its "planets" dict answers with the sign, degrees and
    house of the last of the ten positions that carries this name, and
    with nothing when none does; its "aspects" list follows the aspects
    of the chart one for one.  On a reading started by [start_reading],
    after any feedback, the dict has exactly the ten entries "sun" to
    "pluto", each the summary of the chart's position of that name, and
    the three signs are those of the chart. *)
Theorem synthesis_lookup (ml : MathLib) (defs : list AspectDef)
    (bd : BirthData) (s0 : AstrologyReadingState)
    (calls : list (string * FeedbackEntry)) :
  AstrologyEngine.start_reading ml defs bd = ret s0 ->
  (forall state id,
     s_planets (AstrologyEngine.get_synthesis state) !! id
     = option_map summary_of
         (find (fun p => String.eqb (planet p) id)
            (rev (planets_of (chart state)))) /\
     map as_orb (s_aspects (AstrologyEngine.get_synthesis state))
     = map orb (aspects (chart state))) /\
  let syn := AstrologyEngine.get_synthesis (feed s0 calls) in
  (forall p, In p (planets_of (chart s0)) ->
     s_planets syn !! planet p = Some (summary_of p)) /\
  (forall id, is_Some (s_planets syn !! id) <-> In id planet_names) /\
  s_planets syn !! "sun" = Some (summary_of (sun (chart s0))) /\
  s_planets syn !! "pluto" = Some (summary_of (pluto (chart s0))) /\
  sunSign syn = p_sign (sun (chart s0)) /\
  moonSign syn = p_sign (moon (chart s0)) /\
  s_ascendant syn = sign (ascendant (chart s0)) /\
  length (s_aspects syn) = length (aspects (chart s0)).
Proof.
  intros H.
  assert (G : forall state id,
             s_planets (AstrologyEngine.get_synthesis state) !! id
             = option_map summary_of
                 (find (fun p => String.eqb (planet p) id)
                    (rev (planets_of (chart state))))).
  { intros state id. unfold AstrologyEngine.get_synthesis. cbv zeta.
    cbn [s_planets].
    rewrite (dict_of_items planet summary_of). fold (planets_of (chart state)).
    destruct (find _ _); [reflexivity | apply lookup_empty]. }
  split.
  { intros state id. split; [apply G|].
    unfold AstrologyEngine.get_synthesis. cbv zeta. cbn [s_aspects].
    rewrite map_map. reflexivity. }
  cbv zeta.
  destruct (start_reading_inv _ _ _ _ H) as (Hc & _).
  pose proof (chart_planet_names _ _ _ _ Hc) as N.
  assert (L : forall id,
             s_planets (AstrologyEngine.get_synthesis (feed s0 calls)) !! id
             = option_map summary_of
                 (find (fun p => String.eqb (planet p) id)
                    (rev (planets_of (chart s0))))).
  { intros id. rewrite G, feed_chart. reflexivity. }
  pose proof (feed_chart s0 calls) as FC.
  generalize dependent (chart s0). intros c _ N L FC.
  unfold planets_of in *. cbn [map] in N.
  injection N as N0 N1 N2 N3 N4 N5 N6 N7 N8 N9.
  assert (P : forall p, In p [sun c; moon c; mercury c; venus c; mars c;
                               jupiter c; saturn c; uranus c; neptune c;
                               pluto c] ->
              s_planets (AstrologyEngine.get_synthesis (feed s0 calls))
                !! planet p = Some (summary_of p)).
  { intros p Hp. rewrite L. cbn [rev app find].
    rewrite N0, N1, N2, N3, N4, N5, N6, N7, N8, N9.
    cbn [In] in Hp.
    repeat (destruct Hp as [<- | Hp];
            [ rewrite ?N0, ?N1, ?N2, ?N3, ?N4, ?N5, ?N6, ?N7, ?N8, ?N9;
              reflexivity | ]).
    contradiction. }
  split; [exact P|].
  split.
  { intros id. rewrite L. cbn [rev app find].
    rewrite N0, N1, N2, N3, N4, N5, N6, N7, N8, N9.
    unfold planet_names. cbn [In].
    repeat match goal with
    | |- context [String.eqb ?a id] =>
        destruct (String.eqb_spec a id) as [<- | ?];
        [cbn [option_map]; split; [intros _; tauto | intros _; eexists; reflexivity]|]
    end.
    cbn [option_map]. split.
    - intros [x Hx]. discriminate Hx.
    - intros Hin. exfalso. intuition congruence. }
  split; [rewrite <- N0; apply P; cbn [In]; tauto|].
  split; [rewrite <- N9; apply P; cbn [In]; tauto|].
  unfold AstrologyEngine.get_synthesis. cbv zeta.
  cbn [sunSign moonSign s_ascendant s_aspects].
  rewrite FC, length_map. repeat split.
Qed.

Lemma synthesis_lookup_witness :
  exists s0,
  AstrologyEngine.start_reading RefMath.lib sample_definitions sample_birth
  = ret s0 /\
  (forall state id,
     s_planets (AstrologyEngine.get_synthesis state) !! id
     = option_map summary_of
         (find (fun p => String.eqb (planet p) id)
            (rev (planets_of (chart state)))) /\
     map as_orb (s_aspects (AstrologyEngine.get_synthesis state))
     = map orb (aspects (chart state))) /\
  let syn :=
    AstrologyEngine.get_synthesis (feed s0 [("sun", no_feedback)]) in
  (forall p, In p (planets_of (chart s0)) ->
     s_planets syn !! planet p = Some (summary_of p)) /\
  (forall id, is_Some (s_planets syn !! id) <-> In id planet_names) /\
  s_planets syn !! "sun" = Some (summary_of (sun (chart s0))) /\
  s_planets syn !! "pluto" = Some (summary_of (pluto (chart s0))) /\
  sunSign syn = p_sign (sun (chart s0)) /\
  moonSign syn = p_sign (moon (chart s0)) /\
  s_ascendant syn = sign (ascendant (chart s0)) /\
  length (s_aspects syn) = length (aspects (chart s0)).
Proof.
  destruct reading_sample as [s0 H]. exists s0. split; [exact H|].
  exact (synthesis_lookup RefMath.lib sample_definitions sample_birth s0
           [("sun", no_feedback)] H).
Defined.

(** ** The reading state, for every state *)

Lemma in_revealed (x : string) (l : list string) :
  x ∈ (list_to_set l : gset string) <-> In x l.
Proof. rewrite elem_of_list_to_set. apply list_elem_of_In. Qed.

(** The loop of [get_next_reveal]: it stops at the first identifier of
    the order that is not in the set. *)
Lemma first_unrevealed_spec (order : list string) (revealed : gset string)
    (c : NatalChart) :
  match AstrologyEngine.first_unrevealed order revealed c with
  | Some r =>
      exists pre post,
        order = (pre ++ r_planet r :: post)%list /\
        Forall (fun x => x ∈ revealed) pre /\
        (r_planet r ∉ revealed) /\
        r_position r = AstrologyEngine._get_chart_position (r_planet r) c
  | None => Forall (fun x => x ∈ revealed) order
  end.
Proof.
  induction order as [|x order IH]; [constructor|].
  cbn [AstrologyEngine.first_unrevealed].
  destruct (bool_decide (x ∉ revealed)) eqn:E.
  - apply bool_decide_eq_true in E.
    exists [], order. cbn [r_planet r_position app].
    repeat split; [constructor | exact E].
  - apply bool_decide_eq_false in E.
    assert (Hx : x ∈ revealed)
      by (destruct (decide (x ∈ revealed)); [assumption | contradiction]).
    destruct (AstrologyEngine.first_unrevealed order revealed c) as [r|].
    + destruct IH as (pre & post & -> & F & N & P).
      exists (x :: pre), post. repeat split; try assumption.
      constructor; assumption.
    + constructor; assumption.
Qed.

Lemma reveal_order_nodup : List.NoDup DEFAULT_REVEAL_ORDER.
Proof.
  unfold DEFAULT_REVEAL_ORDER.
  repeat (constructor;
          [cbn [In]; intros H;
           repeat (destruct H as [H | H]; [discriminate H|]); exact H|]).
  constructor.
Qed.

(** Every identifier of the reveal order has a planet position in every
    chart. *)
Lemma reveal_order_positions (c : NatalChart) (id : string) :
  In id DEFAULT_REVEAL_ORDER ->
  id <> "midheaven" /\
  exists p, AstrologyEngine._get_chart_position id c = Some (PlanetAttr p).
Proof.
  unfold DEFAULT_REVEAL_ORDER. cbn [In]. intros H.
  repeat (destruct H as [<- | H];
          [split; [discriminate | eexists; reflexivity]|]).
  contradiction.
Qed.

Lemma next_reveal_inv (state : AstrologyReadingState) :
  match AstrologyEngine.get_next_reveal state with
  | Some r =>
      (exists pre post,
         DEFAULT_REVEAL_ORDER = (pre ++ r_planet r :: post)%list /\
         Forall (fun x => In x (revealedPlanets state)) pre) /\
      In (r_planet r) DEFAULT_REVEAL_ORDER /\
      ~ In (r_planet r) (revealedPlanets state) /\
      r_position r
      = AstrologyEngine._get_chart_position (r_planet r) (chart state)
  | None =>
      Forall (fun x => In x (revealedPlanets state)) DEFAULT_REVEAL_ORDER
  end.
Proof.
  unfold AstrologyEngine.get_next_reveal. cbv zeta.
  pose proof (first_unrevealed_spec DEFAULT_REVEAL_ORDER
                (list_to_set (revealedPlanets state)) (chart state)) as H.
  destruct (AstrologyEngine.first_unrevealed _ _ _) as [r|].
  - destruct H as (pre & post & E & F & N & P).
    split.
    { exists pre, post. split; [exact E|].
      eapply List.Forall_impl; [|exact F].
      intros x Hx. apply in_revealed. exact Hx. }
    split; [rewrite E; apply in_or_app; right; left; reflexivity|].
    split; [intros Hr; apply N, in_revealed; exact Hr | exact P].
  - eapply List.Forall_impl; [|exact H].
    intros x Hx. apply in_revealed. exact Hx.
Qed.

(** X15: [get_next_reveal] on any state, reachable or not, whatever the
    list of revealed identifiers holds (duplicates, unknown names, any
    order): it returns the first identifier of the fixed order that is
    not in the list, with a planet position of the chart, never the
    midheaven; it returns nothing exactly when the eleven identifiers
    are all in the list, and then [is_complete] holds. *)
Theorem next_reveal_any_state (state : AstrologyReadingState) :
  match AstrologyEngine.get_next_reveal state with
  | Some r =>
      (exists pre post,
         DEFAULT_REVEAL_ORDER = (pre ++ r_planet r :: post)%list /\
         Forall (fun x => In x (revealedPlanets state)) pre) /\
      ~ In (r_planet r) (revealedPlanets state) /\
      r_planet r <> "midheaven" /\
      r_position r
      = AstrologyEngine._get_chart_position (r_planet r) (chart state) /\
      exists p, r_position r = Some (PlanetAttr p)
  | None =>
      Forall (fun x => In x (revealedPlanets state)) DEFAULT_REVEAL_ORDER /\
      AstrologyEngine.is_complete state = true
  end.
Proof.
  pose proof (next_reveal_inv state) as H.
  destruct (AstrologyEngine.get_next_reveal state) as [r|].
  - destruct H as (E & Hin & N & P).
    destruct (reveal_order_positions (chart state) _ Hin) as [M [p Hp]].
    split; [exact E|]. split; [exact N|]. split; [exact M|].
    split; [exact P|]. exists p. rewrite P. exact Hp.
  - split; [exact H|].
    unfold AstrologyEngine.is_complete. apply Nat.leb_le.
    apply List.NoDup_incl_length; [apply reveal_order_nodup|].
    intros x Hx. rewrite List.Forall_forall in H. apply H. exact Hx.
Qed.

Lemma feed_fields (s : AstrologyReadingState)
    (calls : list (string * FeedbackEntry)) :
  birthData (feed s calls) = birthData s /\
  revealedHouses (feed s calls) = revealedHouses s /\
  userFeedback (feed s calls) = (userFeedback s ++ map snd calls)%list.
Proof.
  revert s. induction calls as [|c calls IH]; intros s.
  - cbn. rewrite app_nil_r. repeat split.
  - change (feed s (c :: calls))
      with (feed (AstrologyEngine.record_feedback s (fst c) (snd c)) calls).
    destruct (IH (AstrologyEngine.record_feedback s (fst c) (snd c)))
      as (B & R & U).
    rewrite B, R, U.
    cbn [AstrologyEngine.record_feedback birthData revealedHouses
         userFeedback map].
    rewrite <- app_assoc. repeat split.
Qed.

(** X16: what any sequence of [record_feedback] calls keeps, from any
    state: the birth data, the chart and the revealed houses are
    unchanged; the feedback entries are appended in call order, one per
    identifier, so the two lists grow together; a reading that is
    complete stays complete, and once [get_next_reveal] has nothing to
    return it never returns anything again. *)
Theorem feedback_preserves (s : AstrologyReadingState)
    (calls : list (string * FeedbackEntry)) :
  birthData (feed s calls) = birthData s /\
  chart (feed s calls) = chart s /\
  revealedHouses (feed s calls) = revealedHouses s /\
  revealedPlanets (feed s calls) = (revealedPlanets s ++ map fst calls)%list /\
  userFeedback (feed s calls) = (userFeedback s ++ map snd calls)%list /\
  (length (revealedPlanets s) = length (userFeedback s) ->
   length (revealedPlanets (feed s calls))
   = length (userFeedback (feed s calls))) /\
  (AstrologyEngine.is_complete s = true ->
   AstrologyEngine.is_complete (feed s calls) = true) /\
  (AstrologyEngine.get_next_reveal s = None ->
   AstrologyEngine.get_next_reveal (feed s calls) = None).
Proof.
  destruct (feed_fields s calls) as (B & R & U).
  pose proof (feed_revealed s calls) as P.
  pose proof (feed_chart s calls) as C.
  split; [exact B|]. split; [exact C|]. split; [exact R|].
  split; [exact P|]. split; [exact U|].
  split; [|split].
  - intros L. rewrite P, U, !length_app, !length_map, L. reflexivity.
  - unfold AstrologyEngine.is_complete. rewrite P, length_app.
    rewrite !Nat.leb_le. lia.
  - intros N.
    pose proof (next_reveal_inv s) as I. rewrite N in I.
    pose proof (next_reveal_inv (feed s calls)) as J.
    destruct (AstrologyEngine.get_next_reveal (feed s calls)) as [r|];
      [|reflexivity].
    exfalso. destruct J as (_ & Hin & Hn & _). apply Hn. rewrite P.
    apply in_or_app. left. rewrite List.Forall_forall in I. apply I, Hin.
Qed.

(** ** The number and the shape of the aspects *)

Lemma aspects_of_pair_length (defs : list AspectDef) (p1 p2 : PlanetPosition) :
  (length (aspects_of_pair defs p1 p2) <= length defs)%nat.
Proof.
  unfold aspects_of_pair. cbv zeta.
  induction defs as [|d defs IH]; [apply Nat.le_refl|].
  cbn [flat_map]. rewrite length_app. cbn [length].
  destruct (Py.leb _ _); cbn [length]; lia.
Qed.

Lemma aspects_of_row_length (defs : list AspectDef) (p1 : PlanetPosition)
    (rest : list PlanetPosition) :
  (length (flat_map (aspects_of_pair defs p1) rest)
   <= length rest * length defs)%nat.
Proof.
  induction rest as [|p2 rest IH]; [apply Nat.le_refl|].
  cbn [flat_map length]. rewrite length_app.
  pose proof (aspects_of_pair_length defs p1 p2). lia.
Qed.

Lemma aspects_discovered_length (defs : list AspectDef)
    (positions : list PlanetPosition) :
  (2 * length (aspects_discovered defs positions)
   <= length positions * (length positions - 1) * length defs)%nat.
Proof.
  induction positions as [|p1 rest IH]; [apply Nat.le_refl|].
  cbn [aspects_discovered]. rewrite length_app.
  pose proof (aspects_of_row_length defs p1 rest) as R.
  cbn [length]. replace (Datatypes.S (length rest) - 1)%nat with (length rest)
    by lia.
  destruct (length rest) as [|r]; [lia|].
  replace (Datatypes.S r - 1)%nat with r in IH by lia. nia.
Qed.

Lemma calculate_aspects_length (defs : list AspectDef)
    (positions : list PlanetPosition) :
  length (calculate_aspects defs positions)
  = length (aspects_discovered defs positions).
Proof. unfold calculate_aspects. apply Permutation_length, sort_perm. Qed.

(** X17: [calculate_aspects] on the edges of its input: no aspect for
    fewer than two positions, none for an empty table; and in general
    at most one aspect for each pair of positions and definition,
    [n (n - 1) / 2] times the size of the table for [n] positions. *)
Theorem aspects_count (defs : list AspectDef)
    (positions : list PlanetPosition) :
  calculate_aspects defs [] = [] /\
  (forall p, calculate_aspects defs [p] = []) /\
  calculate_aspects [] positions = [] /\
  (2 * length (calculate_aspects defs positions)
   <= length positions * (length positions - 1) * length defs)%nat.
Proof.
  split; [reflexivity|]. split; [reflexivity|]. split.
  - pose proof (aspects_discovered_length [] positions) as L.
    rewrite <- calculate_aspects_length in L. cbn [length] in L.
    destruct (calculate_aspects [] positions); [reflexivity|].
    cbn [length] in L. lia.
  - rewrite calculate_aspects_length. apply aspects_discovered_length.
Qed.

Lemma planet_names_nodup : List.NoDup planet_names.
Proof.
  unfold planet_names.
  repeat (constructor;
          [cbn [In]; intros H;
           repeat (destruct H as [H | H]; [discriminate H|]); exact H|]).
  constructor.
Qed.

Lemma separation_range (positions : list PlanetPosition) (i j : nat) :
  Forall (fun p => 0 <= p_totalDegrees p /\ p_totalDegrees p <= 360)
    positions ->
  (i < length positions)%nat -> (j < length positions)%nat ->
  0 <= separation_at positions i j /\ separation_at positions i j <= 180.
Proof.
  intros F Hi Hj. rewrite List.Forall_forall in F.
  destruct (F _ (nth_In positions nobody Hi)) as [I0 I1].
  destruct (F _ (nth_In positions nobody Hj)) as [J0 J1].
  unfold separation_at. cbv zeta.
  generalize dependent (p_totalDegrees (nth i positions nobody)).
  generalize dependent (p_totalDegrees (nth j positions nobody)).
  intros y J0 J1 x I0 I1.
  pose proof (Qabs_nonneg (x - y)) as A0.
  assert (A1 : Qabs (x - y) <= 360) by (apply Qabs_Qle_condition; split; lra).
  destruct (Py.ltb 180 (Qabs (x - y))) eqn:E;
    [apply ltb_true in E | apply ltb_false in E]; split; lra.
Qed.

(** X18: the aspects of a chart: each joins two different planets of the
    ten, the first one earlier in the order sun to pluto, under one
    definition of the table; its separation lies in [[0, 180]] and
    within the tolerance of the definition; its orb is the distance to
    the exact angle rounded to two decimals, at most the tolerance plus
    0.005; and there are at most 45 aspects per definition. *)
Theorem chart_aspects_shape (ml : MathLib) (defs : list AspectDef)
    (bd : BirthData) (c : NatalChart) :
  calculate_natal_chart ml defs bd = ret c ->
  (length (aspects c) <= 45 * length defs)%nat /\
  Forall
    (fun x =>
       exists i j d,
         (i < j < 10)%nat /\ In d defs /\
         planet1 x = nth i planet_names "" /\
         planet2 x = nth j planet_names "" /\
         planet1 x <> planet2 x /\
         aspectName x = d_name d /\ aspectSymbol x = d_symbol d /\
         exactDegrees x = d_degrees d /\ nature x = d_nature d /\
         0 <= actualDegrees x /\ actualDegrees x <= 180 /\
         Qabs (actualDegrees x - exactDegrees x) <= d_orb d /\
         orb x = Py.round2 (Qabs (actualDegrees x - exactDegrees x)) /\
         0 <= orb x /\ orb x <= d_orb d + (1 # 200))
    (aspects c).
Proof.
  intros H.
  destruct (chart_inversion _ _ _ _ H) as (_ & _ & _ & Ha).
  destruct (chart_structure _ _ _ _ H) as (_ & B & _).
  pose proof (chart_planet_names _ _ _ _ H) as N.
  assert (L : length (planets_of c) = 10%nat) by reflexivity.
  assert (B' : Forall (fun p => 0 <= p_totalDegrees p
                                /\ p_totalDegrees p <= 360) (planets_of c)).
  { eapply List.Forall_impl; [|exact B].
    intros p (_ & T0 & T1 & _). split; assumption. }
  rewrite Ha. generalize dependent (planets_of c). intros ps _ _ N L B'.
  split.
  { pose proof (aspects_discovered_length defs ps) as D.
    rewrite <- calculate_aspects_length, L in D. cbn [Nat.sub] in D. lia. }
  apply List.Forall_forall. intros x Hx.
  unfold calculate_aspects in Hx.
  apply (Permutation_in _ (sort_perm _)) in Hx.
  rewrite aspects_discovered_spec in Hx.
  apply in_map_iff in Hx. destruct Hx as ([[i j] k] & <- & Ht).
  unfold matching_combinations in Ht. apply List.filter_In in Ht.
  destruct Ht as [Hc Hw]. apply in_combinations in Hc.
  rewrite L in Hc. destruct Hc as [Hij Hk].
  assert (Ni : forall n, planet (nth n ps nobody) = nth n planet_names "").
  { intros n. unfold planet_names. rewrite <- N.
    change "" with (planet nobody). symmetry. apply map_nth. }
  exists i, j, (nth k defs nothing).
  cbn [aspect_at planet1 planet2 aspectName aspectSymbol exactDegrees
       actualDegrees orb nature].
  cbn [within_orb orb_distance_at] in Hw. apply leb_true in Hw.
  destruct (separation_range ps i j B' ltac:(lia) ltac:(lia)) as [S0 S1].
  destruct (round2_close
              (Qabs (separation_at ps i j - d_degrees (nth k defs nothing))))
    as [R0 R1].
  split; [exact Hij|]. split; [apply nth_In; exact Hk|].
  split; [apply Ni|]. split; [apply Ni|].
  split.
  { rewrite !Ni. intros E.
    pose proof planet_names_nodup as ND.
    rewrite List.NoDup_nth in ND.
    specialize (ND i j ltac:(cbn; lia) ltac:(cbn; lia) E). lia. }
  repeat split; try assumption.
  - apply round2_nonneg, Qabs_nonneg.
  - cbn [orb_distance_at]. lra.
Qed.

Lemma chart_aspects_shape_witness :
  exists c,
  calculate_natal_chart RefMath.lib sample_definitions sample_birth = ret c /\
  (length (aspects c) <= 45 * length sample_definitions)%nat /\
  Forall
    (fun x =>
       exists i j d,
         (i < j < 10)%nat /\ In d sample_definitions /\
         planet1 x = nth i planet_names "" /\
         planet2 x = nth j planet_names "" /\
         planet1 x <> planet2 x /\
         aspectName x = d_name d /\ aspectSymbol x = d_symbol d /\
         exactDegrees x = d_degrees d /\ nature x = d_nature d /\
         0 <= actualDegrees x /\ actualDegrees x <= 180 /\
         Qabs (actualDegrees x - exactDegrees x) <= d_orb d /\
         orb x = Py.round2 (Qabs (actualDegrees x - exactDegrees x)) /\
         0 <= orb x /\ orb x <= d_orb d + (1 # 200))
    (aspects c).
Proof.
  destruct (chart_total RefMath.lib sample_definitions sample_birth
              ref_cos_bounded date_sample) as [c H].
  exists c. split; [exact H|].
  exact (chart_aspects_shape RefMath.lib sample_definitions sample_birth c H).
Defined.

(** ** The chart is returned, the fields are not validated *)

(** X19: given the loaded aspect table, [calculate_natal_chart],
    [compute_chart] and [start_reading] validate no field of the birth
    data and raise nothing, whatever finite numbers the month, day,
    hour, minute, latitude, longitude and timezone hold (month 13,
    latitude 1000), as long as the integer fields and the timezone are
    at most a million in magnitude ([fields_bounded]), the Julian Day
    they amount to lies within 36,500,000 days of J2000.0
    ([date_in_range], a little under a thousand centuries) and the
    cosine stays in [[-1, 1]]; the three return the same chart, and the
    reading starts with nothing revealed, the Sun being next.  (A
    latitude, longitude or timezone that is NaN or infinite is not a
    value of the embedding: in the source [math.tan] raises on an
    infinity and [int] on a NaN; an integer beyond the range of a float
    raises [OverflowError] in [to_julian_day].) *)
Theorem chart_returned (ml : MathLib) (defs : list AspectDef)
    (bd : BirthData) :
  cos_bounded ml -> fields_bounded bd ->
  date_in_range (birth_julian_day bd) ->
  exists c s,
    calculate_natal_chart ml defs bd = ret c /\
    AstrologyEngine.compute_chart ml defs bd = ret c /\
    AstrologyEngine.start_reading ml defs bd = ret s /\
    chart s = c /\ birthData s = bd /\
    revealedPlanets s = [] /\ revealedHouses s = [] /\ userFeedback s = [] /\
    AstrologyEngine.is_complete s = false /\
    AstrologyEngine.get_next_reveal s
    = Some {| r_planet := "sun"; r_position := Some (PlanetAttr (sun c)) |}.
Proof.
  intros Hc _ Hr.
  destruct (start_reading_total ml defs bd Hc Hr) as (s & Hs & B & R & Hh & F).
  destruct (start_reading_inv _ _ _ _ Hs) as (C & _).
  exists (chart s), s.
  split; [exact C|]. split; [exact C|]. split; [exact Hs|].
  split; [reflexivity|]. split; [exact B|]. split; [exact R|].
  split; [exact Hh|]. split; [exact F|].
  unfold AstrologyEngine.is_complete, AstrologyEngine.get_next_reveal.
  rewrite R. split; reflexivity.
Qed.

Lemma chart_returned_witness :
  cos_bounded RefMath.lib /\
  fields_bounded birth_unchecked /\
  date_in_range (birth_julian_day birth_unchecked) /\
  exists c s,
    calculate_natal_chart RefMath.lib sample_definitions birth_unchecked
    = ret c /\
    AstrologyEngine.compute_chart RefMath.lib sample_definitions
      birth_unchecked = ret c /\
    AstrologyEngine.start_reading RefMath.lib sample_definitions
      birth_unchecked = ret s /\
    chart s = c /\ birthData s = birth_unchecked /\
    revealedPlanets s = [] /\ revealedHouses s = [] /\ userFeedback s = [] /\
    AstrologyEngine.is_complete s = false /\
    AstrologyEngine.get_next_reveal s
    = Some {| r_planet := "sun"; r_position := Some (PlanetAttr (sun c)) |}.
Proof.
  assert (D : date_in_range (birth_julian_day birth_unchecked))
    by (vm_compute; split; discriminate).
  assert (B : fields_bounded birth_unchecked)
    by (vm_compute; repeat split; discriminate).
  split; [exact ref_cos_bounded|]. split; [exact B|]. split; [exact D|].
  exact (chart_returned RefMath.lib sample_definitions birth_unchecked
           ref_cos_bounded B D).
Defined.

(** ** Time zone and geographic longitude *)




(** X21: the local sidereal time lies in [[0, 360)] and takes the
    geographic longitude modulo whole turns: 190 degrees east and 170
    degrees west are the same place. *)
Theorem sidereal_time_turns (jd lon : Q) (k : Z) :
  0 <= _local_sidereal_time jd lon /\ _local_sidereal_time jd lon < 360 /\
  _local_sidereal_time jd (lon + 360 * inject_Z k)
  == _local_sidereal_time jd lon.
Proof.
  split; [apply norm_deg_range|]. split; [apply norm_deg_range|].
  unfold _local_sidereal_time. cbv zeta.
  match goal with
  | |- _norm_deg (?g + _) == _ =>
      generalize g; intros gmst
  end.
  transitivity (_norm_deg (gmst + lon + 360 * inject_Z k));
    [apply norm_deg_comp; lra | apply norm_deg_period].
Qed.

(** ** Where a chart can fail *)

Lemma is_retrograde_defined (ml : MathLib) (id : string) (jd : Q) :
  (exists b, geocentric_longitude ml id (jd - 1) = ret b) ->
  (exists a, geocentric_longitude ml id (jd + 1) = ret a) ->
  exists r, _is_retrograde ml id jd = ret r.
Proof.
  intros [b Hb] [a Ha]. unfold _is_retrograde.
  destruct (_ || _); [eexists; reflexivity|].
  rewrite Hb, Ha. cbn [bind ret]. eexists. reflexivity.
Qed.

(** X22: once the aspect table is loaded and for birth data of finite
    numbers, the integer fields and the timezone at most a million in
    magnitude ([fields_bounded]), the ephemeris of the eight planets is
    the only part of [calculate_natal_chart] that can raise: whenever
    [geocentric_longitude] returns for each planet on the day of birth,
    the day before and the day after, the chart is returned, for every
    [math] module; the sign lookup and the house search never fail.
    (With a NaN or an infinity among the fields, which the embedding
    does not have, the source fails elsewhere: [math.tan] raises on an
    infinite latitude and [int] on a NaN longitude; an integer beyond
    the range of a float raises [OverflowError] in [to_julian_day].) *)
Theorem chart_fails_only_by_ephemeris (ml : MathLib) (defs : list AspectDef)
    (bd : BirthData) :
  fields_bounded bd ->
  (forall id j,
     In id chart_bodies -> String.eqb id "earth" = false ->
     j = birth_julian_day bd - 1 \/ j = birth_julian_day bd \/
     j = birth_julian_day bd + 1 ->
     exists lon, geocentric_longitude ml id j = ret lon) ->
  exists c, calculate_natal_chart ml defs bd = ret c.
Proof.
  intros _ Hg.
  unfold calculate_natal_chart. unfold birth_julian_day in *.
  cbv zeta in *.
  set (jd := to_julian_day _ _ _ _ _) in *.
  repeat match goal with
  | |- exists _, bind (geocentric_longitude ?m ?id ?j) _ = _ =>
      let q := fresh "lon" in
      let E := fresh "E" in
      destruct (Hg id j ltac:(in_bodies) eq_refl
                  (or_intror (or_introl eq_refl))) as [q E];
      pose proof (geocentric_range _ _ _ _ E);
      apply bind_ok; exists q; split; [exact E | cbv beta]
  | |- exists _, bind (_build_position ?n ?lon (_equal_house_cusps ?asc) ?r) _ = _ =>
      let p := fresh "p" in
      let E := fresh "E" in
      destruct (build_position_total' n lon asc r
                  ltac:(first [assumption | apply sun_range | apply moon_range]))
        as [p E];
      apply bind_ok; exists p; split; [exact E | cbv beta]
  | |- exists _, bind (_is_retrograde ?m ?id ?j) _ = _ =>
      let r := fresh "r" in
      let E := fresh "E" in
      destruct (is_retrograde_defined m id j
                  (Hg id (j - 1) ltac:(in_bodies) eq_refl
                     (or_introl eq_refl))
                  (Hg id (j + 1) ltac:(in_bodies) eq_refl
                     (or_intror (or_intror eq_refl))))
        as [r E];
      apply bind_ok; exists r; split; [exact E | cbv beta]
  | |- exists _, bind (degrees_to_sign ?x) _ = _ =>
      let sp := fresh "sp" in
      let E := fresh "E" in
      destruct (degrees_to_sign_total x) as [sp E];
      apply bind_ok; exists sp; split; [exact E | cbv beta]
  end.
  eexists. reflexivity.
Qed.

Lemma chart_fails_only_by_ephemeris_witness :
  fields_bounded sample_birth /\
  (forall id j,
     In id chart_bodies -> String.eqb id "earth" = false ->
     j = birth_julian_day sample_birth - 1 \/ j = birth_julian_day sample_birth \/
     j = birth_julian_day sample_birth + 1 ->
     exists lon, geocentric_longitude RefMath.lib id j = ret lon) /\
  exists c,
    calculate_natal_chart RefMath.lib sample_definitions sample_birth = ret c.
Proof.
  assert (G : forall id j,
             In id chart_bodies -> String.eqb id "earth" = false ->
             j = birth_julian_day sample_birth - 1 \/
             j = birth_julian_day sample_birth \/
             j = birth_julian_day sample_birth + 1 ->
             exists lon, geocentric_longitude RefMath.lib id j = ret lon).
  { intros id j Hin Hne Hj. destruct date_sample as [J0 J1].
    apply (geocentric_total RefMath.lib id j ref_cos_bounded Hin Hne);
      destruct Hj as [-> | [-> | ->]]; lra. }
  assert (B : fields_bounded sample_birth)
    by (vm_compute; repeat split; discriminate).
  split; [exact B|]. split; [exact G|].
  exact (chart_fails_only_by_ephemeris RefMath.lib sample_definitions
           sample_birth B G).
Defined.

(** ** The set of revealed identifiers *)

(** X23: [get_next_reveal] reads the list of revealed identifiers as a
    set: two states with the same chart whose lists hold the same
    identifiers, in any order and any number of times, get the same
    answer (whereas [is_complete] counts the entries). *)
Theorem next_reveal_reads_a_set (s1 s2 : AstrologyReadingState) :
  chart s1 = chart s2 ->
  (forall x, In x (revealedPlanets s1) <-> In x (revealedPlanets s2)) ->
  AstrologyEngine.get_next_reveal s1 = AstrologyEngine.get_next_reveal s2.
Proof.
  intros Hc Hx. unfold AstrologyEngine.get_next_reveal. cbv zeta.
  rewrite Hc. f_equal. apply set_eq. intros x.
  rewrite !in_revealed. apply Hx.
Qed.

Lemma next_reveal_reads_a_set_witness :
  exists s0,
  AstrologyEngine.start_reading RefMath.lib sample_definitions sample_birth
  = ret s0 /\
  chart (feed s0 [("sun", no_feedback); ("moon", no_feedback)])
  = chart (feed s0 [("moon", no_feedback); ("sun", no_feedback);
                    ("sun", no_feedback)]) /\
  (forall x,
     In x (revealedPlanets
             (feed s0 [("sun", no_feedback); ("moon", no_feedback)])) <->
     In x (revealedPlanets
             (feed s0 [("moon", no_feedback); ("sun", no_feedback);
                       ("sun", no_feedback)]))) /\
  AstrologyEngine.get_next_reveal
    (feed s0 [("sun", no_feedback); ("moon", no_feedback)])
  = AstrologyEngine.get_next_reveal
      (feed s0 [("moon", no_feedback); ("sun", no_feedback);
                ("sun", no_feedback)]).
Proof.
  destruct reading_sample as [s0 H]. exists s0. split; [exact H|].
  assert (C : chart (feed s0 [("sun", no_feedback); ("moon", no_feedback)])
              = chart (feed s0 [("moon", no_feedback); ("sun", no_feedback);
                                ("sun", no_feedback)]))
    by reflexivity.
  assert (X : forall x,
             In x (revealedPlanets
                     (feed s0 [("sun", no_feedback); ("moon", no_feedback)])) <->
             In x (revealedPlanets
                     (feed s0 [("moon", no_feedback); ("sun", no_feedback);
                               ("sun", no_feedback)]))).
  { intros x. rewrite !feed_revealed.
    destruct (start_reading_inv _ _ _ _ H) as (_ & _ & R & _). rewrite R.
    cbn [map fst app In]. tauto. }
  split; [exact C|]. split; [exact X|].
  exact (next_reveal_reads_a_set _ _ C X).
Defined.

(** ** The equal houses in closed form *)

Lemma from_cusp_norm (asc lon : Q) :
  0 <= lon -> lon < 360 ->
  from_cusp (_norm_deg asc) lon == _norm_deg (lon - asc).
Proof.
  intros L0 L1.
  destruct (norm_deg_range asc) as [C0 C1].
  destruct (norm_deg_range (lon - asc)) as [N0 N1].
  destruct (from_cusp_range _ lon C0 C1 L0 L1) as [F0 F1].
  destruct (norm_deg_turns asc) as [n Hn].
  destruct (norm_deg_turns (lon - asc)) as [n' Hn'].
  revert F0 F1. unfold from_cusp.
  destruct (Py.leb (_norm_deg asc) lon); intros F0 F1.
  - apply (same_turn _ _ (n + n')); try assumption.
    rewrite inject_Z_plus. nlra.
  - apply (same_turn _ _ (n + n' + 1)); try assumption.
    rewrite !inject_Z_plus. change (inject_Z 1) with 1. nlra.
Qed.

(** X24: the equal-house search in closed form: on the twelve cusps of
    an ascendant, the house of a longitude of [[0, 360)] is
    [floor(norm(longitude - ascendant) / 30) + 1]; and each cusp opens
    its own house, the [i]-th cusp lying in house [i + 1]. *)
Theorem equal_house_formula (asc lon : Q) :
  0 <= lon -> lon < 360 ->
  _house_for_longitude lon (_equal_house_cusps asc)
  = ret (Qfloor (_norm_deg (lon - asc) / 30) + 1)%Z /\
  forall i, (0 <= i < 12)%Z ->
    exists cusp,
      getitem (_equal_house_cusps asc) i = ret cusp /\
      _house_for_longitude cusp (_equal_house_cusps asc) = ret (i + 1)%Z.
Proof.
  intros L0 L1. split.
  - rewrite house_for_longitude_spec by assumption.
    unfold house_index. do 2 f_equal. apply Qfloor_comp.
    rewrite (from_cusp_norm asc lon L0 L1). reflexivity.
  - intros i Hi. exists (cusp_at (_equal_house_cusps asc) i).
    split; [apply getitem_cusp_at; exact Hi|].
    rewrite cusp_at_cusps by exact Hi.
    destruct (norm_deg_range (asc + inject_Z i * 30)) as [K0 K1].
    rewrite house_for_longitude_spec by assumption.
    do 2 f_equal. symmetry.
    apply (pair_matches_index asc _ i K0 K1 Hi).
    unfold pair_matches_at, cusp_pair_matches.
    rewrite cusp_at_cusps by exact Hi.
    assert (R : Py.leb (_norm_deg (asc + inject_Z i * 30))
                  (_norm_deg (asc + inject_Z i * 30)) = true)
      by (apply leb_true; apply Qle_refl).
    rewrite R. destruct (Py.ltb _ _); reflexivity.
Qed.

Lemma equal_house_formula_witness :
  0 <= 50 /\ 50 < 360 /\
  _house_for_longitude 50 (_equal_house_cusps 100)
  = ret (Qfloor (_norm_deg (50 - 100) / 30) + 1)%Z /\
  forall i, (0 <= i < 12)%Z ->
    exists cusp,
      getitem (_equal_house_cusps 100) i = ret cusp /\
      _house_for_longitude cusp (_equal_house_cusps 100) = ret (i + 1)%Z.
Proof.
  assert (A : 0 <= 50) by (vm_compute; discriminate).
  assert (B : 50 < 360) by reflexivity.
  split; [exact A|]. split; [exact B|].
  exact (equal_house_formula 100 50 A B).
Defined.

(** ** What [solve_kepler] returns *)

(** X25: for an eccentricity strictly between -1 and 1 (and a cosine in
    [[-1, 1]]) [solve_kepler] never raises and returns a Newton iterate
    from the first guess [M]: the first one, among the iterates 1 to
    50, that was reached by a step smaller than 1e-12 in magnitude, or
    the 50th when no step was that small. *)
Theorem solve_kepler_newton (ml : MathLib) (M e : Q) :
  cos_bounded ml -> -1 < e -> e < 1 ->
  exists n,
    (1 <= n <= 50)%nat /\
    solve_kepler ml M e = ret (newton_iterate ml M e n M) /\
    (forall k, (Datatypes.S k < n)%nat ->
       small_step ml M e (newton_iterate ml M e k M) = false) /\
    (n < 50 ->
     exists k, n = Datatypes.S k /\
       small_step ml M e (newton_iterate ml M e k M) = true)%nat.
Proof.
  intros Hc E0 E1.
  destruct (solve_kepler_loop_spec ml M e 50 M Hc E0 E1)
    as (n & Hn & R & A & B).
  exists n. split; [|split; [exact R | split; [exact A | exact B]]].
  split; [|exact Hn].
  destruct n as [|n]; [|lia].
  destruct (B ltac:(lia)) as (k & Hk & _). lia.
Qed.

Lemma solve_kepler_newton_witness :
  cos_bounded RefMath.lib /\ -1 < 0.0167 /\ 0.0167 < 1 /\
  exists n,
    (1 <= n <= 50)%nat /\
    solve_kepler RefMath.lib 1 0.0167
    = ret (newton_iterate RefMath.lib 1 0.0167 n 1) /\
    (forall k, (Datatypes.S k < n)%nat ->
       small_step RefMath.lib 1 0.0167
         (newton_iterate RefMath.lib 1 0.0167 k 1) = false) /\
    (n < 50 ->
     exists k, n = Datatypes.S k /\
       small_step RefMath.lib 1 0.0167
         (newton_iterate RefMath.lib 1 0.0167 k 1) = true)%nat.
Proof.
  assert (A : -1 < 0.0167) by reflexivity.
  assert (B : 0.0167 < 1) by reflexivity.
  split; [exact ref_cos_bounded|]. split; [exact A|]. split; [exact B|].
  exact (solve_kepler_newton RefMath.lib 1 0.0167 ref_cos_bounded A B).
Defined.

(** ** The reveal cycle from any state *)

Lemma first_unrevealed_filter (order : list string) (revealed : gset string)
    (c : NatalChart) :
  AstrologyEngine.first_unrevealed order revealed c
  = match List.filter (fun id => bool_decide (id ∉ revealed)) order with
    | [] => None
    | id :: _ =>
        Some {| r_planet := id;
                r_position := AstrologyEngine._get_chart_position id c |}
    end.
Proof.
  induction order as [|x order IH]; [reflexivity|].
  cbn [AstrologyEngine.first_unrevealed List.filter].
  destruct (bool_decide (x ∉ revealed)); [reflexivity | exact IH].
Qed.

Lemma reveal_step_missing (fb : string -> FeedbackEntry)
    (state : AstrologyReadingState) :
  reveal_step fb state
  = match missing state with
    | [] => None
    | id :: _ => Some (AstrologyEngine.record_feedback state id (fb id))
    end.
Proof.
  unfold reveal_step, AstrologyEngine.get_next_reveal, missing. cbv zeta.
  rewrite first_unrevealed_filter.
  destruct (List.filter _ _); reflexivity.
Qed.

Lemma filter_and {A} (f g : A -> bool) (l : list A) :
  List.filter (fun x => f x && g x) l = List.filter g (List.filter f l).
Proof.
  induction l as [|x l IH]; [reflexivity|].
  cbn [List.filter]. destruct (f x); cbn [andb List.filter].
  - destruct (g x); rewrite IH; reflexivity.
  - exact IH.
Qed.

Lemma filter_all {A} (f : A -> bool) (l : list A) :
  (forall x, In x l -> f x = true) -> List.filter f l = l.
Proof.
  induction l as [|x l IH]; intros H; [reflexivity|].
  cbn [List.filter]. rewrite (H x (or_introl eq_refl)).
  rewrite IH; [reflexivity|]. intros y Hy. apply H. right. exact Hy.
Qed.

Lemma missing_nodup (state : AstrologyReadingState) :
  List.NoDup (missing state).
Proof. apply List.NoDup_filter, reveal_order_nodup. Qed.

(** Feedback for the first missing identifier removes it from the
    missing ones and nothing else. *)
Lemma missing_after_feedback (state : AstrologyReadingState) (id : string)
    (rest : list string) (f : FeedbackEntry) :
  missing state = id :: rest ->
  missing (AstrologyEngine.record_feedback state id f) = rest.
Proof.
  intros H. pose proof (missing_nodup state) as ND. rewrite H in ND.
  apply List.NoDup_cons_iff in ND. destruct ND as [Hid _].
  unfold missing in *. cbn [AstrologyEngine.record_feedback revealedPlanets].
  rewrite (List.filter_ext
             (fun x => bool_decide
                         (x ∉ (list_to_set (revealedPlanets state ++ [id])
                               : gset string)))
             (fun x => bool_decide
                         (x ∉ (list_to_set (revealedPlanets state)
                               : gset string))
                       && negb (String.eqb x id))).
  - rewrite filter_and, H. cbn [List.filter].
    rewrite String.eqb_refl. cbn [negb].
    apply filter_all. intros x Hx.
    destruct (String.eqb_spec x id) as [-> | _]; [contradiction | reflexivity].
  - intros x.
    destruct (String.eqb_spec x id) as [-> | Hne]; cbn [negb].
    + rewrite andb_false_r. apply bool_decide_eq_false.
      intros N. apply N. apply in_revealed. apply in_or_app.
      right. left. reflexivity.
    + rewrite andb_true_r. apply bool_decide_ext.
      rewrite !in_revealed. split; intros N I; apply N.
      * apply in_or_app. left. exact I.
      * apply in_app_or in I. destruct I as [I | [I | []]];
          [exact I | congruence].
Qed.

Lemma nothing_missing (state : AstrologyReadingState) :
  missing state = [] ->
  AstrologyEngine.get_next_reveal state = None /\
  AstrologyEngine.is_complete state = true.
Proof.
  intros H.
  assert (N : AstrologyEngine.get_next_reveal state = None).
  { unfold AstrologyEngine.get_next_reveal. cbv zeta.
    rewrite first_unrevealed_filter. fold (missing state). rewrite H.
    reflexivity. }
  split; [exact N|].
  pose proof (next_reveal_inv state) as I. rewrite N in I.
  unfold AstrologyEngine.is_complete. apply Nat.leb_le.
  apply List.NoDup_incl_length; [apply reveal_order_nodup|].
  intros x Hx. rewrite List.Forall_forall in I. apply I. exact Hx.
Qed.

Lemma reveal_cycle_from (fb : string -> FeedbackEntry) (k : nat) :
  forall (state : AstrologyReadingState) (fuel c : nat),
    length (missing state) = k -> (k < fuel)%nat ->
    exists sf,
      reveal_cycle fb fuel c state = Some ((c + k)%nat, sf) /\
      missing sf = [] /\
      chart sf = chart state /\
      revealedPlanets sf = (revealedPlanets state ++ missing state)%list.
Proof.
  induction k as [|k IH]; intros state fuel c Hk Hf.
  - destruct fuel as [|fuel]; [lia|].
    destruct (missing state) as [|id rest] eqn:M; [|discriminate Hk].
    exists state. cbn [reveal_cycle]. rewrite reveal_step_missing, M.
    rewrite Nat.add_0_r, app_nil_r. repeat split.
  - destruct fuel as [|fuel]; [lia|].
    destruct (missing state) as [|id rest] eqn:M; [discriminate Hk|].
    cbn [length] in Hk.
    pose proof (missing_after_feedback state id rest (fb id) M) as M'.
    destruct (IH (AstrologyEngine.record_feedback state id (fb id)) fuel
                (Datatypes.S c) ltac:(rewrite M'; lia) ltac:(lia))
      as (sf & R & E & C & P).
    exists sf. cbn [reveal_cycle]. rewrite reveal_step_missing, M.
    replace (c + Datatypes.S k)%nat with (Datatypes.S c + k)%nat by lia.
    split; [exact R|]. split; [exact E|]. split; [exact C|].
    rewrite P, M'.
    cbn [AstrologyEngine.record_feedback revealedPlanets].
    rewrite <- app_assoc. reflexivity.
Qed.

(** X26: from any state, reachable or not, the cycle of
    [get_next_reveal] and [record_feedback] for the identifier it
    returned ends after exactly as many turns as identifiers of the
    fixed order are missing from the list, at most eleven; it appends
    the missing identifiers in the fixed order, keeps the chart, and
    ends in a state that is complete and has nothing left to reveal. *)
Theorem reveal_cycle_any_state (fb : string -> FeedbackEntry)
    (state : AstrologyReadingState) :
  (length (missing state) <= 11)%nat /\
  (forall x, In x (missing state) <->
     In x DEFAULT_REVEAL_ORDER /\ ~ In x (revealedPlanets state)) /\
  forall fuel, (length (missing state) < fuel)%nat ->
    exists sf,
      reveal_cycle fb fuel 0 state = Some (length (missing state), sf) /\
      AstrologyEngine.get_next_reveal sf = None /\
      AstrologyEngine.is_complete sf = true /\
      chart sf = chart state /\
      revealedPlanets sf = (revealedPlanets state ++ missing state)%list.
Proof.
  split; [apply (List.filter_length_le _ DEFAULT_REVEAL_ORDER)|].
  split.
  { intros x. unfold missing. rewrite List.filter_In, bool_decide_eq_true.
    rewrite in_revealed. reflexivity. }
  intros fuel Hf.
  destruct (reveal_cycle_from fb _ state fuel 0 eq_refl Hf)
    as (sf & R & E & C & P).
  destruct (nothing_missing sf E) as [N I].
  exists sf. repeat split; assumption.
Qed.
